(** * baltic: loaders, date conversion and tree object model

    A shallow embedding of [src/baltic/dates.py], [src/baltic/models.py] and
    [src/baltic/io.py], with the properties the specification states about
    them.  Python values are modelled by inductive types, exceptions by a
    result type, files and standard output by an explicit world that the
    loaders thread through, and the tree engine of [tree.py] (which is not
    among the sources) by an interface the loaders are parametric in. *)

From Stdlib Require Import ZArith QArith Qround Qpower Lia Lqa Ascii.
From Stdlib Require OrderedTypeEx.
From stdpp Require Import base option list strings gmap pretty.

Set Warnings "-register-all".

(** ** Binary64 arithmetic

    Python floats are IEEE 754 binary64 numbers.  Every float operation the
    date code performs is the exact operation followed by one rounding to
    nearest, ties to even, at 53 bits of precision.  A float is represented
    by the rational number it denotes.  The exponent range is left
    unbounded: overflow, subnormal numbers, infinities and NaN are outside
    the model (the magnitudes reached by the date code are between 1e-14
    and 1e8). *)
Module F64.
Local Open Scope Q_scope.

(** [ilog2 q] is the binade of a positive [q]: the integer [e] with
    [2^e <= q < 2^(e+1)]. *)
Definition ilog2 (q : Q) : Z :=
  let e0 := (Z.log2 (Qnum q) - Z.log2 (Zpos (Qden q)))%Z in
  if Qle_bool (2 ^ e0) q then e0 else (e0 - 1)%Z.

(** Round a rational to the nearest integer, ties to even. *)
Definition rne (m : Q) : Z :=
  let f := Qfloor m in
  match Qcompare (m - inject_Z f) (1 # 2) with
  | Lt => f
  | Gt => (f + 1)%Z
  | Eq => if Z.even f then f else (f + 1)%Z
  end.

(** Rounding of a positive rational to 53 significant bits. *)
Definition round_pos (q : Q) : Q :=
  let k := (ilog2 q - 52)%Z in
  Qred (inject_Z (rne (q / 2 ^ k)) * 2 ^ k).

Definition round (q : Q) : Q :=
  match Qcompare q 0 with
  | Eq => 0
  | Gt => round_pos q
  | Lt => Qred (- round_pos (- q))
  end.

Definition add (x y : Q) : Q := round (x + y).
Definition sub (x y : Q) : Q := round (x - y).
Definition mul (x y : Q) : Q := round (x * y).
Definition div (x y : Q) : Q := round (x / y).

(** [int / int] (true division) and [float(int)]: the correctly rounded
    quotient, respectively value. *)
Definition div_int (a b : Z) : Q := round (inject_Z a / inject_Z b).
Definition of_int (a : Z) : Q := round (inject_Z a).

End F64.


(** ** Python values, exceptions and effects *)

(** The exceptions the modelled code raises, each with what it names
    (the missing name, attribute or key, or the failed assertion). *)
Inductive exn : Type :=
  | AssertionError (msg : string)
  | NameError (name : string)
  | AttributeError (obj attr : string)
  | KeyError (key : string)
  | IndexError (what : string)
  | ValueError (what : string)
  | TypeError (what : string)
  | OverflowError (what : string)
  | ZeroDivisionError (what : string)
  | FileNotFoundError (path : string)
  | ConnectionError (url : string).

Inductive result (A : Type) : Type :=
  | Ok (a : A)
  | Raise (e : exn).
Arguments Ok {A} a.
Arguments Raise {A} e.

Global Instance result_ret : MRet result := fun A a => Ok a.
Global Instance result_bind : MBind result := fun A B k r =>
  match r with
  | Ok a => k a
  | Raise e => Raise e
  end.
Global Instance result_fmap : FMap result := fun A B f r =>
  match r with
  | Ok a => Ok (f a)
  | Raise e => Raise e
  end.

Definition is_ok {A} (r : result A) : bool :=
  match r with Ok _ => true | Raise _ => false end.

(** [assert cond, msg] *)
Definition py_assert (cond : bool) (msg : string) : result unit :=
  if cond then Ok tt else Raise (AssertionError msg).

(** ** Strings

    The [str] methods the code calls, on 8-bit characters. *)
Module Str.

Definition in_range (lo hi c : ascii) : bool :=
  (N.leb (N_of_ascii lo) (N_of_ascii c) && N.leb (N_of_ascii c) (N_of_ascii hi))%bool.
Definition is_digit (c : ascii) : bool := in_range "0"%char "9"%char c.
Definition is_upper (c : ascii) : bool := in_range "A"%char "Z"%char c.
Definition is_lower (c : ascii) : bool := in_range "a"%char "z"%char c.
Definition is_alpha (c : ascii) : bool := (is_upper c || is_lower c)%bool.

Definition lower_char (c : ascii) : ascii :=
  if is_upper c then ascii_of_N (N_of_ascii c + 32) else c.

(** [s.lower()] *)
Fixpoint lower (s : string) : string :=
  match s with
  | EmptyString => EmptyString
  | String c s' => String (lower_char c) (lower s')
  end.

Fixpoint prefix (p s : string) : bool :=
  match p, s with
  | EmptyString, _ => true
  | String a p', String b s' => (Ascii.eqb a b && prefix p' s')%bool
  | String _ _, EmptyString => false
  end.

(** [s.find(sub)]: the lowest index where [sub] starts, if any. *)
Fixpoint find (sub s : string) : option nat :=
  if prefix sub s then Some 0
  else match s with
       | EmptyString => None
       | String _ s' => S <$> find sub s'
       end.

(** [sub in s] *)
Definition contains (sub s : string) : bool := bool_decide (is_Some (find sub s)).

(** [s.index(sub)] *)
Definition index (sub s : string) : result nat :=
  match find sub s with
  | Some i => Ok i
  | None => Raise (ValueError "substring not found")
  end.

(** [s[n:]] *)
Fixpoint drop (n : nat) (s : string) : string :=
  match n, s with
  | O, _ => s
  | S n', String _ s' => drop n' s'
  | S _, EmptyString => EmptyString
  end.

Fixpoint mem (c : ascii) (chars : string) : bool :=
  match chars with
  | EmptyString => false
  | String a chars' => (Ascii.eqb c a || mem c chars')%bool
  end.

Fixpoint lstrip (chars s : string) : string :=
  match s with
  | EmptyString => EmptyString
  | String c s' => if mem c chars then lstrip chars s' else s
  end.

(** [s.strip(chars)] *)
Definition strip (chars s : string) : string :=
  String.rev (lstrip chars (String.rev (lstrip chars s))).

(** [s.replace(c, "")] for a one-character [c] *)
Fixpoint remove_char (c : ascii) (s : string) : string :=
  match s with
  | EmptyString => EmptyString
  | String a s' => if Ascii.eqb a c then remove_char c s' else String a (remove_char c s')
  end.

(** [s.split(d)] for a one-character separator [d] *)
Fixpoint split (d : ascii) (s : string) : list string :=
  match s with
  | EmptyString => [EmptyString]
  | String c s' =>
      if Ascii.eqb c d then EmptyString :: split d s'
      else match split d s' with
           | [] => [String c EmptyString]
           | w :: ws => String c w :: ws
           end
  end.

(** [sep.join(parts)] *)
Fixpoint join (sep : string) (parts : list string) : string :=
  match parts with
  | [] => EmptyString
  | [w] => w
  | w :: ws => w +:+ sep +:+ join sep ws
  end.

(** [l[:-n]] for a positive [n] *)
Definition drop_last {A} (n : nat) (l : list A) : list A := take (length l - n) l.

Definition of_char (c : ascii) : string := String c EmptyString.

(** The decimal numeral of a run of digits, [int(s)]. *)
Fixpoint digits_value (acc : Z) (s : string) : Z :=
  match s with
  | EmptyString => acc
  | String c s' => digits_value (acc * 10 + Z.of_N (N_of_ascii c - 48)) s'
  end.

Fixpoint all_digits (s : string) : bool :=
  match s with
  | EmptyString => true
  | String c s' => (is_digit c && all_digits s')%bool
  end.

(** The longest prefix of [s] whose characters satisfy [p], and the rest. *)
Fixpoint span (p : ascii -> bool) (s : string) : string * string :=
  match s with
  | EmptyString => (EmptyString, EmptyString)
  | String c s' =>
      if p c then let '(a, b) := span p s' in (String c a, b)
      else (EmptyString, s)
  end.

Definition quote : string := String (ascii_of_nat 34) EmptyString.
Definition apostrophe : string := String (ascii_of_nat 39) EmptyString.
Definition newline : string := String (ascii_of_nat 10) EmptyString.
Definition tab : ascii := ascii_of_nat 9.

End Str.

(** ** Calendar instants: [datetime.datetime] and [datetime.timedelta]

    Datetimes of the proleptic Gregorian calendar, as the standard
    library defines them: a datetime is its seven fields, all within their
    ranges, and its time zone, which is [None] for a naive datetime and
    a fixed UTC offset for an aware one (what [strptime] builds from
    [%z]); a timedelta is a number of microseconds. *)
Module Datetime.
Local Open Scope Z_scope.

Definition MINYEAR : Z := 1.
Definition MAXYEAR : Z := 9999.

Definition is_leap (y : Z) : bool :=
  ((y mod 4 =? 0) && (negb (y mod 100 =? 0) || (y mod 400 =? 0)))%bool.

Definition days_before_year (y : Z) : Z :=
  let p := y - 1 in p * 365 + p / 4 - p / 100 + p / 400.

Definition days_in_month (y m : Z) : Z :=
  match m with
  | 1 | 3 | 5 | 7 | 8 | 10 | 12 => 31
  | 4 | 6 | 9 | 11 => 30
  | 2 => if is_leap y then 29 else 28
  | _ => 0
  end.

Definition days_in_year (y : Z) : Z := if is_leap y then 366 else 365.

Definition days_before_month_table (m : Z) : Z :=
  match m with
  | 1 => 0 | 2 => 31 | 3 => 59 | 4 => 90 | 5 => 120 | 6 => 151
  | 7 => 181 | 8 => 212 | 9 => 243 | 10 => 273 | 11 => 304 | 12 => 334
  | _ => 0
  end.

Definition days_before_month (y m : Z) : Z :=
  days_before_month_table m + (if ((2 <? m) && is_leap y)%bool then 1 else 0).

Definition fields_ok (y m d hh mm ss us : Z) : bool :=
  ((MINYEAR <=? y) && (y <=? MAXYEAR) && (1 <=? m) && (m <=? 12)
   && (1 <=? d) && (d <=? days_in_month y m)
   && (0 <=? hh) && (hh <? 24) && (0 <=? mm) && (mm <? 60)
   && (0 <=? ss) && (ss <? 60) && (0 <=? us) && (us <? 1000000))%bool.

(** A timedelta, in microseconds. *)
Definition timedelta : Type := Z.

Record datetime : Type := mk_datetime {
  year : Z;
  month : Z;
  day : Z;
  hour : Z;
  minute : Z;
  second : Z;
  microsecond : Z;
  tzinfo : option timedelta;
  datetime_ok : Is_true (fields_ok year month day hour minute second microsecond)
}.

(** [datetime(y, m, d, hh, mm, ss, us)]: a naive datetime; [ValueError]
    when a field is out of range. *)
Definition datetime_new (y m d hh mm ss us : Z) : result datetime :=
  match decide (Is_true (fields_ok y m d hh mm ss us)) with
  | left ok => Ok (mk_datetime y m d hh mm ss us None ok)
  | right _ => Raise (ValueError "datetime field out of range")
  end.

(** The same fields in another time zone. *)
Definition with_tzinfo (tz : option timedelta) (dt : datetime) : datetime :=
  mk_datetime (year dt) (month dt) (day dt) (hour dt) (minute dt) (second dt)
    (microsecond dt) tz (datetime_ok dt).

Definition toordinal (dt : datetime) : Z :=
  days_before_year (year dt) + days_before_month (year dt) (month dt) + day dt.

(** Microseconds since the start of day 0 of the calendar. *)
Definition to_us (dt : datetime) : Z :=
  ((toordinal dt * 86400 + hour dt * 3600 + minute dt * 60 + second dt) * 1000000)
  + microsecond dt.

(** The difference of the fields of two datetimes, their time zones
    left aside. *)
Definition delta (a b : datetime) : timedelta := to_us a - to_us b.

(** [a - b] on datetimes: the difference of the fields for two naive
    datetimes, corrected by the offsets for two aware ones; a naive and an
    aware datetime do not subtract. *)
Definition sub (a b : datetime) : result timedelta :=
  match tzinfo a, tzinfo b with
  | None, None => Ok (delta a b)
  | Some myoff, Some otoff => Ok (delta a b + otoff - myoff)
  | _, _ => Raise (TypeError "can't subtract offset-naive and offset-aware datetimes")
  end.

(** [td.total_seconds()]: the microsecond count divided by [10**6], as a
    float. *)
Definition total_seconds (td : timedelta) : Q := F64.div_int td 1000000.

(** [timedelta(seconds=s)] for a float [s]: rounded to the nearest
    microsecond, ties to even. *)
Definition timedelta_of_seconds (s : Q) : timedelta :=
  F64.rne (s * 1000000)%Q.

(** The date of an ordinal, following the standard library's
    decomposition into 400-, 100-, 4- and 1-year cycles. *)
Definition ord2ymd (n0 : Z) : Z * Z * Z :=
  let n := n0 - 1 in
  let n400 := n / 146097 in
  let n := n mod 146097 in
  let n100 := n / 36524 in
  let n := n mod 36524 in
  let n4 := n / 1461 in
  let n := n mod 1461 in
  let n1 := n / 365 in
  let n := n mod 365 in
  let y := n400 * 400 + 1 + n100 * 100 + n4 * 4 + n1 in
  if ((n1 =? 4) || (n100 =? 4))%bool then (y - 1, 12, 31)
  else
    let leapyear := ((n1 =? 3) && (negb (n4 =? 24) || (n100 =? 3)))%bool in
    let m := Z.shiftr (n + 50) 5 in
    let preceding := days_before_month_table m + (if ((2 <? m) && leapyear)%bool then 1 else 0) in
    if n <? preceding then
      let m' := m - 1 in
      let preceding' :=
        preceding - (days_in_month 1 m' + (if ((m' =? 2) && leapyear)%bool then 1 else 0)) in
      (y, m', n - preceding' + 1)
    else (y, m, n - preceding + 1).

(** [dt + td]: in the time zone of [dt] *)
Definition add (dt : datetime) (td : timedelta) : result datetime :=
  let us := to_us dt + td in
  let days := us / 86400000000 in
  let rest := us mod 86400000000 in
  let '(y, m, d) := ord2ymd days in
  if ((MINYEAR <=? y) && (y <=? MAXYEAR))%bool then
    r ← datetime_new y m d (rest / 3600000000) (rest / 60000000 mod 60)
                     (rest / 1000000 mod 60) (rest mod 1000000);
    Ok (with_tzinfo (tzinfo dt) r)
  else Raise (OverflowError "date value out of range").

(** [b] has the fields of [datetime(y, 1, 1)]. *)
Definition is_year_start (b : datetime) (y : Z) : Prop :=
  year b = y /\ month b = 1 /\ day b = 1 /\ hour b = 0 /\ minute b = 0
  /\ second b = 0 /\ microsecond b = 0.

(** [dt.replace(year=y)] *)
Definition replace_year (dt : datetime) (y : Z) : result datetime :=
  r ← datetime_new y (month dt) (day dt) (hour dt) (minute dt) (second dt) (microsecond dt);
  Ok (with_tzinfo (tzinfo dt) r).

End Datetime.

(** Python values: what attributes, traits and JSON documents hold.  A
    [VRef i] is a reference to the tree object at position [i] of its
    tree's registry; a [VMethod name] is the method [name] of a tree
    object, bound to the object it was read from. *)
Inductive PyVal : Type :=
  | VNone
  | VBool (b : bool)
  | VInt (z : Z)
  | VFloat (q : Q)
  | VStr (s : string)
  | VList (l : list PyVal)
  | VSet (l : list PyVal)
  | VDict (d : list (string * PyVal))
  | VRef (i : nat)
  | VMethod (name : string).

(** The standard-library functions the code calls whose behaviour depends
    on a pattern or format given by the caller: [datetime.strptime],
    [datetime.strftime] and [re.search] (the groups of the leftmost match,
    group 0 first). *)
Class PyLib : Type := {
  strptime : string -> string -> result Datetime.datetime;
  strftime : Datetime.datetime -> string -> string;
  re_search : string -> string -> option (list string)
}.

(** ** dates.py *)
Module Dates.
Import Datetime.

(** The names bound at module level in dates.py, by its two imports
    ([from datetime import datetime], [import re]) and three definitions. *)
Definition module_globals : list string :=
  ["datetime"; "re"; "decimal_date"; "calendar_date"; "convert_date"].

(** Reading a global name that neither the module nor the builtins bind
    raises [NameError]. *)
Definition load_global (name : string) : result unit :=
  if bool_decide (name ∈ module_globals) then Ok tt else Raise (NameError name).

(** [re.search("[^0-9A-Za-z%]", fmt)]: the first character of [fmt] that
    is neither alphanumeric nor a percent sign. *)
Definition is_field_char (c : ascii) : bool :=
  (Str.is_digit c || Str.is_alpha c || Ascii.eqb c "%"%char)%bool.

Fixpoint search_delimiter (fmt : string) : option ascii :=
  match fmt with
  | EmptyString => None
  | String c fmt' => if is_field_char c then search_delimiter fmt' else Some c
  end.

(** [delimit.join(fmt.split(delimit)[:-n])]; reading [join] off [None]
    raises [AttributeError]. *)
Definition drop_fields (delimit : option ascii) (n : nat) (fmt : string) : result string :=
  match delimit with
  | None => Raise (AttributeError "NoneType" "join")
  | Some d => Ok (Str.join (Str.of_char d) (Str.drop_last n (Str.split d fmt)))
  end.

(** Lines 24-35: the format that is handed to [strptime]. *)
Definition effective_format (date fmt : string) (variable : bool) : result string :=
  let delimit := search_delimiter fmt in
  if variable then
    let dateL :=
      match delimit with
      | Some d => length (Str.split d date)
      | None => 1
      end in
    if Nat.eqb dateL 2 then drop_fields delimit 1 fmt
    else if Nat.eqb dateL 1 then drop_fields delimit 2 fmt
    else Ok fmt
  else Ok fmt.

(** [x / y] on floats *)
Definition truediv (x y : Q) : result Q :=
  if Qeq_bool y 0 then Raise (ZeroDivisionError "float division by zero")
  else Ok (F64.div x y).

(** Lines 37-43: the fractional year of an instant.  The two starts of
    year are naive, so the first subtraction raises for an aware
    [adatetime]. *)
Definition year_fraction (adatetime : datetime) : result Q :=
  let y := year adatetime in
  boy ← datetime_new y 1 1 0 0 0 0;
  eoy ← datetime_new (y + 1) 1 1 0 0 0 0;
  elapsed ← sub adatetime boy;
  total ← sub eoy boy;
  frac ← truediv (total_seconds elapsed) (total_seconds total);
  Ok (F64.add (inject_Z y) frac).

Definition decimal_date `{PyLib} (date fmt : string) (variable : bool) : result PyVal :=
  if bool_decide (fmt = EmptyString) then Ok (VStr date)
  else
    fmt' ← effective_format date fmt variable;
    adatetime ← strptime date fmt';
    r ← year_fraction adatetime;
    Ok (VFloat r).

(** [int(x)] on a float: truncation towards zero. *)
Definition int_of_float (x : Q) : Z := Z.quot (Qnum x) (Zpos (Qden x)).

Definition calendar_date `{PyLib} (timepoint : Q) (fmt : string) : result string :=
  let y := int_of_float timepoint in
  let rem := F64.sub timepoint (inject_Z y) in
  base ← datetime_new y 1 1 0 0 0 0;
  (* [base + dt.timedelta(...)]: [dt] is read before the argument is
     evaluated *)
  _ ← load_global "dt";
  next ← replace_year base (year base + 1);
  total ← sub next base;
  let seconds := F64.mul (total_seconds total) rem in
  res ← add base (timedelta_of_seconds seconds);
  Ok (strftime res fmt).

Definition convert_date `{PyLib} (x start end_ : string) : result string :=
  d ← strptime x start;
  Ok (strftime d end_).

End Dates.

(** ** models.py

    Tree objects are dynamically typed: every attribute holds a Python
    value.  The eleven attributes [_name] ... [_y] that
    [BaseTreeObject.__init__] creates are the fields the properties read
    and write; [attrs] is the rest of the instance dictionary, in the
    order the attributes were first assigned. *)
Module Models.

Inductive variant : Type := Node | Leaf | Clade | Reticulation.

Record BaseTreeObject : Type := mk_object {
  cls : variant;
  _name : PyVal;
  _branch_type : PyVal;
  _length : PyVal;
  _width : PyVal;
  _height : PyVal;
  _absolute_time : PyVal;
  _parent : PyVal;
  _traits : PyVal;
  _index : PyVal;
  _x : PyVal;
  _y : PyVal;
  attrs : list (string * PyVal)
}.

(** [BaseTreeObject.__init__] *)
Definition base_init (c : variant) : BaseTreeObject :=
  {| cls := c; _name := VNone; _branch_type := VNone; _length := VNone;
     _width := VNone; _height := VNone; _absolute_time := VNone;
     _parent := VNone; _traits := VDict []; _index := VNone;
     _x := VNone; _y := VNone; attrs := [] |}.

(** The property getters. *)
Definition name (o : BaseTreeObject) : PyVal := _name o.
Definition branch_type (o : BaseTreeObject) : PyVal := _branch_type o.
Definition length (o : BaseTreeObject) : PyVal := _length o.
Definition width (o : BaseTreeObject) : PyVal := _width o.
Definition height (o : BaseTreeObject) : PyVal := _height o.
Definition absolute_time (o : BaseTreeObject) : PyVal := _absolute_time o.
Definition parent (o : BaseTreeObject) : PyVal := _parent o.
Definition traits (o : BaseTreeObject) : PyVal := _traits o.
Definition index (o : BaseTreeObject) : PyVal := _index o.
Definition x (o : BaseTreeObject) : PyVal := _x o.
Definition y (o : BaseTreeObject) : PyVal := _y o.

(** The property setters. *)
Definition set_name (v : PyVal) (o : BaseTreeObject) : BaseTreeObject :=
  mk_object (cls o) v (_branch_type o) (_length o) (_width o) (_height o)
    (_absolute_time o) (_parent o) (_traits o) (_index o) (_x o) (_y o) (attrs o).
Definition set_branch_type (v : PyVal) (o : BaseTreeObject) : BaseTreeObject :=
  mk_object (cls o) (_name o) v (_length o) (_width o) (_height o)
    (_absolute_time o) (_parent o) (_traits o) (_index o) (_x o) (_y o) (attrs o).
Definition set_length (v : PyVal) (o : BaseTreeObject) : BaseTreeObject :=
  mk_object (cls o) (_name o) (_branch_type o) v (_width o) (_height o)
    (_absolute_time o) (_parent o) (_traits o) (_index o) (_x o) (_y o) (attrs o).
Definition set_width (v : PyVal) (o : BaseTreeObject) : BaseTreeObject :=
  mk_object (cls o) (_name o) (_branch_type o) (_length o) v (_height o)
    (_absolute_time o) (_parent o) (_traits o) (_index o) (_x o) (_y o) (attrs o).
Definition set_height (v : PyVal) (o : BaseTreeObject) : BaseTreeObject :=
  mk_object (cls o) (_name o) (_branch_type o) (_length o) (_width o) v
    (_absolute_time o) (_parent o) (_traits o) (_index o) (_x o) (_y o) (attrs o).
Definition set_absolute_time (v : PyVal) (o : BaseTreeObject) : BaseTreeObject :=
  mk_object (cls o) (_name o) (_branch_type o) (_length o) (_width o) (_height o)
    v (_parent o) (_traits o) (_index o) (_x o) (_y o) (attrs o).
Definition set_parent (v : PyVal) (o : BaseTreeObject) : BaseTreeObject :=
  mk_object (cls o) (_name o) (_branch_type o) (_length o) (_width o) (_height o)
    (_absolute_time o) v (_traits o) (_index o) (_x o) (_y o) (attrs o).
Definition set_traits (v : PyVal) (o : BaseTreeObject) : BaseTreeObject :=
  mk_object (cls o) (_name o) (_branch_type o) (_length o) (_width o) (_height o)
    (_absolute_time o) (_parent o) v (_index o) (_x o) (_y o) (attrs o).
Definition set_index (v : PyVal) (o : BaseTreeObject) : BaseTreeObject :=
  mk_object (cls o) (_name o) (_branch_type o) (_length o) (_width o) (_height o)
    (_absolute_time o) (_parent o) (_traits o) v (_x o) (_y o) (attrs o).
Definition set_x (v : PyVal) (o : BaseTreeObject) : BaseTreeObject :=
  mk_object (cls o) (_name o) (_branch_type o) (_length o) (_width o) (_height o)
    (_absolute_time o) (_parent o) (_traits o) (_index o) v (_y o) (attrs o).
Definition set_y (v : PyVal) (o : BaseTreeObject) : BaseTreeObject :=
  mk_object (cls o) (_name o) (_branch_type o) (_length o) (_width o) (_height o)
    (_absolute_time o) (_parent o) (_traits o) (_index o) (_x o) v (attrs o).

(** [d[key] = v] on a dictionary: a present key keeps its place. *)
Fixpoint dict_set (key : string) (v : PyVal) (d : list (string * PyVal)) : list (string * PyVal) :=
  match d with
  | [] => [(key, v)]
  | (k, w) :: d' => if bool_decide (k = key) then (k, v) :: d' else (k, w) :: dict_set key v d'
  end.

Fixpoint dict_get (key : string) (d : list (string * PyVal)) : option PyVal :=
  match d with
  | [] => None
  | (k, w) :: d' => if bool_decide (k = key) then Some w else dict_get key d'
  end.

(** An assignment [self.attr = v] to a name that is no property. *)
Definition set_attr (attr : string) (v : PyVal) (o : BaseTreeObject) : BaseTreeObject :=
  mk_object (cls o) (_name o) (_branch_type o) (_length o) (_width o) (_height o)
    (_absolute_time o) (_parent o) (_traits o) (_index o) (_x o) (_y o)
    (dict_set attr v (attrs o)).

(** [Node.__init__] *)
Definition Node_init : BaseTreeObject :=
  let self := base_init Node in
  let self := set_branch_type (VStr "node") self in
  let self := set_length (VFloat 0) self in
  let self := set_attr "children" (VList []) self in
  let self := set_attr "child_height" VNone self in
  set_attr "leaves" (VSet []) self.

(** [Leaf.__init__]: the assigned name [branchType] is not the property
    [branch_type], so the assignment makes an attribute of its own. *)
Definition Leaf_init : BaseTreeObject :=
  let self := base_init Leaf in
  set_attr "branchType" (VStr "leaf") self.

(** [Clade.__init__] *)
Definition Clade_init (name : PyVal) : BaseTreeObject :=
  let self := base_init Clade in
  let self := set_name name self in
  let self := set_branch_type (VStr "leaf") self in
  let self := set_attr "subtree" VNone self in
  let self := set_attr "leaves" VNone self in
  let self := set_length (VFloat 0) self in
  let self := set_width (VInt 1) self in
  let self := set_attr "last_height" VNone self in
  set_attr "last_absolute_time" VNone self.

(** [Reticulation.__init__] *)
Definition Reticulation_init (name : PyVal) : BaseTreeObject :=
  let self := base_init Reticulation in
  let self := set_name name self in
  let self := set_branch_type (VStr "leaf") self in
  let self := set_length (VFloat 0) self in
  let self := set_height (VFloat 0) self in
  let self := set_width (VFloat (1 # 2)) self in
  set_attr "target" VNone self.

(** A freshly constructed object of each variant; the two leaf-like
    variants take the name they are given. *)
Definition construct (c : variant) (name : PyVal) : BaseTreeObject :=
  match c with
  | Node => Node_init
  | Leaf => Leaf_init
  | Clade => Clade_init name
  | Reticulation => Reticulation_init name
  end.

Definition is_leaflike (o : BaseTreeObject) : bool :=
  match cls o with Clade | Reticulation => true | Node | Leaf => false end.
Definition is_leaf (o : BaseTreeObject) : bool :=
  match cls o with Leaf => true | _ => false end.
Definition is_node (o : BaseTreeObject) : bool :=
  match cls o with Node => true | _ => false end.

(** The eleven properties of [BaseTreeObject]. *)
Inductive slot : Type :=
  | SName | SBranchType | SLength | SWidth | SHeight | SAbsoluteTime
  | SParent | STraits | SIndex | SX | SY.

Global Instance slot_eq_dec : EqDecision slot.
Proof. solve_decision. Defined.

Definition slots : list slot :=
  [SName; SBranchType; SLength; SWidth; SHeight; SAbsoluteTime;
   SParent; STraits; SIndex; SX; SY].

Definition slot_name (s : slot) : string :=
  match s with
  | SName => "name" | SBranchType => "branch_type" | SLength => "length"
  | SWidth => "width" | SHeight => "height" | SAbsoluteTime => "absolute_time"
  | SParent => "parent" | STraits => "traits" | SIndex => "index"
  | SX => "x" | SY => "y"
  end.

(** The property an attribute name reaches: the property of that name,
    or the one that keeps its value in the attribute of that name
    ([_length] for [length]). *)
Definition slot_of (attr : string) : option slot :=
  List.find (fun s => (bool_decide (attr = slot_name s)
                       || bool_decide (attr = "_" +:+ slot_name s))%bool) slots.

Definition get_slot (s : slot) (o : BaseTreeObject) : PyVal :=
  match s with
  | SName => name o | SBranchType => branch_type o | SLength => length o
  | SWidth => width o | SHeight => height o | SAbsoluteTime => absolute_time o
  | SParent => parent o | STraits => traits o | SIndex => index o
  | SX => x o | SY => y o
  end.

Definition set_slot (s : slot) (v : PyVal) (o : BaseTreeObject) : BaseTreeObject :=
  match s with
  | SName => set_name v o | SBranchType => set_branch_type v o
  | SLength => set_length v o | SWidth => set_width v o
  | SHeight => set_height v o | SAbsoluteTime => set_absolute_time v o
  | SParent => set_parent v o | STraits => set_traits v o
  | SIndex => set_index v o | SX => set_x v o | SY => set_y v o
  end.

(** The name of the class of an object, as error messages give it. *)
Definition class_name (c : variant) : string :=
  match c with
  | Node => "Node" | Leaf => "Leaf" | Clade => "Clade" | Reticulation => "Reticulation"
  end.

(** The methods the classes define beside [__init__]. *)
Definition methods : list string := ["is_leaflike"; "is_leaf"; "is_node"].

(** Names that start with two underscores reach the machinery of the
    object ([__dict__], [__class__], what [object] defines): they are
    outside what [getattr] and [setattr] model. *)
Definition dunder (attr : string) : bool := Str.prefix "__" attr.

(** [getattr(o, attr)]: a property or the attribute behind it, then the
    instance dictionary, then the methods of the class. *)
Definition getattr (o : BaseTreeObject) (attr : string) : result PyVal :=
  match slot_of attr with
  | Some s => Ok (get_slot s o)
  | None =>
      match dict_get attr (attrs o) with
      | Some v => Ok v
      | None =>
          if bool_decide (attr ∈ methods) then Ok (VMethod attr)
          else Raise (AttributeError (class_name (cls o)) attr)
      end
  end.

(** [setattr(o, attr, v)]: through the setter of a property, into the
    attribute behind a property, or into the instance dictionary. *)
Definition setattr (attr : string) (v : PyVal) (o : BaseTreeObject) : BaseTreeObject :=
  match slot_of attr with
  | Some s => set_slot s v o
  | None => set_attr attr v o
  end.

End Models.

(** ** The tree engine (tree.py)

    [tree.py] is not among the sources.  The loaders are written against
    its interface: a type of trees, the registry of a tree's objects (read,
    and written back after the loaders have assigned to attributes of the
    registered objects), and the construction and enrichment passes, each
    of which may raise.  Methods that mutate the tree in place return the
    tree they leave behind.  What the methods print while they run is
    not part of the interface: it would reach standard output between the
    lines the loaders print. *)

(** A value of the translation mapping of [load_json]: a key name, a
    function of the object (given the registry and the object's position
    in it), or anything else. *)
Inductive TransVal : Type :=
  | TStr (key : string)
  | TCallable (f : list Models.BaseTreeObject -> nat -> result PyVal)
  | TOther (v : PyVal).

Class TreeEngine : Type := {
  Tree : Type;
  objects : Tree -> list Models.BaseTreeObject;
  with_objects : list Models.BaseTreeObject -> Tree -> Tree;
  make_tree : string -> bool -> result Tree;
  make_tree_json : PyVal -> list (string * TransVal) -> bool -> result Tree;
  traverse_tree : bool -> Tree -> result Tree;
  sort_branches : Tree -> result Tree;
  draw_tree : Tree -> result Tree;
  tree_stats : Tree -> result Tree;
  get_external : Tree -> list Models.BaseTreeObject;
  set_absolute_time : PyVal -> Tree -> result Tree;
  rename_tips : gmap string string -> Tree -> result Tree;
  set_tipMap : gmap string string -> Tree -> Tree;
  set_cmap : list (PyVal * list (PyVal * PyVal)) -> Tree -> Tree
}.

(** ** The world of a load: files, open handles, the network and
    standard output

    [stdout] holds the lines that the [print] calls of io.py write, in
    their order; the output of tree.py is not in it, so nothing below
    states that a load prints nothing else. *)
Record file_handle : Type := mk_handle {
  fh_lines : list string;
  fh_closed : bool
}.

Record world : Type := mk_world {
  files : gmap string (list string);
  json_files : gmap string PyVal;
  web : gmap string PyVal;
  handles : list file_handle;
  stdout : list string
}.

Definition M (A : Type) : Type := world -> result A * world.

Global Instance M_ret : MRet M := fun A a w => (Ok a, w).
Global Instance M_bind : MBind M := fun A B k m w =>
  match m w with
  | (Ok a, w') => k a w'
  | (Raise e, w') => (Raise e, w')
  end.

(** A pure computation inside a load. *)
Definition lift {A} (r : result A) : M A := fun w => (r, w).

(** The world after [out] has been written to standard output. *)
Definition add_stdout (out : list string) (w : world) : world :=
  mk_world (files w) (json_files w) (web w) (handles w) (stdout w ++ out).

(** [print(s)] *)
Definition print (s : string) : M unit := fun w => (Ok tt, add_stdout [s] w).

Definition print_if (verbose : bool) (s : string) : M unit :=
  if verbose then print s else mret tt.

(** [open(path, "r")]: a new handle on the file's lines. *)
Definition open (path : string) : M nat := fun w =>
  match files w !! path with
  | Some lines =>
      (Ok (length (handles w)),
       mk_world (files w) (json_files w) (web w)
                (handles w ++ [mk_handle lines false]) (stdout w))
  | None => (Raise (FileNotFoundError path), w)
  end.

(** The world with [lines] left on the open handle [h]. *)
Definition with_lines (h : nat) (lines : list string) (w : world) : world :=
  mk_world (files w) (json_files w) (web w)
           (<[h := mk_handle lines false]> (handles w)) (stdout w).

(** [next(handle)]: the next line is taken off the stream; [None] at its
    end. *)
Definition next_line (h : nat) : M (option string) := fun w =>
  match handles w !! h with
  | Some fh =>
      if fh_closed fh then (Raise (ValueError "I/O operation on closed file"), w)
      else match fh_lines fh with
           | [] => (Ok None, w)
           | line :: rest => (Ok (Some line), with_lines h rest w)
           end
  | None => (Raise (ValueError "not a readable source"), w)
  end.

(** [for line in handle: body]: every turn takes one line off the stream
    and runs the body on it, so when the body raises, the lines after
    that one are still on the stream.  The loop ends when the stream
    does; the number of turns is bounded by [fuel]. *)
Fixpoint for_lines {St} (fuel : nat) (body : St -> string -> M St) (h : nat) (st : St)
    : M St :=
  match fuel with
  | O => mret st
  | S fuel' =>
      o ← next_line h;
      match o with
      | None => mret st
      | Some line => st' ← body st line; for_lines fuel' body h st'
      end
  end.

(** The number of lines left on a handle. *)
Definition lines_left (w : world) (h : nat) : nat :=
  match handles w !! h with
  | Some fh => length (fh_lines fh)
  | None => 0
  end.

(** The loop with fuel for every line left on the stream and for the
    last call of [next], which finds its end. *)
Definition for_each_line {St} (body : St -> string -> M St) (h : nat) (st : St) : M St :=
  fun w => for_lines (S (lines_left w h)) body h st w.

(** [handle.close()] *)
Definition close (h : nat) : M unit := fun w =>
  (Ok tt,
   mk_world (files w) (json_files w) (web w)
            (alter (fun fh => mk_handle (fh_lines fh) true) h (handles w)) (stdout w)).

(** [fh_is_open w h]: handle [h] exists and has not been closed. *)
Definition fh_is_open (w : world) (h : nat) : bool :=
  match handles w !! h with
  | Some fh => negb (fh_closed fh)
  | None => false
  end.

Definition fh_is_closed (w : world) (h : nat) : bool :=
  match handles w !! h with
  | Some fh => fh_closed fh
  | None => false
  end.

(** ** Operations on Python values *)
Module Py.

(** Truth value testing. *)
Definition truthy (v : PyVal) : bool :=
  match v with
  | VNone => false
  | VBool b => b
  | VInt z => negb (z =? 0)%Z
  | VFloat q => negb (Qeq_bool q 0)
  | VStr s => negb (bool_decide (s = EmptyString))
  | VList l => negb (bool_decide (length l = 0))
  | VSet l => negb (bool_decide (length l = 0))
  | VDict d => negb (bool_decide (length d = 0))
  | VRef _ => true
  | VMethod _ => true
  end.

Definition type_name (v : PyVal) : string :=
  match v with
  | VNone => "NoneType"
  | VBool _ => "bool"
  | VInt _ => "int"
  | VFloat _ => "float"
  | VStr _ => "str"
  | VList _ => "list"
  | VSet _ => "set"
  | VDict _ => "dict"
  | VRef _ => "BaseTreeObject"
  | VMethod _ => "method"
  end.

(** [a - b]: exact on integers, rounded once as soon as a float takes
    part. *)
Definition sub (a b : PyVal) : result PyVal :=
  let int_of v := match v with
                  | VInt z => Some z
                  | VBool b => Some (if b then 1 else 0)%Z
                  | _ => None
                  end in
  match int_of a, int_of b with
  | Some x, Some y => Ok (VInt (x - y))
  | Some x, None =>
      match b with
      | VFloat y => Ok (VFloat (F64.sub (F64.of_int x) y))
      | _ => Raise (TypeError "unsupported operand type(s) for -")
      end
  | None, Some y =>
      match a with
      | VFloat x => Ok (VFloat (F64.sub x (F64.of_int y)))
      | _ => Raise (TypeError "unsupported operand type(s) for -")
      end
  | None, None =>
      match a, b with
      | VFloat x, VFloat y => Ok (VFloat (F64.sub x y))
      | _, _ => Raise (TypeError "unsupported operand type(s) for -")
      end
  end.

Definition number (v : PyVal) : option Q :=
  match v with
  | VInt z => Some (inject_Z z)
  | VBool b => Some (if b then 1 else 0)%Q
  | VFloat q => Some q
  | _ => None
  end.

(** [a > b]: numbers by value, strings by code points. *)
Definition gt (a b : PyVal) : result bool :=
  match number a, number b with
  | Some x, Some y => Ok (negb (Qle_bool x y))
  | _, _ =>
      match a, b with
      | VStr s, VStr t => Ok (String.ltb t s)
      | _, _ => Raise (TypeError "'>' not supported between these instances")
      end
  end.

(** [max(l)]: the first greatest element. *)
Fixpoint max_from (m : PyVal) (l : list PyVal) : result PyVal :=
  match l with
  | [] => Ok m
  | v :: l' => b ← gt v m; max_from (if b : bool then v else m) l'
  end.

Definition max (l : list PyVal) : result PyVal :=
  match l with
  | [] => Raise (ValueError "max() arg is an empty sequence")
  | v :: l' => max_from v l'
  end.

(** [d[key]] for a string key *)
Definition getitem (d : PyVal) (key : string) : result PyVal :=
  match d with
  | VDict kvs =>
      match Models.dict_get key kvs with
      | Some v => Ok v
      | None => Raise (KeyError key)
      end
  | _ => Raise (TypeError "object is not subscriptable by a key")
  end.

(** [key in d] for a string key *)
Definition contains (key : string) (d : PyVal) : result bool :=
  match d with
  | VDict kvs => Ok (bool_decide (is_Some (Models.dict_get key kvs)))
  | VStr s => Ok (Str.contains key s)
  | VList l | VSet l =>
      Ok (existsb (fun v => match v with
                            | VStr s => bool_decide (s = key)
                            | _ => false
                            end) l)
  | _ => Raise (TypeError "argument is not iterable")
  end.

(** [l[i]] on a list *)
Definition list_item {A} (l : list A) (i : nat) : result A :=
  match l !! i with
  | Some a => Ok a
  | None => Raise (IndexError "list index out of range")
  end.

(** [iter(v)]: the items a [for] loop or an unpacking takes from [v]; a
    string gives its characters, a dictionary its keys. *)
Definition iterate (v : PyVal) : result (list PyVal) :=
  match v with
  | VList l | VSet l => Ok l
  | VStr s => Ok ((fun c => VStr (String c EmptyString)) <$> String.list_ascii_of_string s)
  | VDict d => Ok (VStr <$> d.*1)
  | _ => Raise (TypeError "object is not iterable")
  end.

(** Whether a value can be the key of a dictionary. *)
Definition hashable (v : PyVal) : bool :=
  match v with
  | VList _ | VSet _ | VDict _ => false
  | _ => true
  end.

(** Whether two hashable values are the same key of a dictionary:
    numbers by value ([1], [1.0] and [True] are one key), strings by
    their characters, objects by identity. *)
Definition key_eq (a b : PyVal) : bool :=
  match number a, number b with
  | Some x, Some y => Qeq_bool x y
  | None, None =>
      match a, b with
      | VNone, VNone => true
      | VStr s, VStr t => bool_decide (s = t)
      | VRef i, VRef j => bool_decide (i = j)
      | VMethod m, VMethod n => bool_decide (m = n)
      | _, _ => false
      end
  | _, _ => false
  end.

(** [str(v)], as [%s] formats it. *)
Definition str (v : PyVal) : string :=
  match v with
  | VStr s => s
  | VNone => "None"
  | VBool true => "True"
  | VBool false => "False"
  | _ => "<object>"
  end.

End Py.

(** ** io.py *)
Module Io.

(** What a loader is given to read from: a path, or a source the caller
    has already opened. *)
Inductive source : Type :=
  | Path (path : string)
  | Stream (handle : nat).

(** [isinstance(tree_path, str)], then [open] or the caller's handle. *)
Definition acquire (tree_path : source) : M nat :=
  match tree_path with
  | Path p => open p
  | Stream h => mret h
  end.

Definition release (tree_path : source) (handle : nat) : M unit :=
  match tree_path with
  | Path _ => close handle
  | Stream _ => mret tt
  end.

(** The first suffix of [s] at which [m] succeeds: how [re.search] moves
    a pattern along the text. *)
Fixpoint search_from {A} (m : string -> option A) (s : string) : option A :=
  match m s with
  | Some r => Some r
  | None => match s with
            | EmptyString => None
            | String _ s' => search_from m s'
            end
  end.

(** [re.search("dimensions ntax=([0-9]+);", s)]: group 1 *)
Definition match_dimensions (s : string) : option string :=
  if Str.prefix "dimensions ntax=" s then
    let '(ds, rest) := Str.span Str.is_digit (Str.drop 16 s) in
    if (negb (bool_decide (ds = EmptyString)) && Str.prefix ";" rest)%bool
    then Some ds else None
  else None.

Definition search_dimensions (s : string) : option string :=
  search_from match_dimensions s.

(** The character class of the second group of the translate-line
    pattern: letters, digits and [- _ / . ' | ?] and the blank. *)
Definition is_tip_name_char (c : ascii) : bool :=
  (Str.is_alpha c || Str.is_digit c || Str.mem c "-_/.' |?")%bool.

(** [re.search("([0-9]+) ([A-Za-z\-\_\/\.'0-9 \|?]+)", s)]: groups 1 and 2 *)
Definition match_tip (s : string) : option (string * string) :=
  let '(ds, rest) := Str.span Str.is_digit s in
  if bool_decide (ds = EmptyString) then None
  else match rest with
       | String " " rest' =>
           let '(nm, _) := Str.span is_tip_name_char rest' in
           if bool_decide (nm = EmptyString) then None else Some (ds, nm)
       | _ => None
       end.

Definition search_tip (s : string) : option (string * string) :=
  search_from match_tip s.

Section Loaders.
Context `{PyLib} `{TreeEngine}.

(** [re.search(pattern, v)]: the text must be a string. *)
Definition py_re_search (pattern : string) (v : PyVal) : result (option (list string)) :=
  match v with
  | VStr s => Ok (re_search pattern s)
  | _ => Raise (TypeError "expected string or bytes-like object")
  end.

(** [m.group(i)] *)
Definition group (m : list string) (i : nat) : result string :=
  match m !! i with
  | Some g => Ok g
  | None => Raise (IndexError "no such group")
  end.

Definition tip_dates_message (first_name : PyVal) (tip_regex date_fmt : string) : string :=
  "Regular expression failed to find tip dates in tip names, review regex pattern or set absolute_time option to False."
  +:+ Str.newline +:+ "First tip name encountered: " +:+ Py.str first_name
  +:+ Str.newline +:+ "Date regex set to: " +:+ tip_regex
  +:+ Str.newline +:+ "Expected date format: " +:+ date_fmt.

(** The loop over [ll.get_external()] of both text loaders, with its two
    accumulators. *)
Fixpoint collect_tip_dates (tip_regex date_fmt : string) (variable_date : bool)
    (external : list Models.BaseTreeObject) (tip_dates tip_names : list PyVal)
    : result (list PyVal * list PyVal) :=
  match external with
  | [] => Ok (tip_dates, tip_names)
  | k :: rest =>
      let n := Models.name k in
      let tip_names := tip_names ++ [n] in
      cerberus ← py_re_search tip_regex n;
      match cerberus with
      | Some m =>
          g ← group m 1;
          d ← Dates.decimal_date g date_fmt variable_date;
          collect_tip_dates tip_regex date_fmt variable_date rest (tip_dates ++ [d]) tip_names
      | None =>
          collect_tip_dates tip_regex date_fmt variable_date rest tip_dates tip_names
      end
  end.

(** The [if absolute_time:] block of both text loaders. *)
Definition calibrate (tip_regex date_fmt : string) (variable_date : bool)
    (ll : Tree) : result Tree :=
  '(tip_dates, tip_names) ← collect_tip_dates tip_regex date_fmt variable_date
                              (get_external ll) [] [];
  _ ← (if bool_decide (0 < length tip_dates) then Ok tt
       else
         first_name ← Py.list_item tip_names 0;
         Raise (AssertionError (tip_dates_message first_name tip_regex date_fmt)));
  highest_tip ← Py.max tip_dates;
  set_absolute_time highest_tip ll.

(** [assert ll, "..."] *)
Definition assert_tree (ll : option Tree) : result Tree :=
  match ll with
  | Some t => Ok t
  | None => Raise (AssertionError "Regular expression failed to find tree string")
  end.

(** One turn of the [for line in handle:] loop of [load_newick]. *)
Definition newick_line (verbose : bool) (ll : option Tree) (line : string)
    : M (option Tree) :=
  let l := Str.strip Str.newline line in
  if Str.contains "(" l then
    tree_string_start ← lift (Str.index "(" l);
    t ← lift (make_tree (Str.drop tree_string_start l) verbose);
    _ ← print_if verbose "Identified tree string";
    mret (Some t)
  else mret ll.

(** The turns of the loop on the lines [lines], one after the other. *)
Fixpoint newick_scan (verbose : bool) (lines : list string) (ll : option Tree)
    : M (option Tree) :=
  match lines with
  | [] => mret ll
  | line :: rest =>
      ll' ← newick_line verbose ll line;
      newick_scan verbose rest ll'
  end.

(** What follows the scan in [load_newick], up to the [close]. *)
Definition newick_finish (tip_regex date_fmt : string)
    (variable_date absolute_time verbose sort_branches_ : bool)
    (ll : option Tree) : result Tree :=
  ll ← assert_tree ll;
  ll ← traverse_tree verbose ll;
  ll ← (if sort_branches_ then sort_branches ll else Ok ll);
  if absolute_time then calibrate tip_regex date_fmt variable_date ll else Ok ll.

Definition load_newick (tree_path : source) (tip_regex date_fmt : string)
    (variable_date absolute_time verbose sort_branches_ : bool) : M Tree :=
  handle ← acquire tree_path;
  ll ← for_each_line (newick_line verbose) handle None;
  ll ← lift (newick_finish tip_regex date_fmt variable_date absolute_time
                           verbose sort_branches_ ll);
  _ ← release tree_path handle;
  mret ll.

(** The state of the scan of [load_nexus]. *)
Record nexus_state : Type := mk_nexus {
  tip_flag : bool;
  tips : gmap string string;
  tip_num : Z;
  nexus_ll : option Tree
}.

Definition nexus_start : nexus_state := mk_nexus false ∅ 0 None.

(** One turn of the [for line in handle:] loop of [load_nexus]. *)
Definition nexus_line (tree_string_regex : string) (verbose : bool)
    (st : nexus_state) (line : string) : M nexus_state :=
  let l := Str.strip Str.newline line in
  st ← match search_dimensions (Str.lower l) with
       | Some ds =>
           let n := Str.digits_value 0 ds in
           _ ← print_if verbose ("File should contain " +:+ pretty n +:+ " taxa");
           mret (mk_nexus (tip_flag st) (tips st) n (nexus_ll st))
       | None => mret st
       end;
  st ← match re_search tree_string_regex (Str.lower l) with
       | Some _ =>
           tree_string_start ← lift (Str.index "(" l);
           t ← lift (make_tree (Str.drop tree_string_start l) false);
           _ ← print_if verbose "Identified tree string";
           mret (mk_nexus (tip_flag st) (tips st) (tip_num st) (Some t))
       | None => mret st
       end;
  st ← (if tip_flag st then
          match search_tip l with
          | Some (g1, g2) =>
              let v := Str.strip Str.apostrophe (Str.strip Str.quote g2) in
              _ ← print_if verbose ("Identified tip translation " +:+ g1 +:+ ": " +:+ v);
              mret (mk_nexus (tip_flag st) (<[g1 := v]> (tips st)) (tip_num st) (nexus_ll st))
          | None =>
              if negb (Str.contains ";" l) then
                _ ← print ("tip not captured by regex: " +:+ Str.remove_char Str.tab l);
                mret st
              else mret st
          end
        else mret st);
  let st := if Str.contains "translate" (Str.lower l)
            then mk_nexus true (tips st) (tip_num st) (nexus_ll st) else st in
  let st := if Str.contains ";" l
            then mk_nexus false (tips st) (tip_num st) (nexus_ll st) else st in
  mret st.

(** The turns of the loop on the lines [lines], one after the other. *)
Fixpoint nexus_scan (tree_string_regex : string) (verbose : bool)
    (lines : list string) (st : nexus_state) : M nexus_state :=
  match lines with
  | [] => mret st
  | line :: rest =>
      st' ← nexus_line tree_string_regex verbose st line;
      nexus_scan tree_string_regex verbose rest st'
  end.

(** What follows the scan in [load_nexus], up to the [close].  The code
    calls [ll.traverse_tree()] without an argument: the default of
    [verbose] in tree.py is taken to be off. *)
Definition nexus_finish (tip_regex date_fmt : string)
    (variable_date absolute_time sort_branches_ : bool)
    (st : nexus_state) : result Tree :=
  ll ← assert_tree (nexus_ll st);
  ll ← traverse_tree false ll;
  ll ← (if sort_branches_ then sort_branches ll else Ok ll);
  ll ← (if bool_decide (0 < size (tips st)) then
          ll ← rename_tips (tips st) ll;
          Ok (set_tipMap (tips st) ll)
        else Ok ll);
  if absolute_time then calibrate tip_regex date_fmt variable_date ll else Ok ll.

Definition load_nexus (tree_path : source) (tip_regex date_fmt tree_string_regex : string)
    (variable_date absolute_time verbose sort_branches_ : bool) : M Tree :=
  handle ← acquire tree_path;
  st ← for_each_line (nexus_line tree_string_regex verbose) handle nexus_start;
  ll ← lift (nexus_finish tip_regex date_fmt variable_date absolute_time
                          sort_branches_ st);
  _ ← release tree_path handle;
  mret ll.

(** *** load_json *)

(** What [load_json] is given: a string (a URL or a path), or a parsed
    document. *)
Inductive json_source : Type :=
  | JsonStr (s : string)
  | JsonObject (doc : PyVal).

(** [json.load(csio(requests.get(url).content))] *)
Definition fetch_json (url : string) : M PyVal := fun w =>
  match web w !! url with
  | Some doc => (Ok doc, w)
  | None => (Raise (ConnectionError url), w)
  end.

(** [with open(path) as json_data: json.load(json_data)] *)
Definition read_json (path : string) : M PyVal := fun w =>
  match json_files w !! path with
  | Some doc => (Ok doc, w)
  | None => (Raise (FileNotFoundError path), w)
  end.

(** [key in json_translation] *)
Definition trans_has (key : string) (json_translation : list (string * TransVal)) : bool :=
  existsb (fun kv => bool_decide (kv.1 = key)) json_translation.

(** The condition of the first assertion (lines 167-171). *)
Definition translation_has_required (jt : list (string * TransVal)) : bool :=
  (trans_has "name" jt
   && (trans_has "absolute_time" jt || trans_has "length" jt || trans_has "height" jt))%bool.

Definition missing_entries_message (jt : list (string * TransVal)) : string :=
  "JSON translation dictionary missing entries: "
  +:+ Str.join ", " (filter (fun entry => negb (trans_has entry jt))
                            ["name"; "height"; "absolute_time"; "length"]).

(** The condition of the second assertion (lines 208-214). *)
Definition translation_is_exclusive (jt : list (string * TransVal)) : bool :=
  ((trans_has "absolute_time" jt
    && (negb (trans_has "length" jt) || negb (trans_has "height" jt)))
   || (negb (trans_has "absolute_time" jt)
       && (trans_has "length" jt || trans_has "height" jt)))%bool.

Definition exclusive_message : string :=
  "Cannot use both absolute time and branch length, include only one in json_translation dictionary.".

(** [d[key] = v] *)
Definition setitem (d : PyVal) (key : string) (v : PyVal) : result PyVal :=
  match d with
  | VDict kvs => Ok (VDict (Models.dict_set key v kvs))
  | _ => Raise (TypeError "object does not support item assignment")
  end.

(** [k.traits[key] = v] *)
Definition set_trait (key : string) (v : PyVal) (k : Models.BaseTreeObject)
    : result Models.BaseTreeObject :=
  t ← setitem (Models.traits k) key v;
  Ok (Models.set_traits t k).

(** The keys a [for key in d] loop visits; the node attributes of the
    schema are a mapping, anything else is refused. *)
Definition dict_keys (d : PyVal) : result (list string) :=
  match d with
  | VDict kvs => Ok (kvs.*1)
  | _ => Raise (TypeError "node_attrs is not a mapping")
  end.

(** The body of the loop over [k.traits["node_attrs"]] (lines 221-229). *)
Definition flatten_key (k : Models.BaseTreeObject) (key : string)
    : result Models.BaseTreeObject :=
  node_attrs ← Py.getitem (Models.traits k) "node_attrs";
  v ← Py.getitem node_attrs key;
  match v with
  | VDict d =>
      k ← match Models.dict_get "value" d with
          | Some x => set_trait key x k
          | None => Ok k
          end;
      match Models.dict_get "confidence" d with
      | Some x => set_trait (key +:+ "_confidence") x k
      | None => Ok k
      end
  | _ =>
      if bool_decide (key = "div") then set_trait "divergence" v k else Ok k
  end.

Fixpoint flatten_keys (k : Models.BaseTreeObject) (keys : list string)
    : result Models.BaseTreeObject :=
  match keys with
  | [] => Ok k
  | key :: rest => k' ← flatten_key k key; flatten_keys k' rest
  end.

Definition flatten_traits (k : Models.BaseTreeObject) : result Models.BaseTreeObject :=
  node_attrs ← Py.getitem (Models.traits k) "node_attrs";
  keys ← dict_keys node_attrs;
  flatten_keys k keys.

(** [for k in ll.objects: body]: the body sees the registry as the
    earlier turns left it, and what it returns replaces object [i]. *)
Fixpoint for_objects
    (body : list Models.BaseTreeObject -> nat -> Models.BaseTreeObject
            -> result Models.BaseTreeObject)
    (positions : list nat) (objs : list Models.BaseTreeObject)
    : result (list Models.BaseTreeObject) :=
  match positions with
  | [] => Ok objs
  | i :: rest =>
      k ← Py.list_item objs i;
      k' ← body objs i k;
      for_objects body rest (<[i := k']> objs)
  end.

Definition for_each_object
    (body : list Models.BaseTreeObject -> nat -> Models.BaseTreeObject
            -> result Models.BaseTreeObject)
    (objs : list Models.BaseTreeObject) : result (list Models.BaseTreeObject) :=
  for_objects body (seq 0 (length objs)) objs.

(** Where a key name of the translation mapping is looked up (lines
    234-250): the traits, then the node attributes, then the branch
    attributes. *)
Definition lookup_translated (key : string) (k : Models.BaseTreeObject) : result PyVal :=
  let tr := Models.traits k in
  in_traits ← Py.contains key tr;
  if in_traits : bool then Py.getitem tr key
  else
    has_node ← Py.contains "node_attrs" tr;
    in_node ← (if has_node : bool
               then na ← Py.getitem tr "node_attrs"; Py.contains key na
               else Ok false);
    if in_node : bool then na ← Py.getitem tr "node_attrs"; Py.getitem na key
    else
      has_branch ← Py.contains "branch_attrs" tr;
      in_branch ← (if has_branch : bool
                   then ba ← Py.getitem tr "branch_attrs"; Py.contains key ba
                   else Ok false);
      if in_branch : bool then ba ← Py.getitem tr "branch_attrs"; Py.getitem ba key
      else Raise (KeyError ("String attribute " +:+ key +:+ " not found in JSON")).

(** The body of the double loop of lines 231-257. *)
Definition translate_attr (attr : string) (tv : TransVal)
    (objs : list Models.BaseTreeObject) (i : nat) (k : Models.BaseTreeObject)
    : result Models.BaseTreeObject :=
  match tv with
  | TStr key => v ← lookup_translated key k; Ok (Models.setattr attr v k)
  | TCallable f => v ← f objs i; Ok (Models.setattr attr v k)
  | TOther _ => Raise (AttributeError "json_translation" "neither string nor callable")
  end.

Fixpoint apply_translation (json_translation : list (string * TransVal))
    (objs : list Models.BaseTreeObject) : result (list Models.BaseTreeObject) :=
  match json_translation with
  | [] => Ok objs
  | (attr, tv) :: rest =>
      objs' ← for_each_object (translate_attr attr tv) objs;
      apply_translation rest objs'
  end.

(** [getattr(v, attr)] on a value: a reference is followed into the
    registry, any other value has no such attribute. *)
Definition getattr_of (objs : list Models.BaseTreeObject) (v : PyVal) (attr : string)
    : result PyVal :=
  match v with
  | VRef j => o ← Py.list_item objs j; Models.getattr o attr
  | _ => Raise (AttributeError (Py.type_name v) attr)
  end.

(** The body of the loop of lines 262-268. *)
Definition derive_length (branch_unit : string)
    (objs : list Models.BaseTreeObject) (i : nat) (k : Models.BaseTreeObject)
    : result Models.BaseTreeObject :=
  cur_branch ← Models.getattr k branch_unit;
  par_branch ← getattr_of objs (Models.parent k) branch_unit;
  len ← (if (Py.truthy cur_branch && Py.truthy par_branch)%bool
         then Py.sub cur_branch par_branch
         else Ok (VFloat 0));
  Ok (Models.set_length len k).

(** Lines 260-268. *)
Fixpoint derive_lengths_for (units : list string)
    (json_translation : list (string * TransVal))
    (objs : list Models.BaseTreeObject) : result (list Models.BaseTreeObject) :=
  match units with
  | [] => Ok objs
  | branch_unit :: rest =>
      objs' ← (if trans_has branch_unit json_translation
               then for_each_object (derive_length branch_unit) objs
               else Ok objs);
      derive_lengths_for rest json_translation objs'
  end.

Definition derive_lengths (json_translation : list (string * TransVal))
    (objs : list Models.BaseTreeObject) : result (list Models.BaseTreeObject) :=
  derive_lengths_for ["height"; "absolute_time"] json_translation objs.

(** Lines 280-286: the colour map of the categorical colourings.  Its
    keys, and the categories of a scale, are hashable values of any
    type. *)

(** [d[key] = v] on a dictionary with keys of any type: a present key
    keeps its place. *)
Fixpoint assoc_set {V} (key : PyVal) (v : V) (d : list (PyVal * V)) : list (PyVal * V) :=
  match d with
  | [] => [(key, v)]
  | (k, w) :: d' => if Py.key_eq k key then (k, v) :: d' else (k, w) :: assoc_set key v d'
  end.

(** Hashing a key of a dictionary. *)
Definition hash (key : PyVal) : result unit :=
  if Py.hashable key then Ok tt else Raise (TypeError "unhashable type").

(** [key, value = entry] *)
Definition unpack_pair (entry : PyVal) : result (PyVal * PyVal) :=
  items ← Py.iterate entry;
  match items with
  | [key; value] => Ok (key, value)
  | _ => Raise (ValueError "not enough or too many values to unpack")
  end.

Fixpoint scale_entries (entries : list PyVal) (acc : list (PyVal * PyVal))
    : result (list (PyVal * PyVal)) :=
  match entries with
  | [] => Ok acc
  | entry :: rest =>
      '(key, value) ← unpack_pair entry;
      _ ← hash key;
      scale_entries rest (assoc_set key value acc)
  end.

(** [colouring["type"] == "categorical"] *)
Definition is_categorical (ty : PyVal) : bool :=
  match ty with
  | VStr s => bool_decide (s = "categorical")
  | _ => false
  end.

Fixpoint build_cmap (colorings : list PyVal) (cmap : list (PyVal * list (PyVal * PyVal)))
    : result (list (PyVal * list (PyVal * PyVal))) :=
  match colorings with
  | [] => Ok cmap
  | colouring :: rest =>
      ty ← Py.getitem colouring "type";
      has_scale ← (if is_categorical ty then Py.contains "scale" colouring else Ok false);
      if has_scale : bool then
        key ← Py.getitem colouring "key";
        _ ← hash key;
        scale ← Py.getitem colouring "scale";
        entries ← Py.iterate scale;
        colours ← scale_entries entries [];
        build_cmap rest (assoc_set key colours cmap)
      else build_cmap rest cmap
  end.

Definition load_json (json_object : json_source)
    (json_translation : list (string * TransVal))
    (verbose sort stats : bool) : M (Tree * PyVal) :=
  _ ← lift (py_assert (translation_has_required json_translation)
                      (missing_entries_message json_translation));
  _ ← print_if verbose "Reading JSON";
  auspice_json ←
    match json_object with
    | JsonStr s =>
        if Str.contains "nextstrain.org" s then
          _ ← print_if verbose "Assume URL provided, loading JSON from nextstrain.org";
          fetch_json s
        else
          _ ← print_if verbose "Loading JSON from local path";
          read_json s
    | JsonObject doc =>
        _ ← print_if verbose "Loading JSON from object given";
        mret doc
    end;
  json_meta ← lift (Py.getitem auspice_json "meta");
  json_tree ← lift (Py.getitem auspice_json "tree");
  ll ← lift (make_tree_json json_tree json_translation verbose);
  _ ← lift (py_assert (translation_is_exclusive json_translation) exclusive_message);
  _ ← print_if verbose "Setting baltic traits from JSON";
  objs ← lift (for_each_object (fun _ _ k => flatten_traits k) (objects ll));
  objs ← lift (apply_translation json_translation objs);
  objs ← lift (derive_lengths json_translation objs);
  let ll := with_objects objs ll in
  _ ← print_if verbose "Traversing and drawing tree";
  ll ← lift (traverse_tree verbose ll);
  ll ← lift (draw_tree ll);
  ll ← lift (if stats then tree_stats ll else Ok ll);
  ll ← lift (if sort then sort_branches ll else Ok ll);
  colorings ← lift (Py.getitem json_meta "colorings");
  colorings ← lift (Py.iterate colorings);
  cmap ← lift (build_cmap colorings []);
  mret (set_cmap cmap ll, json_meta).

End Loaders.
End Io.

(** ** A model of the standard library for sample runs

    The theorems below hold for every [PyLib].  To run the code on sample
    inputs this instance models [strptime] and [strftime] for the numeric
    directives [%Y %m %d %H %M %S %f] (and [%%], literal text and blanks),
    and [strptime] for [%z] in the forms [Z], [+HHMM] and [+HH:MM],
    following the regular expression the standard library builds from a
    format: a directive tries its alternatives in order, the first overall
    match is taken, and text left over is an error.  Other directives, and
    a UTC offset with a seconds part, are refused.  [re.search] is modelled
    for the two default patterns of the loaders. *)
Module PyStd.
Import Datetime.

Inductive item : Type :=
  | Lit (c : ascii)
  | Blank
  | Dir (c : ascii).

Fixpoint parse_format (fmt : string) : result (list item) :=
  match fmt with
  | EmptyString => Ok []
  | String c rest =>
      if Ascii.eqb c "%"%char then
        match rest with
        | EmptyString => Raise (ValueError "stray % in format")
        | String d rest' => items ← parse_format rest'; Ok (Dir d :: items)
        end
      else
        items ← parse_format rest;
        if Ascii.is_space c then
          match items with
          | Blank :: _ => Ok items
          | _ => Ok (Blank :: items)
          end
        else Ok (Lit c :: items)
  end.

(** The fields a match has bound so far. *)
Record fields : Type := mk_fields {
  f_year : option Z; f_month : option Z; f_day : option Z;
  f_hour : option Z; f_minute : option Z; f_second : option Z;
  f_fraction : option Z; f_gmtoff : option Z
}.

Definition no_fields : fields := mk_fields None None None None None None None None.

Definition bind_field (d : ascii) (v : Z) (f : fields) : fields :=
  if Ascii.eqb d "Y"%char then
    mk_fields (Some v) (f_month f) (f_day f) (f_hour f) (f_minute f) (f_second f) (f_fraction f) (f_gmtoff f)
  else if Ascii.eqb d "m"%char then
    mk_fields (f_year f) (Some v) (f_day f) (f_hour f) (f_minute f) (f_second f) (f_fraction f) (f_gmtoff f)
  else if Ascii.eqb d "d"%char then
    mk_fields (f_year f) (f_month f) (Some v) (f_hour f) (f_minute f) (f_second f) (f_fraction f) (f_gmtoff f)
  else if Ascii.eqb d "H"%char then
    mk_fields (f_year f) (f_month f) (f_day f) (Some v) (f_minute f) (f_second f) (f_fraction f) (f_gmtoff f)
  else if Ascii.eqb d "M"%char then
    mk_fields (f_year f) (f_month f) (f_day f) (f_hour f) (Some v) (f_second f) (f_fraction f) (f_gmtoff f)
  else if Ascii.eqb d "S"%char then
    mk_fields (f_year f) (f_month f) (f_day f) (f_hour f) (f_minute f) (Some v) (f_fraction f) (f_gmtoff f)
  else if Ascii.eqb d "f"%char then
    mk_fields (f_year f) (f_month f) (f_day f) (f_hour f) (f_minute f) (f_second f) (Some v) (f_gmtoff f)
  else
    mk_fields (f_year f) (f_month f) (f_day f) (f_hour f) (f_minute f) (f_second f) (f_fraction f) (Some v).

Fixpoint take_chars (n : nat) (s : string) : option (string * string) :=
  match n, s with
  | O, _ => Some (EmptyString, s)
  | S n', String c s' =>
      match take_chars n' s' with
      | Some (a, b) => Some (String c a, b)
      | None => None
      end
  | S _, EmptyString => None
  end.

(** An alternative of a directive: [n] digits whose value lies in
    [lo..hi], scaled by [scale]. *)
Definition digits_alt (n : nat) (lo hi scale : Z) (s : string) : list (Z * string) :=
  match take_chars n s with
  | Some (tok, rest) =>
      let v := Str.digits_value 0 tok in
      if (Str.all_digits tok && (lo <=? v)%Z && (v <=? hi)%Z)%bool
      then [((v * scale)%Z, rest)] else []
  | None => []
  end.

(** A UTC offset the model refuses: one with a seconds part. *)
Definition unmodelled_offset : Z := (10 ^ 18)%Z.

(** Whether the text goes on with the seconds of a UTC offset: an
    optional colon, a digit up to 5 and a digit. *)
Definition offset_seconds_follow (s : string) : bool :=
  let s' := match s with String ":" r => r | _ => s end in
  match s' with
  | String a (String b _) => (Str.in_range "0"%char "5"%char a && Str.is_digit b)%bool
  | _ => false
  end.

(** [%z]: the letter [Z], or a sign, two digits of hours, an optional
    colon and two digits of minutes (up to 59); the offset in
    microseconds. *)
Definition gmtoff_alts (s : string) : list (Z * string) :=
  match s with
  | String "Z" rest => [(0%Z, rest)]
  | String sign s1 =>
      if (Ascii.eqb sign "+"%char || Ascii.eqb sign "-"%char)%bool then
        match take_chars 2 s1 with
        | Some (hh, s2) =>
            let s3 := match s2 with String ":" r => r | _ => s2 end in
            match take_chars 2 s3 with
            | Some (mm, rest) =>
                if (Str.all_digits hh && Str.all_digits mm
                    && (Str.digits_value 0 mm <=? 59)%Z)%bool then
                  if offset_seconds_follow rest then [(unmodelled_offset, rest)]
                  else
                    let seconds :=
                      (Str.digits_value 0 hh * 3600 + Str.digits_value 0 mm * 60)%Z in
                    [(((if Ascii.eqb sign "-"%char then - seconds else seconds) * 1000000)%Z,
                      rest)]
                else []
            | None => []
            end
        | None => []
        end
      else []
  | EmptyString => []
  end.

(** The alternatives of each directive, in the order the library tries
    them. *)
Definition directive_alts (d : ascii) (s : string) : option (list (Z * string)) :=
  if Ascii.eqb d "Y"%char then Some (digits_alt 4 0 9999 1 s)
  else if Ascii.eqb d "m"%char then Some (digits_alt 2 1 12 1 s ++ digits_alt 1 1 9 1 s)
  else if Ascii.eqb d "d"%char then
    Some (digits_alt 2 1 31 1 s ++ digits_alt 1 1 9 1 s
          ++ match s with
             | String " " s' => digits_alt 1 1 9 1 s'
             | _ => []
             end)
  else if Ascii.eqb d "H"%char then Some (digits_alt 2 0 23 1 s ++ digits_alt 1 0 9 1 s)
  else if Ascii.eqb d "M"%char then Some (digits_alt 2 0 59 1 s ++ digits_alt 1 0 9 1 s)
  else if Ascii.eqb d "S"%char then Some (digits_alt 2 0 61 1 s ++ digits_alt 1 0 9 1 s)
  else if Ascii.eqb d "f"%char then
    Some (digits_alt 6 0 999999 1 s ++ digits_alt 5 0 99999 10 s
          ++ digits_alt 4 0 9999 100 s ++ digits_alt 3 0 999 1000 s
          ++ digits_alt 2 0 99 10000 s ++ digits_alt 1 0 9 100000 s)
  else if Ascii.eqb d "z"%char then Some (gmtoff_alts s)
  else None.

Definition supported (it : item) : bool :=
  match it with
  | Dir d => (Ascii.eqb d "%"%char || bool_decide (is_Some (directive_alts d EmptyString)))%bool
  | _ => true
  end.

(** The suffixes left after one or more blanks, longest run first. *)
Fixpoint after_blanks (s : string) : list string :=
  match s with
  | String c s' => if Ascii.is_space c then after_blanks s' ++ [s'] else []
  | EmptyString => []
  end.

(** Every way the items match a prefix of [s], in the order a
    backtracking matcher finds them. *)
Fixpoint match_items (items : list item) (s : string) (acc : fields) : list (fields * string) :=
  match items with
  | [] => [(acc, s)]
  | Lit c :: items' =>
      match s with
      | String a s' =>
          if Ascii.eqb (Str.lower_char a) (Str.lower_char c)
          then match_items items' s' acc else []
      | EmptyString => []
      end
  | Blank :: items' =>
      flat_map (fun s' => match_items items' s' acc) (after_blanks s)
  | Dir d :: items' =>
      if Ascii.eqb d "%"%char then
        match s with
        | String a s' => if Ascii.eqb a "%"%char then match_items items' s' acc else []
        | EmptyString => []
        end
      else
        match directive_alts d s with
        | Some alts =>
            flat_map (fun '(v, s') => match_items items' s' (bind_field d v acc)) alts
        | None => []
        end
  end.

Definition strptime_model (date fmt : string) : result datetime :=
  items ← parse_format fmt;
  if negb (forallb supported items) then Raise (ValueError "directive is not modelled")
  else
    match match_items items date no_fields with
    | [] => Raise (ValueError "time data does not match format")
    | (f, rest) :: _ =>
        if negb (bool_decide (rest = EmptyString))
        then Raise (ValueError "unconverted data remains")
        else if bool_decide (f_gmtoff f = Some unmodelled_offset)
        then Raise (ValueError "directive is not modelled")
        else
          r ← datetime_new (default 1900%Z (f_year f)) (default 1%Z (f_month f))
                           (default 1%Z (f_day f)) (default 0%Z (f_hour f))
                           (default 0%Z (f_minute f)) (default 0%Z (f_second f))
                           (default 0%Z (f_fraction f));
          match f_gmtoff f with
          | None => Ok r
          | Some off =>
              if ((-86400000000 <? off)%Z && (off <? 86400000000)%Z)%bool
              then Ok (with_tzinfo (Some off) r)
              else Raise (ValueError "offset must be a timedelta strictly between -24 and 24 hours")
          end
    end.

(** Zero-padded decimal numerals. *)
Fixpoint pad_left (n : nat) (s : string) : string :=
  match n with
  | O => s
  | S n' => if Nat.ltb (String.length s) n then pad_left n' (String "0" s) else s
  end.

Definition padded (width : nat) (z : Z) : string := pad_left width (pretty z).

Fixpoint strftime_model_go (dt : datetime) (fmt : string) : string :=
  match fmt with
  | EmptyString => EmptyString
  | String c rest =>
      if Ascii.eqb c "%"%char then
        match rest with
        | EmptyString => "%"
        | String d rest' =>
            (if Ascii.eqb d "Y"%char then padded 4 (year dt)
             else if Ascii.eqb d "m"%char then padded 2 (month dt)
             else if Ascii.eqb d "d"%char then padded 2 (day dt)
             else if Ascii.eqb d "H"%char then padded 2 (hour dt)
             else if Ascii.eqb d "M"%char then padded 2 (minute dt)
             else if Ascii.eqb d "S"%char then padded 2 (second dt)
             else if Ascii.eqb d "f"%char then padded 6 (microsecond dt)
             else if Ascii.eqb d "%"%char then "%"
             else String "%" (String d EmptyString))
            +:+ strftime_model_go dt rest'
        end
      else String c (strftime_model_go dt rest)
  end.

Definition strftime_model (dt : datetime) (fmt : string) : string :=
  strftime_model_go dt fmt.

(** The default tip-date pattern of the loaders: a pipe, then three runs
    of digits joined by dashes; group 1 is what follows the pipe. *)
Definition default_tip_regex : string := "\|([0-9]+\-[0-9]+\-[0-9]+)".

Definition match_tip_date (s : string) : option (list string) :=
  match s with
  | String "|" s1 =>
      let '(a, r1) := Str.span Str.is_digit s1 in
      match r1 with
      | String "-" s2 =>
          let '(b, r2) := Str.span Str.is_digit s2 in
          match r2 with
          | String "-" s3 =>
              let '(c, _) := Str.span Str.is_digit s3 in
              if (bool_decide (a = EmptyString) || bool_decide (b = EmptyString)
                  || bool_decide (c = EmptyString))%bool then None
              else let g := a +:+ "-" +:+ b +:+ "-" +:+ c in Some ["|" +:+ g; g]
          | _ => None
          end
      | _ => None
      end
  | _ => None
  end.

(** The default tree-definition pattern of [load_nexus]: [tree], a blank,
    letters or underscores, then digits (group 1). *)
Definition default_tree_string_regex : string := "tree [A-Za-z\_]+([0-9]+)".

Definition match_tree_line (s : string) : option (list string) :=
  if Str.prefix "tree " s then
    let '(label, r1) := Str.span (fun c => (Str.is_alpha c || Ascii.eqb c "_"%char)%bool)
                                 (Str.drop 5 s) in
    let '(ds, _) := Str.span Str.is_digit r1 in
    if (bool_decide (label = EmptyString) || bool_decide (ds = EmptyString))%bool then None
    else Some ["tree " +:+ label +:+ ds; ds]
  else None.

Definition re_search_model (pattern text : string) : option (list string) :=
  if bool_decide (pattern = default_tip_regex) then Io.search_from match_tip_date text
  else if bool_decide (pattern = default_tree_string_regex) then Io.search_from match_tree_line text
  else None.

Definition std : PyLib := {|
  strptime := strptime_model;
  strftime := strftime_model;
  re_search := re_search_model
|}.

End PyStd.

(** ** A recording tree engine for sample runs

    The theorems below hold for every [TreeEngine].  To run the loaders on
    sample inputs this engine stands in for [tree.py]: it builds the
    registry the loaders read back and keeps a log of every call made to
    it, in order, so that a run shows which tree string was parsed and
    which passes were applied with which arguments. *)
Module Recorder.

Inductive call : Type :=
  | MakeTree (tree_string : string) (verbose : bool)
  | MakeTreeJson (json_tree : PyVal) (verbose : bool)
  | TraverseTree (verbose : bool)
  | SortBranches
  | DrawTree
  | TreeStats
  | SetAbsoluteTime (date : PyVal)
  | RenameTips (table : list (string * string))
  | SetTipMap (table : list (string * string))
  | SetCmap (cmap : list (PyVal * list (PyVal * PyVal))).

Record tree : Type := mk_tree {
  calls : list call;
  registry : list Models.BaseTreeObject
}.

Definition record (c : call) (t : tree) : tree :=
  mk_tree (calls t ++ [c]) (registry t).

(** Modelled from the spec: the tips of a Newick string (section 4.3: a
    bare tip token, optionally followed by a colon and a branch length).
    Tokens are delimited by parentheses, commas and the semicolon; a
    token that follows a closing parenthesis labels an internal node. *)
Fixpoint newick_tips (s : string) (token : string) (after_close : bool)
    : list string :=
  let flush :=
    match Str.split ":"%char (String.rev token) with
    | nm :: _ => if (after_close || bool_decide (nm = EmptyString))%bool then [] else [nm]
    | [] => []
    end in
  match s with
  | EmptyString => flush
  | String c s' =>
      if Ascii.eqb c ")"%char then flush ++ newick_tips s' EmptyString true
      else if (Ascii.eqb c "("%char || Ascii.eqb c ","%char || Ascii.eqb c ";"%char)%bool
      then flush ++ newick_tips s' EmptyString false
      else newick_tips s' (String c token) after_close
  end.

Definition leaf_named (index : nat) (nm : string) : Models.BaseTreeObject :=
  Models.set_index (VInt (Z.of_nat index)) (Models.set_name (VStr nm) Models.Leaf_init).

(** Modelled from the spec: construction fails on a string without its
    terminating semicolon. *)
Definition build_newick (s : string) (verbose : bool) : result tree :=
  if negb (Str.contains ";" s) then Raise (ValueError "tree string has no terminating semicolon")
  else Ok (mk_tree [MakeTree s verbose] (imap leaf_named (newick_tips s EmptyString false))).

Fixpoint depth (v : PyVal) : nat :=
  match v with
  | VList l => S (list_max (map depth l))
  | VDict d => S (list_max (map (fun kv => depth kv.2) d))
  | _ => O
  end.

(** Modelled from the spec: the JSON constructor (section 4.3).  A node
    with a non-empty child list becomes a Node, any other a Leaf; the
    entries of the node other than its children (its name and the
    [node_attrs] and [branch_attrs] payloads) are kept in [traits]; the
    index follows the order of visits; the parent is set on attachment,
    and the root has none. *)
Fixpoint json_objects (fuel : nat) (node parent : PyVal)
    (objs : list Models.BaseTreeObject) : list Models.BaseTreeObject :=
  match node with
  | VDict d =>
      let children := match Models.dict_get "children" d with
                      | Some (VList l) => l
                      | _ => []
                      end in
      let payload := filter (fun kv => negb (bool_decide (kv.1 = "children"))) d in
      let me := length objs in
      let o := match children with
               | [] => Models.Leaf_init
               | _ => Models.Node_init
               end in
      let o := Models.set_name (default VNone (Models.dict_get "name" d)) o in
      let o := Models.set_traits (VDict payload) o in
      let o := Models.set_index (VInt (Z.of_nat me)) o in
      let o := Models.set_parent parent o in
      match fuel with
      | O => objs ++ [o]
      | S fuel' =>
          fold_left (fun acc child => json_objects fuel' child (VRef me) acc)
                    children (objs ++ [o])
      end
  | _ => objs
  end.

Definition build_json (json_tree : PyVal) (json_translation : list (string * TransVal))
    (verbose : bool) : result tree :=
  match json_tree with
  | VDict _ =>
      Ok (mk_tree [MakeTreeJson json_tree verbose]
                  (json_objects (depth json_tree) json_tree VNone []))
  | _ => Raise (TypeError "the tree is not a mapping")
  end.

(** Modelled from the spec: every Leaf whose name is a key of the table
    takes the mapped name. *)
Definition rename_tip (table : gmap string string) (o : Models.BaseTreeObject)
    : Models.BaseTreeObject :=
  match Models.cls o, Models.name o with
  | Models.Leaf, VStr nm =>
      match table !! nm with
      | Some nm' => Models.set_name (VStr nm') o
      | None => o
      end
  | _, _ => o
  end.

(** Modelled from the spec: the terminal units of the registry, in
    registry order. *)
Definition externals (t : tree) : list Models.BaseTreeObject :=
  filter (fun o => Models.is_leaf o ∨ Models.is_leaflike o) (registry t).

Definition engine : TreeEngine := {|
  Tree := tree;
  objects := registry;
  with_objects := fun objs t => mk_tree (calls t) objs;
  make_tree := build_newick;
  make_tree_json := build_json;
  traverse_tree := fun verbose t => Ok (record (TraverseTree verbose) t);
  sort_branches := fun t => Ok (record SortBranches t);
  draw_tree := fun t => Ok (record DrawTree t);
  tree_stats := fun t => Ok (record TreeStats t);
  get_external := externals;
  set_absolute_time := fun date t => Ok (record (SetAbsoluteTime date) t);
  rename_tips := fun table t =>
    Ok (mk_tree (calls t ++ [RenameTips (map_to_list table)])
                (rename_tip table <$> registry t));
  set_tipMap := fun table t => record (SetTipMap (map_to_list table)) t;
  set_cmap := fun cmap t => record (SetCmap cmap) t
|}.

End Recorder.

(** ** The loaders in the words of the specification

    Definitions that follow the wording of the specification, for
    comparison with the loops of the code. *)
Module IoSpec.

(** What a line contributes as a tree string: the line without its
    newlines, from its first opening parenthesis to its end. *)
Definition tree_string_of (line : string) : option string :=
  let l := Str.strip Str.newline line in
  match Str.find "(" l with
  | Some i => Some (Str.drop i l)
  | None => None
  end.

(** The tree strings of a source, in the order of its lines. *)
Definition tree_strings (lines : list string) : list string :=
  omap tree_string_of lines.

(** The lines a loader reads from its source: the file behind a path, or
    what is left on an open handle. *)
Definition source_lines (w : world) (src : Io.source) : option (list string) :=
  match src with
  | Io.Path p => files w !! p
  | Io.Stream h =>
      match handles w !! h with
      | Some fh => if fh_closed fh then None else Some (fh_lines fh)
      | None => None
      end
  end.

(** The handle a loader reads from: a new one for a path, the caller's
    otherwise. *)
Definition source_handle (w : world) (src : Io.source) : nat :=
  match src with
  | Io.Path _ => length (handles w)
  | Io.Stream h => h
  end.

(** A computation that only writes to standard output: its result and
    what it prints do not depend on the world it runs in. *)
Definition writes_only {A} (m : M A) : Prop :=
  exists (r : result A) (out : list string), forall w, m w = (r, add_stdout out w).

(** The turns of a loop body on given lines, one after the other. *)
Fixpoint turns {St} (body : St -> string -> M St) (lines : list string) (st : St) : M St :=
  match lines with
  | [] => mret st
  | line :: rest => st' ← body st line; turns body rest st'
  end.

(** The frame the two text loaders share: acquire the source, loop over
    its lines, finish, release the source. *)
Definition load_frame {St T} (body : St -> string -> M St) (st0 : St)
    (finish : St -> result T) (src : Io.source) : M T :=
  handle ← Io.acquire src;
  st ← for_each_line body handle st0;
  ll ← lift (finish st);
  _ ← Io.release src handle;
  mret ll.

(** What one external object contributes to the tip dates: the decimal
    date of group 1 of the tip-date pattern matched against its name, or
    nothing when the pattern does not match. *)
Definition tip_date `{PyLib} (tip_regex date_fmt : string) (variable_date : bool)
    (k : Models.BaseTreeObject) : result (option PyVal) :=
  cerberus ← Io.py_re_search tip_regex (Models.name k);
  match cerberus with
  | Some m =>
      g ← Io.group m 1;
      d ← Dates.decimal_date g date_fmt variable_date;
      Ok (Some d)
  | None => Ok None
  end.

(** The report of a line of the translate block that is not an
    [<id> <name>] pair. *)
Definition tip_not_captured (l : string) : string :=
  "tip not captured by regex: " +:+ Str.remove_char Str.tab l.

(** The translation table as the specification describes it.  The
    translate block opens after a line that holds the word [translate]
    and closes with a line that holds a semicolon; inside it, a line on
    which the [<id> <name>] pattern is found gives the table the name,
    without the quotes around it, under the identifier.  The state is
    whether the next line lies inside the block, and the table so far. *)
Definition table_line (st : bool * gmap string string) (line : string)
    : bool * gmap string string :=
  let l := Str.strip Str.newline line in
  let table :=
    if st.1 then
      match Io.search_tip l with
      | Some (g1, g2) => <[g1 := Str.strip Str.apostrophe (Str.strip Str.quote g2)]> st.2
      | None => st.2
      end
    else st.2 in
  let inside :=
    if Str.contains ";" l then false
    else if Str.contains "translate" (Str.lower l) then true else st.1 in
  (inside, table).

Definition translate_table (lines : list string) : bool * gmap string string :=
  foldl table_line (false, ∅) lines.

End IoSpec.

(** ** What a load of a JSON document reads and leaves behind *)
Module JsonSpec.

(** The document [load_json] works on: the one it is given, the one
    behind the URL when the string holds [nextstrain.org], the one in the
    local file otherwise. *)
Definition json_document (w : world) (src : Io.json_source) : option PyVal :=
  match src with
  | Io.JsonStr s => if Str.contains "nextstrain.org" s then web w !! s else json_files w !! s
  | Io.JsonObject doc => Some doc
  end.

End JsonSpec.

(** ** Sample inputs *)
Module Samples.

Definition july_2nd_2020 : Datetime.datetime :=
  Datetime.mk_datetime 2020 7 2 0 0 0 0 None I.

(** A line of a text file, with its newline. *)
Definition line (s : string) : string := s +:+ Str.newline.

(** A world whose handle 0 is open on [lines]. *)
Definition stream_world (lines : list string) : world :=
  mk_world ∅ ∅ ∅ [mk_handle lines false] [].

(** A world with one file and no open handle. *)
Definition file_world (path : string) (lines : list string) : world :=
  mk_world {[ path := lines ]} ∅ ∅ [] [].

(** A Newick source with two tree strings. *)
Definition two_trees : list string := [line "(A:1,B:2);"; line "(C:1,D:2);"].

(** A Newick source whose first tree string lacks its semicolon. *)
Definition unfinished_then_tree : list string := [line "(A:1,B:2)"; line "(C:1,D:2);"].

(** A Nexus source whose translate block holds a malformed line. *)
Definition nexus_pre : list string :=
  [line "#NEXUS"; line "Begin trees;";
   line (String Str.tab "Translate");
   line (String Str.tab "1 taxonA|2020-01-15,")].

Definition nexus_bad : string := line (String Str.tab "??? unreadable entry").

Definition nexus_post : list string :=
  [line (String Str.tab ("2 " +:+ Str.apostrophe +:+ "taxonB|2019-06-01" +:+ Str.apostrophe));
   line (String Str.tab ";");
   line "tree TREE1 = (1:1,2:2);";
   line "End;"].

(** A line of the block that holds the word [tree], a name and a number,
    and no parenthesis. *)
Definition nexus_tree_word : string := line (String Str.tab "tree frog12").

(** A pair of the block whose name is written in double quotes. *)
Definition nexus_quoted : string :=
  line (String Str.tab ("3 " +:+ Str.quote +:+ "taxonC|2018-03-01" +:+ Str.quote +:+ ",")).

(** The state of the Nexus scan after [nexus_pre]. *)
Definition nexus_mid_state : @Io.nexus_state Recorder.engine :=
  Io.mk_nexus true {[ "1" := "taxonA|2020-01-15" ]} 0 None.

(** A tree with two dated tips and an undated one, as the recording
    engine builds it. *)
Definition dated_tree_string : string := "((A|2020-01-15:1,B:2):1,C|2019-06-01:3);".

Definition dated_tree : Recorder.tree :=
  Recorder.mk_tree [Recorder.MakeTree dated_tree_string false]
    (imap Recorder.leaf_named ["A|2020-01-15"; "B"; "C|2019-06-01"]).

Definition dated_tree_dates : list (option PyVal) :=
  [Some (VFloat (4442111091858695 # 2199023255552)); None;
   Some (VFloat (4440737685867949 # 2199023255552))].

(** A tree whose tips are dated in September and in October of one
    year, the month of the first without a leading zero. *)
Definition autumn_tree_string : string := "(A|2020-9-1:1,B|2020-10-01:2);".

Definition autumn_tree : Recorder.tree :=
  Recorder.mk_tree [Recorder.MakeTree autumn_tree_string false]
    (imap Recorder.leaf_named ["A|2020-9-1"; "B|2020-10-01"]).

(** A tree without any external object. *)
Definition bare_tree : Recorder.tree := Recorder.mk_tree [] [].

(** A translation mapping that names both an absolute time and a branch
    length. *)
Definition both_sources : list (string * TransVal) :=
  [("name", TStr "name"); ("absolute_time", TStr "num_date"); ("length", TStr "div")].

(** A translation mapping that derives lengths from heights. *)
Definition by_height : list (string * TransVal) :=
  [("name", TStr "name"); ("height", TStr "div")].

(** A Nextstrain document of one root with two tips, with divergence and
    date attributes. *)
Definition node_attrs (div : Z) (num_date : Q) : PyVal :=
  VDict [("div", VInt div); ("num_date", VDict [("value", VFloat num_date)])].

Definition auspice_doc : PyVal :=
  VDict
    [("meta", VDict [("colorings", VList [])]);
     ("tree",
      VDict
        [("name", VStr "root"); ("node_attrs", node_attrs 0 2019);
         ("children",
          VList
            [VDict [("name", VStr "tipA"); ("node_attrs", node_attrs 5 2020)];
             VDict [("name", VStr "tipB"); ("node_attrs", node_attrs 3 (4039 # 2))]])])].

(** Colourings of a Nextstrain document: a categorical one with a
    scale, under a string key; a continuous one; a categorical one whose
    key is a number and whose scale is a mapping from two-letter
    strings. *)
Definition sample_colorings : list PyVal :=
  [VDict [("key", VStr "country"); ("type", VStr "categorical");
          ("scale", VList [VList [VStr "A"; VStr "#fff"]])];
   VDict [("key", VStr "num_date"); ("type", VStr "continuous")];
   VDict [("key", VInt 1); ("type", VStr "categorical");
          ("scale", VDict [("ab", VNone)])]].

Definition sample_cmap : list (PyVal * list (PyVal * PyVal)) :=
  [(VStr "country", [(VStr "A", VStr "#fff")]); (VInt 1, [(VStr "a", VStr "b")])].

(** A registry of a root without parent and one child, with heights. *)
Definition root_and_child : list Models.BaseTreeObject :=
  [Models.set_height (VInt 0) (Models.set_parent VNone Models.Node_init);
   Models.set_height (VInt 5) (Models.set_parent (VRef 0) Models.Leaf_init)].

End Samples.

(** * Properties *)

(** ** Results *)
Lemma result_bind_ok {A B} (a : A) (k : A -> result B) : (Ok a ≫= k) = k a.
Proof. reflexivity. Qed.

Lemma result_bind_raise {A B} (e : exn) (k : A -> result B) : (Raise e ≫= k) = Raise e.
Proof. reflexivity. Qed.

(** ** Rounding to binary64 *)
Module F64Facts.
Import F64.
Local Open Scope Q_scope.

Lemma pow2_pos k : 0 < 2 ^ k.
Proof. apply Qpower_0_lt. reflexivity. Qed.

Lemma pow2_mono a b : (a <= b)%Z -> 2 ^ a <= 2 ^ b.
Proof. intros. apply Qpower_le_compat_l; [done | discriminate]. Qed.

Lemma pow2_smono a b : (a < b)%Z -> 2 ^ a < 2 ^ b.
Proof. intros. apply Qpower_lt_compat_l; [done | reflexivity]. Qed.

Lemma pow2_add a b : 2 ^ (a + b) == 2 ^ a * 2 ^ b.
Proof. apply Qpower_plus. discriminate. Qed.

Lemma pow2_succ a : 2 ^ (a + 1) == 2 * 2 ^ a.
Proof. rewrite pow2_add. change (2 ^ 1) with 2. ring. Qed.

Lemma pow2_Z n : (0 <= n)%Z -> inject_Z (2 ^ n) == 2 ^ n.
Proof. intros. rewrite Zpower_Qpower by done. reflexivity. Qed.

Lemma ilog2_spec q : 0 < q -> 2 ^ ilog2 q <= q /\ q < 2 ^ (ilog2 q + 1).
Proof.
  intros Hq. unfold ilog2.
  destruct q as [n d]. simpl Qnum. simpl Qden.
  assert (Hn : (0 < n)%Z) by (unfold Qlt in Hq; simpl in Hq; lia).
  set (a := Z.log2 n). set (b := Z.log2 (Z.pos d)).
  destruct (Z.log2_spec n Hn) as [Ha1 Ha2]. fold a in Ha1, Ha2.
  destruct (Z.log2_spec (Z.pos d) ltac:(lia)) as [Hb1 Hb2]. fold b in Hb1, Hb2.
  assert (Ha0 : (0 <= a)%Z) by apply Z.log2_nonneg.
  assert (Hb0 : (0 <= b)%Z) by apply Z.log2_nonneg.
  set (q := n # d) in *.
  assert (HqD : q * inject_Z (Z.pos d) == inject_Z n).
  { unfold q, Qeq, Qmult, inject_Z. simpl. lia. }
  assert (HA1 : 2 ^ a <= inject_Z n).
  { rewrite <- pow2_Z by done. rewrite <- Zle_Qle. done. }
  assert (HA2 : inject_Z n < 2 * 2 ^ a).
  { rewrite <- pow2_succ, <- pow2_Z by lia. rewrite <- Zlt_Qlt. replace (a + 1)%Z with (Z.succ a) by lia. done. }
  assert (HB1 : 2 ^ b <= inject_Z (Z.pos d)).
  { rewrite <- pow2_Z by done. rewrite <- Zle_Qle. done. }
  assert (HB2 : inject_Z (Z.pos d) < 2 * 2 ^ b).
  { rewrite <- pow2_succ, <- pow2_Z by lia. rewrite <- Zlt_Qlt. replace (b + 1)%Z with (Z.succ b) by lia. done. }
  assert (HE : 2 ^ (a - b) * 2 ^ b == 2 ^ a).
  { rewrite <- pow2_add. replace (a - b + b)%Z with a by lia. reflexivity. }
  pose proof (pow2_pos a) as Pa. pose proof (pow2_pos b) as Pb.
  pose proof (pow2_pos (a - b)) as Pe.
  destruct (Qle_bool (2 ^ (a - b)) q) eqn:Hc.
  - apply Qle_bool_iff in Hc. split; [done|].
    rewrite pow2_succ.
    set (E := 2 ^ (a - b)) in *. set (P := 2 ^ b) in *. set (A := 2 ^ a) in *.
    set (D := inject_Z (Z.pos d)) in *. set (N := inject_Z n) in *.
    nra.
  - assert (Hlt : q < 2 ^ (a - b)).
    { apply Qnot_le_lt. intros Hle. apply Qle_bool_iff in Hle. congruence. }
    replace (a - b - 1 + 1)%Z with (a - b)%Z by lia.
    split; [|done].
    assert (H2 : 2 ^ (a - b) == 2 * 2 ^ (a - b - 1)).
    { rewrite <- pow2_succ. replace (a - b - 1 + 1)%Z with (a - b)%Z by lia. reflexivity. }
    set (E := 2 ^ (a - b)) in *. set (E' := 2 ^ (a - b - 1)) in *.
    set (P := 2 ^ b) in *. set (A := 2 ^ a) in *.
    set (D := inject_Z (Z.pos d)) in *. set (N := inject_Z n) in *.
    nra.
Qed.

Lemma ilog2_unique q e : 0 < q -> 2 ^ e <= q -> q < 2 ^ (e + 1) -> ilog2 q = e.
Proof.
  intros Hq H1 H2. destruct (ilog2_spec q Hq) as [H3 H4].
  destruct (Z.lt_trichotomy (ilog2 q) e) as [Hlt | [Heq | Hgt]]; [|done|].
  - pose proof (pow2_mono (ilog2 q + 1) e ltac:(lia)). lra.
  - pose proof (pow2_mono (e + 1) (ilog2 q) ltac:(lia)). lra.
Qed.

Lemma ilog2_mono x y : 0 < x -> x <= y -> (ilog2 x <= ilog2 y)%Z.
Proof.
  intros Hx Hxy.
  destruct (ilog2_spec x Hx) as [H1 H2].
  destruct (ilog2_spec y ltac:(lra)) as [H3 H4].
  destruct (Z.le_gt_cases (ilog2 x) (ilog2 y)) as [|Hgt]; [done|].
  pose proof (pow2_mono (ilog2 y + 1) (ilog2 x) ltac:(lia)). lra.
Qed.

Lemma ilog2_comp x y : 0 < x -> x == y -> ilog2 x = ilog2 y.
Proof.
  intros Hx Hxy. destruct (ilog2_spec y ltac:(lra)) as [H1 H2].
  apply ilog2_unique; lra.
Qed.

Lemma rne_bounds m : inject_Z (rne m) <= m + (1 # 2) /\ m - (1 # 2) <= inject_Z (rne m).
Proof.
  unfold rne. pose proof (Qfloor_le m) as H1. pose proof (Qlt_floor m) as H2.
  rewrite inject_Z_plus in H2. change (inject_Z 1) with 1 in H2.
  destruct (Qcompare_spec (m - inject_Z (Qfloor m)) (1 # 2)) as [He | Hl | Hg].
  - destruct (Z.even (Qfloor m)); [lra|]. rewrite inject_Z_plus. change (inject_Z 1) with 1. lra.
  - lra.
  - rewrite inject_Z_plus. change (inject_Z 1) with 1. lra.
Qed.

Lemma rne_Z z : rne (inject_Z z) = z.
Proof.
  unfold rne. rewrite Qfloor_Z.
  destruct (Qcompare_spec (inject_Z z - inject_Z z) (1 # 2)) as [He | Hl | Hg]; [lra | done | lra].
Qed.

Lemma rne_comp x y : x == y -> rne x = rne y.
Proof.
  intros Hxy. unfold rne. rewrite (Qfloor_comp x y Hxy).
  assert (Hc : Qcompare (x - inject_Z (Qfloor y)) (1 # 2) = Qcompare (y - inject_Z (Qfloor y)) (1 # 2)).
  { apply Qcompare_comp; [rewrite Hxy|]; reflexivity. }
  rewrite Hc. reflexivity.
Qed.

Lemma rne_mono x y : x <= y -> (rne x <= rne y)%Z.
Proof.
  intros Hxy. pose proof (Qfloor_resp_le x y Hxy) as Hf.
  destruct (Z.eq_dec (Qfloor x) (Qfloor y)) as [Heq | Hne].
  - unfold rne. rewrite Heq.
    destruct (Qcompare_spec (x - inject_Z (Qfloor y)) (1 # 2)) as [He | Hl | Hg];
    destruct (Qcompare_spec (y - inject_Z (Qfloor y)) (1 # 2)) as [He' | Hl' | Hg'];
    try lra; try lia; destruct (Z.even (Qfloor y)); lia.
  - assert (Hlt : (Qfloor x + 1 <= Qfloor y)%Z) by lia.
    assert (Hx : (rne x <= Qfloor x + 1)%Z).
    { unfold rne. destruct (Qcompare _ _); [destruct (Z.even _)| |]; lia. }
    assert (Hy : (Qfloor y <= rne y)%Z).
    { unfold rne. destruct (Qcompare _ _); [destruct (Z.even _)| |]; lia. }
    lia.
Qed.

Lemma round_pos_eq q :
  round_pos q == inject_Z (rne (q / 2 ^ (ilog2 q - 52))) * 2 ^ (ilog2 q - 52).
Proof. unfold round_pos. apply Qred_correct. Qed.

Lemma mantissa_bounds q :
  0 < q -> 2 ^ 52 <= q / 2 ^ (ilog2 q - 52) /\ q / 2 ^ (ilog2 q - 52) < 2 ^ 53.
Proof.
  intros Hq. destruct (ilog2_spec q Hq) as [H1 H2].
  pose proof (pow2_pos (ilog2 q - 52)) as Pk.
  assert (E1 : 2 ^ ilog2 q == 2 ^ 52 * 2 ^ (ilog2 q - 52)).
  { rewrite <- pow2_add. replace (52 + (ilog2 q - 52))%Z with (ilog2 q) by lia. reflexivity. }
  assert (E2 : 2 ^ (ilog2 q + 1) == 2 ^ 53 * 2 ^ (ilog2 q - 52)).
  { rewrite <- pow2_add. replace (53 + (ilog2 q - 52))%Z with (ilog2 q + 1)%Z by lia. reflexivity. }
  split.
  - apply Qle_shift_div_l; [done|]. lra.
  - apply Qlt_shift_div_r; [done|]. lra.
Qed.

Lemma mantissa_rne_bounds q :
  0 < q -> (2 ^ 52 <= rne (q / 2 ^ (ilog2 q - 52)) <= 2 ^ 53)%Z.
Proof.
  intros Hq. destruct (mantissa_bounds q Hq) as [H1 H2]. split.
  - rewrite <- (rne_Z (2 ^ 52)). apply rne_mono. rewrite pow2_Z by lia. done.
  - rewrite <- (rne_Z (2 ^ 53)). apply rne_mono. rewrite pow2_Z by lia. lra.
Qed.

Lemma round_pos_bounds q :
  0 < q -> 2 ^ ilog2 q <= round_pos q /\ round_pos q <= 2 ^ (ilog2 q + 1).
Proof.
  intros Hq. destruct (mantissa_rne_bounds q Hq) as [H1 H2].
  rewrite round_pos_eq.
  pose proof (pow2_pos (ilog2 q - 52)) as Pk.
  assert (E1 : 2 ^ ilog2 q == 2 ^ 52 * 2 ^ (ilog2 q - 52)).
  { rewrite <- pow2_add. replace (52 + (ilog2 q - 52))%Z with (ilog2 q) by lia. reflexivity. }
  assert (E2 : 2 ^ (ilog2 q + 1) == 2 ^ 53 * 2 ^ (ilog2 q - 52)).
  { rewrite <- pow2_add. replace (53 + (ilog2 q - 52))%Z with (ilog2 q + 1)%Z by lia. reflexivity. }
  rewrite E1, E2.
  rewrite Zle_Qle in H1, H2. rewrite pow2_Z in H1, H2 by lia.
  split; apply Qmult_le_compat_r; lra.
Qed.

Lemma round_pos_pos q : 0 < q -> 0 < round_pos q.
Proof.
  intros Hq. destruct (round_pos_bounds q Hq) as [H1 _].
  pose proof (pow2_pos (ilog2 q)). lra.
Qed.

Lemma round_pos_mono x y : 0 < x -> x <= y -> round_pos x <= round_pos y.
Proof.
  intros Hx Hxy. assert (Hy : 0 < y) by lra.
  pose proof (ilog2_mono x y Hx Hxy) as He.
  destruct (Z.eq_dec (ilog2 x) (ilog2 y)) as [Heq | Hne].
  - rewrite !round_pos_eq, Heq.
    pose proof (pow2_pos (ilog2 y - 52)) as Pk.
    apply Qmult_le_compat_r; [|lra].
    rewrite <- Zle_Qle. apply rne_mono.
    apply Qmult_le_compat_r; [done|]. apply Qlt_le_weak, Qinv_lt_0_compat. done.
  - destruct (round_pos_bounds x Hx) as [_ H1].
    destruct (round_pos_bounds y Hy) as [H2 _].
    pose proof (pow2_mono (ilog2 x + 1) (ilog2 y) ltac:(lia)). lra.
Qed.

Lemma round_pos_comp x y : 0 < x -> x == y -> round_pos x = round_pos y.
Proof.
  intros Hx Hxy. unfold round_pos. rewrite <- (ilog2_comp x y Hx Hxy).
  apply Qred_complete.
  rewrite (rne_comp (x / 2 ^ (ilog2 x - 52)) (y / 2 ^ (ilog2 x - 52))); [reflexivity|].
  unfold Qdiv. apply Qmult_comp; [exact Hxy | reflexivity].
Qed.

(** [round] on the three signs. *)
Lemma round_zero q : q == 0 -> round q = 0.
Proof. intros H. unfold round. rewrite (proj1 (Qeq_alt q 0) H). reflexivity. Qed.

Lemma round_of_pos q : 0 < q -> round q = round_pos q.
Proof. intros H. unfold round. rewrite (proj1 (Qgt_alt q 0) H). reflexivity. Qed.

Lemma round_nonneg q : 0 <= q -> 0 <= round q.
Proof.
  intros H. destruct (Qlt_le_dec 0 q) as [Hp | Hz].
  - rewrite round_of_pos by done. apply Qlt_le_weak, round_pos_pos. done.
  - rewrite round_zero by lra. lra.
Qed.

Lemma round_mono x y : 0 <= x -> x <= y -> round x <= round y.
Proof.
  intros Hx Hxy. destruct (Qlt_le_dec 0 x) as [Hp | Hz].
  - rewrite !round_of_pos by lra. apply round_pos_mono; done.
  - rewrite (round_zero x) by lra. apply round_nonneg. lra.
Qed.

Lemma round_comp x y : 0 <= x -> x == y -> round x = round y.
Proof.
  intros Hx Hxy. destruct (Qlt_le_dec 0 x) as [Hp | Hz].
  - rewrite !round_of_pos by lra. apply round_pos_comp; done.
  - rewrite !round_zero by lra. reflexivity.
Qed.

(** Numbers with at most 53 significant bits are not changed. *)
Lemma round_exact z j :
  (0 <= z < 2 ^ 53)%Z -> round (inject_Z z * 2 ^ j) == inject_Z z * 2 ^ j.
Proof.
  intros [Hz0 Hz]. destruct (Z.eq_dec z 0%Z) as [-> | Hnz].
  { rewrite round_zero; ring. }
  assert (Hzp : (0 < z)%Z) by lia.
  pose proof (pow2_pos j) as Pj.
  assert (Hq : 0 < inject_Z z * 2 ^ j).
  { apply Qmult_lt_0_compat; [|done]. change 0 with (inject_Z 0). rewrite <- Zlt_Qlt. done. }
  rewrite round_of_pos by done. rewrite round_pos_eq.
  set (a := Z.log2 z).
  destruct (Z.log2_spec z Hzp) as [Ha1 Ha2]. fold a in Ha1, Ha2.
  assert (Ha0 : (0 <= a)%Z) by apply Z.log2_nonneg.
  assert (Ha : (a < 53)%Z).
  { apply (Z.pow_lt_mono_r_iff 2); lia. }
  assert (He : ilog2 (inject_Z z * 2 ^ j) = (a + j)%Z).
  { apply ilog2_unique; [done| |].
    - rewrite pow2_add. apply Qmult_le_compat_r; [|lra].
      rewrite <- pow2_Z by done. rewrite <- Zle_Qle. done.
    - replace (a + j + 1)%Z with ((a + 1) + j)%Z by lia. rewrite pow2_add.
      apply Qmult_lt_compat_r; [done|].
      rewrite <- pow2_Z by lia. rewrite <- Zlt_Qlt. replace (a + 1)%Z with (Z.succ a) by lia. done. }
  rewrite He.
  assert (Hm : inject_Z z * 2 ^ j / 2 ^ (a + j - 52) == inject_Z (z * 2 ^ (52 - a))).
  { rewrite inject_Z_mult, pow2_Z by lia.
    assert (E : 2 ^ j == 2 ^ (52 - a) * 2 ^ (a + j - 52)).
    { rewrite <- pow2_add. replace (52 - a + (a + j - 52))%Z with j by lia. reflexivity. }
    pose proof (pow2_pos (a + j - 52)) as Pk.
    rewrite E. field. lra. }
  rewrite (rne_comp _ _ Hm), rne_Z.
  rewrite inject_Z_mult, pow2_Z by lia.
  rewrite <- Qmult_assoc, <- pow2_add.
  replace (52 - a + (a + j - 52))%Z with j by lia. reflexivity.
Qed.

Lemma round_int z : (0 <= z < 2 ^ 53)%Z -> round (inject_Z z) == inject_Z z.
Proof.
  intros Hz. pose proof (round_exact z 0 Hz) as H.
  change (2 ^ 0) with 1 in H.
  rewrite (round_comp (inject_Z z) (inject_Z z * 1)); [rewrite H; ring | | ring].
  change 0 with (inject_Z 0). rewrite <- Zle_Qle. lia.
Qed.
End F64Facts.

(** ** The calendar *)
Module DatetimeFacts.
Import Datetime.
Local Open Scope Z_scope.

Lemma fields_ok_spec y m d hh mm ss us :
  Is_true (fields_ok y m d hh mm ss us) <->
  (1 <= y <= 9999 /\ 1 <= m <= 12 /\ 1 <= d <= days_in_month y m
   /\ 0 <= hh < 24 /\ 0 <= mm < 60 /\ 0 <= ss < 60 /\ 0 <= us < 1000000).
Proof.
  unfold fields_ok, MINYEAR, MAXYEAR.
  rewrite Is_true_true, !andb_true_iff, !Z.leb_le, !Z.ltb_lt. tauto.
Qed.

Lemma datetime_bounds (dt : datetime) :
  1 <= year dt <= 9999 /\ 1 <= month dt <= 12
  /\ 1 <= day dt <= days_in_month (year dt) (month dt)
  /\ 0 <= hour dt < 24 /\ 0 <= minute dt < 60 /\ 0 <= second dt < 60
  /\ 0 <= microsecond dt < 1000000.
Proof. apply fields_ok_spec, datetime_ok. Qed.

Lemma datetime_new_ok y m d hh mm ss us :
  Is_true (fields_ok y m d hh mm ss us) ->
  exists dt, datetime_new y m d hh mm ss us = Ok dt
    /\ year dt = y /\ month dt = m /\ day dt = d /\ hour dt = hh
    /\ minute dt = mm /\ second dt = ss /\ microsecond dt = us.
Proof.
  intros Hok. unfold datetime_new. destruct (decide _) as [ok | no]; [|done].
  eexists. split; [reflexivity|]. simpl. tauto.
Qed.

Lemma datetime_new_naive y m d hh mm ss us dt :
  datetime_new y m d hh mm ss us = Ok dt -> tzinfo dt = None.
Proof.
  unfold datetime_new. destruct (decide _) as [ok | no]; [|done]. by intros [= <-].
Qed.

Lemma sub_naive a b :
  tzinfo a = None -> tzinfo b = None -> sub a b = Ok (delta a b).
Proof. intros Ha Hb. unfold sub. by rewrite Ha, Hb. Qed.

Lemma sub_aware_naive a b off :
  tzinfo a = Some off -> tzinfo b = None ->
  sub a b = Raise (TypeError "can't subtract offset-naive and offset-aware datetimes").
Proof. intros Ha Hb. unfold sub. by rewrite Ha, Hb. Qed.

Lemma datetime_new_out_of_range y m d hh mm ss us :
  ~ Is_true (fields_ok y m d hh mm ss us) ->
  datetime_new y m d hh mm ss us = Raise (ValueError "datetime field out of range").
Proof. intros Hno. unfold datetime_new. destruct (decide _); done. Qed.

Lemma days_before_next_year y :
  days_before_year (y + 1) = days_before_year y + days_in_year y.
Proof.
  unfold days_before_year, days_in_year, is_leap.
  replace (y + 1 - 1) with y by lia.
  destruct (Z.eqb_spec (y mod 4) 0), (Z.eqb_spec (y mod 100) 0), (Z.eqb_spec (y mod 400) 0);
    simpl; Z.div_mod_to_equations; lia.
Qed.

Lemma day_of_year_bounds y m d :
  1 <= m <= 12 -> 1 <= d <= days_in_month y m ->
  1 <= days_before_month y m + d <= days_in_year y.
Proof.
  intros Hm Hd. unfold days_before_month, days_in_year.
  assert (Hcases : m = 1 \/ m = 2 \/ m = 3 \/ m = 4 \/ m = 5 \/ m = 6
                   \/ m = 7 \/ m = 8 \/ m = 9 \/ m = 10 \/ m = 11 \/ m = 12) by lia.
  destruct Hcases as [-> | [-> | [-> | [-> | [-> | [-> | [-> | [-> | [-> | [-> | [-> | ->]]]]]]]]]]];
    simpl in *; destruct (is_leap y); simpl in *; lia.
Qed.
End DatetimeFacts.

(** ** dates.py: the fraction of the year *)
Module DatesFacts.
Import Datetime DatetimeFacts F64Facts.

Lemma to_us_year_start b y :
  is_year_start b y -> to_us b = ((days_before_year y + 1) * 86400 * 1000000)%Z.
Proof.
  intros (Hy & Hm & Hd & Hh & Hmi & Hs & Hu).
  unfold to_us, toordinal. rewrite Hy, Hm, Hd, Hh, Hmi, Hs, Hu.
  unfold days_before_month. simpl. lia.
Qed.

Lemma year_length boy eoy y :
  is_year_start boy y -> is_year_start eoy (y + 1) ->
  delta eoy boy = (days_in_year y * 86400000000)%Z.
Proof.
  intros Hb He. unfold delta.
  rewrite (to_us_year_start _ _ Hb), (to_us_year_start _ _ He), days_before_next_year. lia.
Qed.

Lemma elapsed_bounds dt boy :
  is_year_start boy (year dt) ->
  (0 <= delta dt boy < days_in_year (year dt) * 86400000000)%Z
  /\ (microsecond dt = 0 -> delta dt boy + 1000000 <= days_in_year (year dt) * 86400000000)%Z
  /\ (is_year_start dt (year dt) -> delta dt boy = 0)%Z.
Proof.
  intros Hb. unfold delta. rewrite (to_us_year_start _ _ Hb).
  destruct (datetime_bounds dt) as (Hy & Hm & Hd & Hh & Hmi & Hs & Hu).
  pose proof (day_of_year_bounds (year dt) (month dt) (day dt) Hm Hd) as Hdoy.
  unfold to_us, toordinal. split; [lia|]. split; [lia|].
  intros (_ & Em & Ed & Eh & Emi & Es & Eu). rewrite Em, Ed, Eh, Emi, Es, Eu.
  unfold days_before_month. simpl. lia.
Qed.

Local Open Scope Q_scope.

Lemma total_seconds_mono a b : (0 <= a <= b)%Z -> total_seconds a <= total_seconds b.
Proof.
  intros [Ha Hab]. unfold total_seconds, F64.div_int.
  assert (H0 : 0 <= inject_Z a) by (change 0 with (inject_Z 0); rewrite <- Zle_Qle; done).
  assert (H1 : inject_Z a <= inject_Z b) by (rewrite <- Zle_Qle; done).
  apply round_mono.
  - apply Qle_shift_div_l; [reflexivity | lra].
  - apply Qmult_le_compat_r; [done | discriminate].
Qed.

Lemma total_seconds_whole s :
  (0 <= s < 2 ^ 53)%Z -> total_seconds (s * 1000000)%Z == inject_Z s.
Proof.
  intros Hs. unfold total_seconds, F64.div_int.
  assert (H0 : 0 <= inject_Z s) by (change 0 with (inject_Z 0); rewrite <- Zle_Qle; lia).
  rewrite (round_comp _ (inject_Z s)).
  - apply round_int. done.
  - rewrite inject_Z_mult. apply Qle_shift_div_l; [reflexivity|].
    change (inject_Z 1000000) with 1000000. nra.
  - rewrite inject_Z_mult. field.
Qed.

Lemma days_in_year_cases y : days_in_year y = 365%Z \/ days_in_year y = 366%Z.
Proof. unfold days_in_year. destruct (is_leap y); auto. Qed.

(** The two starts of year [year_fraction] builds. *)
Lemma year_starts dt :
  (year dt < 9999)%Z ->
  exists boy eoy,
    datetime_new (year dt) 1 1 0 0 0 0 = Ok boy
    /\ datetime_new (year dt + 1) 1 1 0 0 0 0 = Ok eoy
    /\ is_year_start boy (year dt) /\ is_year_start eoy (year dt + 1)
    /\ tzinfo boy = None /\ tzinfo eoy = None.
Proof.
  intros Hy9. destruct (datetime_bounds dt) as (Hy & _).
  destruct (datetime_new_ok (year dt) 1 1 0 0 0 0) as (boy & Eb & Hb).
  { apply fields_ok_spec. simpl. lia. }
  destruct (datetime_new_ok (year dt + 1) 1 1 0 0 0 0) as (eoy & Ee & He).
  { apply fields_ok_spec. simpl. lia. }
  exists boy, eoy. repeat split; try assumption; try apply Hb; try apply He.
  - by eapply datetime_new_naive.
  - by eapply datetime_new_naive.
Qed.

(** What [year_fraction] computes for a naive instant. *)
Lemma year_fraction_naive dt boy eoy :
  tzinfo dt = None ->
  datetime_new (year dt) 1 1 0 0 0 0 = Ok boy ->
  datetime_new (year dt + 1) 1 1 0 0 0 0 = Ok eoy ->
  Dates.year_fraction dt
  = (frac ← Dates.truediv (total_seconds (delta dt boy)) (total_seconds (delta eoy boy));
     Ok (F64.add (inject_Z (year dt)) frac)).
Proof.
  intros Htz Eb Ee. unfold Dates.year_fraction. cbv zeta.
  rewrite Eb, result_bind_ok, Ee, result_bind_ok.
  rewrite (sub_naive dt boy Htz (datetime_new_naive _ _ _ _ _ _ _ _ Eb)), result_bind_ok.
  rewrite (sub_naive eoy boy (datetime_new_naive _ _ _ _ _ _ _ _ Ee)
             (datetime_new_naive _ _ _ _ _ _ _ _ Eb)), result_bind_ok.
  reflexivity.
Qed.

(** An aware instant does not subtract from the naive start of its
    year. *)
Lemma year_fraction_aware dt off :
  tzinfo dt = Some off -> (year dt < 9999)%Z ->
  Dates.year_fraction dt
  = Raise (TypeError "can't subtract offset-naive and offset-aware datetimes").
Proof.
  intros Htz Hy9. destruct (year_starts dt Hy9) as (boy & eoy & Eb & Ee & _ & _ & Hnb & _).
  unfold Dates.year_fraction. cbv zeta.
  rewrite Eb, result_bind_ok, Ee, result_bind_ok.
  rewrite (sub_aware_naive dt boy off Htz Hnb). reflexivity.
Qed.

Lemma year_fraction_spec dt :
  tzinfo dt = None ->
  (year dt < 9999)%Z ->
  exists r, Dates.year_fraction dt = Ok r
    /\ inject_Z (year dt) <= r /\ r <= inject_Z (year dt) + 1
    /\ ((microsecond dt = 0)%Z -> r < inject_Z (year dt) + 1)
    /\ (is_year_start dt (year dt) -> r == inject_Z (year dt)).
Proof.
  intros Htz Hy9.
  destruct (datetime_bounds dt) as (Hy & _).
  destruct (year_starts dt Hy9) as (boy & eoy & Eb & Ee & Hb & He & _ & _).
  pose proof (year_fraction_naive dt boy eoy Htz Eb Ee) as Hval.
  set (y := year dt) in *.
  destruct (elapsed_bounds dt boy Hb) as (HE & Hwhole & Hstart). fold y in HE, Hwhole, Hstart.
  pose proof (year_length boy eoy y Hb He) as HT.
  set (E := delta dt boy) in *.
  set (B := (days_in_year y * 86400)%Z).
  assert (HB : (31536000 <= B <= 31622400)%Z).
  { unfold B. destruct (days_in_year_cases y) as [-> | ->]; lia. }
  assert (HTB : total_seconds (delta eoy boy) == inject_Z B).
  { rewrite HT. replace (days_in_year y * 86400000000)%Z with (B * 1000000)%Z by (unfold B; lia).
    apply total_seconds_whole. lia. }
  set (b := total_seconds (delta eoy boy)) in *.
  set (a := total_seconds E) in *.
  assert (HBq : 31536000 <= inject_Z B /\ inject_Z B <= 31622400).
  { split; [change 31536000 with (inject_Z 31536000) | change 31622400 with (inject_Z 31622400)];
      rewrite <- Zle_Qle; lia. }
  assert (Ha0 : 0 <= a).
  { unfold a. change 0 with (total_seconds 0%Z). apply total_seconds_mono. lia. }
  assert (Hab : a <= b).
  { unfold a. rewrite HTB. rewrite <- (total_seconds_whole B) by lia.
    apply total_seconds_mono. unfold B. lia. }
  assert (Hbnz : Qeq_bool b 0 = false).
  { destruct (Qeq_bool b 0) eqn:Hc; [|done]. apply Qeq_bool_eq in Hc. lra. }
  set (f := F64.div a b).
  assert (Hf0 : 0 <= f).
  { unfold f, F64.div. apply round_nonneg. apply Qle_shift_div_l; lra. }
  assert (Hf1 : f <= 1).
  { unfold f, F64.div. change 1 with (F64.round 1). apply round_mono.
    - apply Qle_shift_div_l; lra.
    - apply Qle_shift_div_r; lra. }
  assert (Hyq : 1 <= inject_Z y /\ inject_Z y + 1 <= 9999).
  { split; [change 1 with (inject_Z 1); rewrite <- Zle_Qle; lia|].
    change 9999 with (inject_Z 9998 + 1). apply Qplus_le_l. rewrite <- Zle_Qle. lia. }
  exists (F64.add (inject_Z y) f).
  split.
  { rewrite Hval. unfold Dates.truediv. rewrite Hbnz. reflexivity. }
  unfold F64.add.
  split; [|split; [|split]].
  - apply Qle_trans with (F64.round (inject_Z y)).
    + rewrite round_int by lia. lra.
    + apply round_mono; lra.
  - assert (R : F64.round (inject_Z (y + 1)) == inject_Z (y + 1)) by (apply round_int; lia).
    apply Qle_trans with (F64.round (inject_Z (y + 1))).
    + apply round_mono; [lra|]. rewrite inject_Z_plus. change (inject_Z 1) with 1. lra.
    + rewrite R, inject_Z_plus. change (inject_Z 1) with 1. lra.
  - intros Hus. specialize (Hwhole Hus).
    (* one second before the end of the year at the latest *)
    assert (Ha1 : a <= inject_Z B - 1).
    { assert (EB1 : inject_Z (B - 1) == inject_Z B - 1).
      { unfold Z.sub. rewrite inject_Z_plus, inject_Z_opp. change (inject_Z 1) with 1. lra. }
      apply Qle_trans with (total_seconds ((B - 1) * 1000000)%Z).
      - unfold a. apply total_seconds_mono. unfold B. lia.
      - rewrite total_seconds_whole by lia. rewrite EB1. lra. }
    set (c := (33554431 # 33554432)).
    assert (Hfc : f <= c).
    { unfold f, F64.div. change c with (F64.round c). apply round_mono.
      - apply Qle_shift_div_l; lra.
      - apply Qle_shift_div_r; [lra|]. unfold c. lra. }
    assert (R : F64.round (inject_Z ((y + 1) * 33554432 - 1) * 2 ^ (-25))
                == inject_Z ((y + 1) * 33554432 - 1) * 2 ^ (-25)).
    { apply round_exact. lia. }
    assert (Ev : inject_Z ((y + 1) * 33554432 - 1) * 2 ^ (-25) == inject_Z y + c).
    { unfold Z.sub. rewrite inject_Z_plus, inject_Z_mult, inject_Z_plus, inject_Z_opp.
      change (2 ^ (-25)) with (1 # 33554432). unfold c.
      change (inject_Z 33554432) with 33554432. change (inject_Z 1) with 1.
      field. }
    apply Qle_lt_trans with (F64.round (inject_Z ((y + 1) * 33554432 - 1) * 2 ^ (-25))).
    + apply round_mono; [lra|]. rewrite Ev. lra.
    + rewrite R, Ev. unfold c. lra.
  - intros Hs. specialize (Hstart Hs).
    assert (Ea : a = 0) by (unfold a; rewrite Hstart; reflexivity).
    assert (Ef : f = 0).
    { unfold f, F64.div. rewrite Ea. apply round_zero. field. lra. }
    rewrite Ef. rewrite (round_comp _ (inject_Z y)); [apply round_int; lia | lra | ring].
Qed.
End DatesFacts.

(** ** dates.py: decimal_date and calendar_date *)
Section DatesTheorems.
Context `{PyLib}.
Import Datetime DatetimeFacts DatesFacts.
Local Open Scope Q_scope.

Lemma decimal_date_unfold date fmt variable :
  fmt <> EmptyString ->
  Dates.decimal_date date fmt variable =
    (fmt' ← Dates.effective_format date fmt variable;
     adatetime ← strptime date fmt';
     r ← Dates.year_fraction adatetime;
     Ok (VFloat r)).
Proof. intros Hne. unfold Dates.decimal_date. rewrite bool_decide_eq_false_2; done. Qed.

Lemma year_fraction_last_year dt :
  year dt = 9999%Z ->
  Dates.year_fraction dt = Raise (ValueError "datetime field out of range").
Proof.
  intros Hy. unfold Dates.year_fraction. rewrite Hy.
  vm_compute. reflexivity.
Qed.

(** C8 (as amended): a date that parses under its (possibly truncated)
    format to a naive instant is converted to a float in the closed
    interval from its year to the next one, for every year up to 9998;
    the value is below the next year whenever the instant has no
    microseconds, and it is the year itself at the first instant of the
    year.  In year 9999 the start of the next year is no datetime and the
    call raises [ValueError].  A date that parses to an aware instant (the
    format holds [%z]) is not converted: the naive start of the year is
    subtracted from it, which raises [TypeError]. *)
Theorem decimal_date_within_year date fmt variable fmt' dt :
  fmt <> EmptyString ->
  Dates.effective_format date fmt variable = Ok fmt' ->
  strptime date fmt' = Ok dt ->
  (tzinfo dt = None -> (year dt < 9999)%Z ->
     exists r, Dates.decimal_date date fmt variable = Ok (VFloat r)
       /\ inject_Z (year dt) <= r /\ r <= inject_Z (year dt) + 1
       /\ ((microsecond dt = 0)%Z -> r < inject_Z (year dt) + 1)
       /\ (is_year_start dt (year dt) -> r == inject_Z (year dt)))
  /\ (year dt = 9999%Z ->
        Dates.decimal_date date fmt variable
        = Raise (ValueError "datetime field out of range"))
  /\ (tzinfo dt <> None -> (year dt < 9999)%Z ->
        Dates.decimal_date date fmt variable
        = Raise (TypeError "can't subtract offset-naive and offset-aware datetimes")).
Proof.
  intros Hne Hfmt Hparse.
  rewrite decimal_date_unfold by done.
  rewrite Hfmt, result_bind_ok, Hparse, result_bind_ok.
  split; [|split].
  - intros Htz Hy. destruct (year_fraction_spec dt Htz Hy) as (r & Er & Hr).
    exists r. rewrite Er. split; [reflexivity | exact Hr].
  - intros Hy. rewrite (year_fraction_last_year dt Hy). reflexivity.
  - intros Htz Hy. destruct (tzinfo dt) as [off|] eqn:Eoff; [|done].
    rewrite (year_fraction_aware dt off Eoff Hy). reflexivity.
Qed.

(** C7: with [variable] set and a format without a delimiter character,
    the date counts as one field and the truncation reads [join] off
    [None]: the call raises [AttributeError] before anything is parsed. *)
Theorem decimal_date_variable_without_delimiter :
  Dates.decimal_date "2020" "%Y" true = Raise (AttributeError "NoneType" "join").
Proof. reflexivity. Qed.

(** C3: [calendar_date] never returns: once the start of the year is
    built, reading the unbound name [dt] raises [NameError]; a year
    outside 1..9999 raises [ValueError] before that. *)
Theorem calendar_date_raises timepoint fmt :
  Dates.calendar_date timepoint fmt = Raise (NameError "dt")
  \/ Dates.calendar_date timepoint fmt = Raise (ValueError "datetime field out of range").
Proof.
  unfold Dates.calendar_date.
  destruct (datetime_new (Dates.int_of_float timepoint) 1 1 0 0 0 0) as [base | e] eqn:E.
  - left. reflexivity.
  - right. unfold datetime_new in E. destruct (decide _); [done|].
    inversion E. reflexivity.
Qed.

End DatesTheorems.

(** ** Sample runs of dates.py *)
Section DatesSamples.
Local Existing Instance PyStd.std.
Import Datetime.
Local Open Scope Q_scope.

Lemma decimal_date_within_year_witness :
  "%Y-%m-%d" <> EmptyString
  /\ Dates.effective_format "2020-07-02" "%Y-%m-%d" false = Ok "%Y-%m-%d"
  /\ strptime "2020-07-02" "%Y-%m-%d" = Ok Samples.july_2nd_2020
  /\ tzinfo Samples.july_2nd_2020 = None
  /\ (exists r, Dates.decimal_date "2020-07-02" "%Y-%m-%d" false = Ok (VFloat r)
        /\ 2020 <= r /\ r <= 2020 + 1
        /\ ((microsecond Samples.july_2nd_2020 = 0)%Z -> r < 2020 + 1)
        /\ (is_year_start Samples.july_2nd_2020 2020 -> r == 2020))
  /\ strptime "2020-07-02 +0100" "%Y-%m-%d %z"
     = Ok (with_tzinfo (Some 3600000000%Z) Samples.july_2nd_2020)
  /\ Dates.decimal_date "2020-07-02 +0100" "%Y-%m-%d %z" false
     = Raise (TypeError "can't subtract offset-naive and offset-aware datetimes").
Proof.
  assert (H1 : "%Y-%m-%d" <> EmptyString) by discriminate.
  assert (H2 : Dates.effective_format "2020-07-02" "%Y-%m-%d" false = Ok "%Y-%m-%d")
    by reflexivity.
  assert (H3 : strptime "2020-07-02" "%Y-%m-%d" = Ok Samples.july_2nd_2020)
    by (vm_compute; reflexivity).
  assert (H4 : "%Y-%m-%d %z" <> EmptyString) by discriminate.
  assert (H5 : Dates.effective_format "2020-07-02 +0100" "%Y-%m-%d %z" false
               = Ok "%Y-%m-%d %z") by reflexivity.
  assert (H6 : strptime "2020-07-02 +0100" "%Y-%m-%d %z"
               = Ok (with_tzinfo (Some 3600000000%Z) Samples.july_2nd_2020))
    by (vm_compute; reflexivity).
  split; [exact H1|]. split; [exact H2|]. split; [exact H3|]. split; [reflexivity|].
  split; [|split; [exact H6|]].
  - apply (proj1 (decimal_date_within_year "2020-07-02" "%Y-%m-%d" false "%Y-%m-%d"
                    Samples.july_2nd_2020 H1 H2 H3)); [reflexivity | simpl; lia].
  - apply (proj2 (proj2 (decimal_date_within_year "2020-07-02 +0100" "%Y-%m-%d %z" false
                           "%Y-%m-%d %z" _ H4 H5 H6))); [discriminate | simpl; lia].
Defined.

(** C8, counterexample: the last microsecond of 2020 parses to an instant
    of year 2020, and the sum of the year and its fraction rounds to
    2021.0, the start of the next year. *)
Lemma decimal_date_reaches_next_year :
  (year <$> strptime "2020-12-31 23:59:59.999999" "%Y-%m-%d %H:%M:%S.%f") = Ok 2020%Z
  /\ Dates.decimal_date "2020-12-31 23:59:59.999999" "%Y-%m-%d %H:%M:%S.%f" false
     = Ok (VFloat 2021).
Proof. split; vm_compute; reflexivity. Qed.

Example decimal_date_start_of_2021 :
  Dates.decimal_date "2021-01-01" "%Y-%m-%d" false = Ok (VFloat 2021).
Proof. vm_compute. reflexivity. Qed.

Example decimal_date_year_month :
  Dates.effective_format "2020-07" "%Y-%m-%d" true = Ok "%Y-%m"
  /\ Dates.decimal_date "2020-07" "%Y-%m-%d" true
     = Ok (VFloat (4443120479582555 # 2199023255552)).
Proof. split; vm_compute; reflexivity. Qed.

Example decimal_date_year_only :
  Dates.effective_format "2020" "%Y-%m-%d" true = Ok "%Y"
  /\ Dates.decimal_date "2020" "%Y-%m-%d" true = Ok (VFloat 2020).
Proof. split; vm_compute; reflexivity. Qed.

End DatesSamples.

(** ** models.py: what a constructor leaves in [length] *)

(** C4: a fresh Leaf reads [None] through the [length] property, since
    its constructor assigns no length after [BaseTreeObject.__init__] has
    set [None]; the other three variants read 0.0. *)
Theorem fresh_leaf_length_is_none (name : PyVal) :
  Models.length (Models.construct Models.Leaf name) = VNone
  /\ Models.length (Models.construct Models.Node name) = VFloat 0
  /\ Models.length (Models.construct Models.Clade name) = VFloat 0
  /\ Models.length (Models.construct Models.Reticulation name) = VFloat 0.
Proof. repeat split; reflexivity. Qed.

Lemma fresh_leaf_branch_type :
  Models.branch_type Models.Leaf_init = VNone
  /\ Models.getattr Models.Leaf_init "branchType" = Ok (VStr "leaf").
Proof. split; reflexivity. Qed.


(** ** The world of a load *)
Lemma add_stdout_nil w : add_stdout [] w = w.
Proof. destruct w. unfold add_stdout. simpl. by rewrite app_nil_r. Qed.

Lemma add_stdout_app a b w : add_stdout b (add_stdout a w) = add_stdout (a ++ b) w.
Proof. unfold add_stdout. simpl. by rewrite app_assoc. Qed.

Lemma print_if_run verbose s w :
  print_if verbose s w = (Ok tt, add_stdout (if verbose then [s] else []) w).
Proof. destruct verbose; simpl; [done|]. by rewrite add_stdout_nil. Qed.

Lemma lift_bind {A B} (r : result A) (k : A -> M B) w :
  (lift r ≫= k) w = match r with Ok a => k a w | Raise e => (Raise e, w) end.
Proof. by destruct r. Qed.

(** ** io.py: the scan of load_newick *)
Section NewickScan.
Context `{PyLib} `{TreeEngine}.

Lemma index_of_find sub s i : Str.find sub s = Some i -> Str.index sub s = Ok i.
Proof. intros E. unfold Str.index. by rewrite E. Qed.

Lemma contains_true sub s : Str.contains sub s = true <-> exists i, Str.find sub s = Some i.
Proof.
  unfold Str.contains. rewrite bool_decide_eq_true. split.
  - intros [i Hi]. by exists i.
  - intros [i Hi]. by exists i.
Qed.

Lemma contains_false sub s : Str.contains sub s = false <-> Str.find sub s = None.
Proof.
  unfold Str.contains. rewrite bool_decide_eq_false. split.
  - intros Hn. destruct (Str.find sub s); [|done]. destruct Hn. by eexists.
  - intros -> [i Hi]. done.
Qed.

(** The scan parses the tree string of every line that has one, in the
    order of the lines, stops at the first that fails to parse, and keeps
    the tree of the last. *)
Lemma newick_scan_spec verbose lines ll w :
  exists out,
    Io.newick_scan verbose lines ll w
    = (trees ← mapM (fun s => make_tree s verbose) (IoSpec.tree_strings lines);
       Ok (foldl (fun _ t => Some t) ll trees),
       add_stdout out w).
Proof.
  revert ll w. induction lines as [|line rest IH]; intros ll w.
  - exists []. simpl. by rewrite add_stdout_nil.
  - simpl Io.newick_scan. unfold Io.newick_line.
    unfold IoSpec.tree_strings. simpl omap.
    unfold IoSpec.tree_string_of.
    destruct (Str.find "(" (Str.strip Str.newline line)) as [i|] eqn:Ef.
    + rewrite (proj2 (contains_true _ _)) by eauto.
      unfold mbind at 1, M_bind.
      rewrite lift_bind, (index_of_find _ _ _ Ef), lift_bind.
      simpl mapM.
      destruct (make_tree (Str.drop i (Str.strip Str.newline line)) verbose) as [t|e] eqn:Et.
      * unfold mbind at 1, M_bind. rewrite print_if_run.
        unfold mret at 1, M_ret.
        destruct (IH (Some t) (add_stdout (if verbose then ["Identified tree string"] else []) w))
          as [out Hout].
        rewrite Hout, add_stdout_app. eexists. f_equal.
        simpl. fold (IoSpec.tree_strings rest).
        destruct (mapM _ (IoSpec.tree_strings rest)); reflexivity.
      * exists []. rewrite add_stdout_nil. reflexivity.
    + rewrite (proj2 (contains_false _ _)) by done.
      unfold mbind at 1, M_bind, mret at 1, M_ret. apply IH.
Qed.

End NewickScan.

(** ** Computations that only write to standard output *)
Section WritesOnly.
Import IoSpec.

Lemma writes_only_ret {A} (a : A) : writes_only (mret a).
Proof. exists (Ok a), []. intros w. by rewrite add_stdout_nil. Qed.

Lemma writes_only_lift {A} (r : result A) : writes_only (lift r).
Proof. exists r, []. intros w. by rewrite add_stdout_nil. Qed.

Lemma writes_only_print s : writes_only (print s).
Proof. by exists (Ok tt), [s]. Qed.

Lemma writes_only_print_if verbose s : writes_only (print_if verbose s).
Proof. destruct verbose; [apply writes_only_print | apply writes_only_ret]. Qed.

Lemma writes_only_bind {A B} (m : M A) (k : A -> M B) :
  writes_only m -> (forall a, writes_only (k a)) -> writes_only (m ≫= k).
Proof.
  intros (r & out & Hm) Hk. destruct r as [a|e].
  - destruct (Hk a) as (r' & out' & Hk'). exists r', (out ++ out'). intros w.
    unfold mbind, M_bind. by rewrite Hm, Hk', add_stdout_app.
  - exists (Raise e), out. intros w. unfold mbind, M_bind. by rewrite Hm.
Qed.

(** The result of such a computation, read off any run. *)
Lemma writes_only_result {A} (m : M A) w w' : writes_only m -> (m w).1 = (m w').1.
Proof. intros (r & out & Hm). by rewrite !Hm. Qed.

End WritesOnly.

Ltac solve_writes_only :=
  repeat first
    [ apply writes_only_ret | apply writes_only_lift | apply writes_only_print
    | apply writes_only_print_if
    | apply writes_only_bind; [|intros ?]
    | match goal with
      | |- IoSpec.writes_only (match ?x with _ => _ end) => destruct x
      | |- IoSpec.writes_only (if ?x then _ else _) => destruct x
      | |- IoSpec.writes_only (let '(_, _) := ?x in _) => destruct x
      end ].

Section ScansWriteOnly.
Context `{PyLib} `{TreeEngine}.

Lemma newick_line_writes_only verbose ll line :
  IoSpec.writes_only (Io.newick_line verbose ll line).
Proof. unfold Io.newick_line. solve_writes_only. Qed.

Lemma newick_scan_writes_only verbose lines ll :
  IoSpec.writes_only (Io.newick_scan verbose lines ll).
Proof.
  revert ll. induction lines as [|line rest IH]; intros ll; simpl.
  - solve_writes_only.
  - apply writes_only_bind; [apply newick_line_writes_only | intros ll'; apply IH].
Qed.

Lemma nexus_line_writes_only regex verbose st line :
  IoSpec.writes_only (Io.nexus_line regex verbose st line).
Proof. unfold Io.nexus_line. solve_writes_only. Qed.

Lemma nexus_scan_writes_only regex verbose lines st :
  IoSpec.writes_only (Io.nexus_scan regex verbose lines st).
Proof.
  revert st. induction lines as [|line rest IH]; intros st; simpl.
  - solve_writes_only.
  - apply writes_only_bind; [apply nexus_line_writes_only | intros st'; apply IH].
Qed.

End ScansWriteOnly.

(** ** The frame of the text loaders *)
Section LoadFrame.
Import IoSpec.

Lemma release_run src h w : exists w', Io.release src h w = (Ok tt, w').
Proof. destruct src; simpl; eauto. Qed.

Lemma with_lines_add_stdout h lines out w :
  with_lines h lines (add_stdout out w) = add_stdout out (with_lines h lines w).
Proof. reflexivity. Qed.

Lemma with_lines_with_lines h lines lines' w :
  with_lines h lines' (with_lines h lines w) = with_lines h lines' w.
Proof. unfold with_lines. simpl. by rewrite list_insert_insert_eq. Qed.

Lemma with_lines_same h lines w :
  handles w !! h = Some (mk_handle lines false) -> with_lines h lines w = w.
Proof.
  intros Hh. destruct w as [f j n hs o]. unfold with_lines. simpl in *.
  by rewrite list_insert_id.
Qed.

Lemma with_lines_lookup h lines rest w :
  handles w !! h = Some (mk_handle lines false) ->
  handles (with_lines h rest w) !! h = Some (mk_handle rest false).
Proof.
  intros Hh. simpl. apply list_lookup_insert_eq. by eapply lookup_lt_Some.
Qed.

(** What a computation that only writes returns and prints. *)
Lemma writes_only_unique {A} (m : M A) r out r' out' :
  (forall w, m w = (r, add_stdout out w)) ->
  (forall w, m w = (r', add_stdout out' w)) ->
  r = r' /\ out = out'.
Proof.
  intros H1 H2. pose proof (H1 (mk_world ∅ ∅ ∅ [] [])) as E.
  rewrite H2 in E. split; [congruence|].
  apply (f_equal (fun p => stdout p.2)) in E. simpl in E. done.
Qed.

Lemma turns_writes_only {St} (body : St -> string -> M St) lines st :
  (forall st line, writes_only (body st line)) -> writes_only (turns body lines st).
Proof.
  intros Hbody. revert st. induction lines as [|line rest IH]; intros st; simpl.
  - apply writes_only_ret.
  - apply writes_only_bind; [apply Hbody | intros st'; apply IH].
Qed.

(** The loop over a stream: it returns and prints what the turns of its
    body on the lines of the stream do, one after the other; it leaves
    the stream at its end when every turn returns, and at the line after
    the one whose turn raised otherwise. *)
Lemma for_lines_run {St} (body : St -> string -> M St) h fuel lines st w :
  (forall st line, writes_only (body st line)) ->
  handles w !! h = Some (mk_handle lines false) ->
  length lines < fuel ->
  exists r out rest,
    (forall w', turns body lines st w' = (r, add_stdout out w'))
    /\ for_lines fuel body h st w = (r, add_stdout out (with_lines h rest w))
    /\ rest `suffix_of` lines
    /\ (is_ok r = true -> rest = [])
    /\ (forall pre line post st1 wa wb,
          lines = pre ++ line :: post ->
          (turns body pre st wa).1 = Ok st1 ->
          is_ok (body st1 line wb).1 = false ->
          rest = post).
Proof.
  intros Hbody. revert fuel st w.
  induction lines as [|line tl IH]; intros fuel st w Hh Hfuel.
  - destruct fuel as [|fuel]; [simpl in Hfuel; lia|].
    exists (Ok st), [], []. split; [intros w'; simpl; by rewrite add_stdout_nil|].
    split; [|split; [done|split; [done|]]].
    + simpl. unfold mbind, M_bind, next_line. rewrite Hh. simpl.
      by rewrite add_stdout_nil, (with_lines_same h [] w Hh).
    + intros pre line post st1 wa wb Hl. by destruct pre.
  - destruct fuel as [|fuel]; [simpl in Hfuel; lia|].
    destruct (Hbody st line) as (rb & outb & Hb).
    assert (Hstep : for_lines (S fuel) body h st w
                    = match rb with
                      | Ok st' => for_lines fuel body h st' (add_stdout outb (with_lines h tl w))
                      | Raise e => (Raise e, add_stdout outb (with_lines h tl w))
                      end).
    { simpl. unfold mbind at 1, M_bind, next_line. rewrite Hh. simpl.
      unfold mbind at 1, M_bind. rewrite Hb. by destruct rb. }
    destruct rb as [st'|e].
    + destruct (IH fuel st' (add_stdout outb (with_lines h tl w)))
        as (r & out & rest & Ht & Hf & Hs & Hok & Hat).
      { simpl. apply list_lookup_insert_eq. by eapply lookup_lt_Some. }
      { simpl in Hfuel. lia. }
      exists r, (outb ++ out), rest. split; [|split; [|split; [|split]]].
      * intros w'. simpl. unfold mbind, M_bind. by rewrite Hb, Ht, add_stdout_app.
      * rewrite Hstep, Hf, with_lines_add_stdout, with_lines_with_lines, add_stdout_app.
        reflexivity.
      * by apply suffix_cons_r.
      * exact Hok.
      * intros pre l post st1 wa wb Hl Hpre Hfail. destruct pre as [|p pre].
        -- simpl in Hl, Hpre. injection Hl as <- <-. injection Hpre as <-.
           by rewrite Hb in Hfail.
        -- simpl in Hl. injection Hl as <- ->. simpl in Hpre.
           unfold mbind, M_bind in Hpre. rewrite Hb in Hpre.
           by apply (Hat pre l post st1 (add_stdout outb wa) wb).
    + exists (Raise e), outb, tl. split; [|split; [|split; [|split]]].
      * intros w'. simpl. unfold mbind, M_bind. by rewrite Hb.
      * exact Hstep.
      * by apply suffix_cons_r.
      * done.
      * intros pre l post st1 wa wb Hl Hpre Hfail. destruct pre as [|p pre].
        -- simpl in Hl. by injection Hl as <- <-.
        -- simpl in Hl. injection Hl as <- ->. simpl in Hpre.
           unfold mbind, M_bind in Hpre. by rewrite Hb in Hpre.
Qed.

(** The source once it is acquired: the handle holds the lines of the
    source, and nothing else has changed for the rest of the load. *)
Lemma acquire_run src w lines :
  source_lines w src = Some lines ->
  exists w1,
    Io.acquire src w = (Ok (source_handle w src), w1)
    /\ handles w1 !! source_handle w src = Some (mk_handle lines false)
    /\ stdout w1 = stdout w.
Proof.
  intros Hsrc. destruct src as [p | h]; simpl in Hsrc |- *.
  - eexists. unfold open. rewrite Hsrc. split; [reflexivity|]. simpl.
    split; [|done]. by rewrite lookup_app_r, Nat.sub_diag by lia.
  - destruct (handles w !! h) as [fh|] eqn:Eh; [|done].
    destruct (fh_closed fh) eqn:Ec; [done|]. injection Hsrc as <-.
    exists w. split; [reflexivity|]. split; [|done].
    rewrite Eh. destruct fh. simpl in Ec. by subst.
Qed.

Lemma load_frame_run {St T} (body : St -> string -> M St) (st0 : St)
    (finish : St -> result T) src w lines r out :
  source_lines w src = Some lines ->
  (forall st line, writes_only (body st line)) ->
  (forall w', turns body lines st0 w' = (r, add_stdout out w')) ->
  exists w2 rest,
    handles w2 !! source_handle w src = Some (mk_handle rest false)
    /\ stdout w2 = stdout w
    /\ rest `suffix_of` lines
    /\ (is_ok r = true -> rest = [])
    /\ (forall pre line post st1 wa wb,
          lines = pre ++ line :: post ->
          (turns body pre st0 wa).1 = Ok st1 ->
          is_ok (body st1 line wb).1 = false ->
          rest = post)
    /\ load_frame body st0 finish src w =
       match r ≫= finish with
       | Ok t => (Ok t, (Io.release src (source_handle w src) (add_stdout out w2)).2)
       | Raise e => (Raise e, add_stdout out w2)
       end.
Proof.
  intros Hsrc Hbody Hturns.
  destruct (acquire_run src w lines Hsrc) as (w1 & Hacq & Hh & Hout).
  destruct (for_lines_run body (source_handle w src) (S (length lines)) lines st0 w1
              Hbody Hh ltac:(lia)) as (r' & out' & rest & Ht & Hf & Hs & Hok & Hat).
  destruct (writes_only_unique _ _ _ _ _ Hturns Ht) as [<- <-].
  exists (with_lines (source_handle w src) rest w1), rest.
  split; [by eapply with_lines_lookup|]. split; [exact Hout|].
  split; [exact Hs|]. split; [exact Hok|]. split; [exact Hat|].
  unfold load_frame. unfold mbind at 1, M_bind. rewrite Hacq.
  unfold mbind at 1, M_bind, for_each_line, lines_left. rewrite Hh. simpl fh_lines.
  rewrite Hf.
  destruct r as [st|e]; [|reflexivity]. simpl.
  unfold mbind at 1, M_bind, lift. destruct (finish st) as [t|e]; [|reflexivity].
  destruct (release_run src (source_handle w src)
              (add_stdout out (with_lines (source_handle w src) rest w1))) as [w' Hr].
  unfold mbind, M_bind. rewrite Hr. reflexivity.
Qed.

Lemma released_path_is_closed p h w :
  is_Some (handles w !! h) -> fh_is_closed (Io.release (Io.Path p) h w).2 h = true.
Proof.
  intros [fh Hfh]. unfold fh_is_closed. simpl.
  rewrite list_lookup_alter, Hfh. by case_decide.
Qed.

End LoadFrame.

(** ** io.py: which tree string load_newick keeps, and when the text
    loaders close their file *)
Section TextLoaders.
Context `{PyLib} `{TreeEngine}.
Import IoSpec.

Lemma load_newick_frame src tip_regex date_fmt variable_date absolute_time verbose sort :
  Io.load_newick src tip_regex date_fmt variable_date absolute_time verbose sort
  = load_frame (Io.newick_line verbose) None
      (Io.newick_finish tip_regex date_fmt variable_date absolute_time verbose sort) src.
Proof. reflexivity. Qed.

Lemma load_nexus_frame src tip_regex date_fmt tree_string_regex variable_date
    absolute_time verbose sort :
  Io.load_nexus src tip_regex date_fmt tree_string_regex variable_date absolute_time
    verbose sort
  = load_frame (Io.nexus_line tree_string_regex verbose) Io.nexus_start
      (Io.nexus_finish tip_regex date_fmt variable_date absolute_time sort) src.
Proof. reflexivity. Qed.

Lemma newick_scan_turns verbose lines ll w :
  Io.newick_scan verbose lines ll w = turns (Io.newick_line verbose) lines ll w.
Proof.
  revert ll w. induction lines as [|line rest IH]; intros ll w; [done|].
  simpl. unfold mbind, M_bind.
  destruct (Io.newick_line verbose ll line w) as [[ll'|e] w']; [apply IH | done].
Qed.

Lemma nexus_scan_turns regex verbose lines st w :
  Io.nexus_scan regex verbose lines st w = turns (Io.nexus_line regex verbose) lines st w.
Proof.
  revert st w. induction lines as [|line rest IH]; intros st w; [done|].
  simpl. unfold mbind, M_bind.
  destruct (Io.nexus_line regex verbose st line w) as [[st'|e] w']; [apply IH | done].
Qed.

(** A load of a Newick source, from the scan of its lines. *)
Lemma load_newick_run src tip_regex date_fmt variable_date absolute_time verbose sort
    w lines r out :
  source_lines w src = Some lines ->
  (forall w', Io.newick_scan verbose lines None w' = (r, add_stdout out w')) ->
  exists w2 rest,
    handles w2 !! source_handle w src = Some (mk_handle rest false)
    /\ stdout w2 = stdout w
    /\ rest `suffix_of` lines
    /\ (is_ok r = true -> rest = [])
    /\ (forall pre line post ll wa wb,
          lines = pre ++ line :: post ->
          (Io.newick_scan verbose pre None wa).1 = Ok ll ->
          is_ok (Io.newick_line verbose ll line wb).1 = false ->
          rest = post)
    /\ Io.load_newick src tip_regex date_fmt variable_date absolute_time verbose sort w =
       match r ≫= Io.newick_finish tip_regex date_fmt variable_date absolute_time verbose sort
       with
       | Ok t => (Ok t, (Io.release src (source_handle w src) (add_stdout out w2)).2)
       | Raise e => (Raise e, add_stdout out w2)
       end.
Proof.
  intros Hsrc Hscan. rewrite load_newick_frame.
  destruct (load_frame_run (Io.newick_line verbose) None
              (Io.newick_finish tip_regex date_fmt variable_date absolute_time verbose sort)
              src w lines r out Hsrc) as (w2 & rest & Hh & Hout & Hs & Hok & Hat & Hrun).
  - intros st line. apply newick_line_writes_only.
  - intros w'. rewrite <- newick_scan_turns. apply Hscan.
  - exists w2, rest. repeat (split; [assumption|]). split; [|exact Hrun].
    intros pre line post ll wa wb Hl Hpre. apply (Hat pre line post ll wa wb Hl).
    by rewrite <- newick_scan_turns.
Qed.

(** A load of a Nexus source, from the scan of its lines. *)
Lemma load_nexus_run src tip_regex date_fmt tree_string_regex variable_date absolute_time
    verbose sort w lines r out :
  source_lines w src = Some lines ->
  (forall w', Io.nexus_scan tree_string_regex verbose lines Io.nexus_start w'
              = (r, add_stdout out w')) ->
  exists w2 rest,
    handles w2 !! source_handle w src = Some (mk_handle rest false)
    /\ stdout w2 = stdout w
    /\ rest `suffix_of` lines
    /\ (is_ok r = true -> rest = [])
    /\ (forall pre line post st wa wb,
          lines = pre ++ line :: post ->
          (Io.nexus_scan tree_string_regex verbose pre Io.nexus_start wa).1 = Ok st ->
          is_ok (Io.nexus_line tree_string_regex verbose st line wb).1 = false ->
          rest = post)
    /\ Io.load_nexus src tip_regex date_fmt tree_string_regex variable_date absolute_time
         verbose sort w =
       match r ≫= Io.nexus_finish tip_regex date_fmt variable_date absolute_time sort with
       | Ok t => (Ok t, (Io.release src (source_handle w src) (add_stdout out w2)).2)
       | Raise e => (Raise e, add_stdout out w2)
       end.
Proof.
  intros Hsrc Hscan. rewrite load_nexus_frame.
  destruct (load_frame_run (Io.nexus_line tree_string_regex verbose) Io.nexus_start
              (Io.nexus_finish tip_regex date_fmt variable_date absolute_time sort)
              src w lines r out Hsrc) as (w2 & rest & Hh & Hout & Hs & Hok & Hat & Hrun).
  - intros st line. apply nexus_line_writes_only.
  - intros w'. rewrite <- nexus_scan_turns. apply Hscan.
  - exists w2, rest. repeat (split; [assumption|]). split; [|exact Hrun].
    intros pre line post st wa wb Hl Hpre. apply (Hat pre line post st wa wb Hl).
    by rewrite <- nexus_scan_turns.
Qed.

Lemma keep_last {A} (ll : option A) (trees : list A) :
  foldl (fun _ t => Some t) ll trees = match last trees with Some t => Some t | None => ll end.
Proof.
  induction trees as [|t trees IH] using rev_ind; [done|].
  by rewrite foldl_app, last_snoc.
Qed.

(** What a load of a Newick source returns, from the tree strings of its
    lines. *)
Lemma load_newick_result src tip_regex date_fmt variable_date absolute_time verbose sort
    w lines :
  source_lines w src = Some lines ->
  (Io.load_newick src tip_regex date_fmt variable_date absolute_time verbose sort w).1
  = (trees ← mapM (fun s => make_tree s verbose) (tree_strings lines);
     Io.newick_finish tip_regex date_fmt variable_date absolute_time verbose sort
       (last trees)).
Proof.
  intros Hsrc.
  destruct (newick_scan_writes_only verbose lines None) as (r & out & Hscan).
  destruct (load_newick_run src tip_regex date_fmt variable_date absolute_time verbose sort
              w lines r out Hsrc Hscan) as (w2 & rest & _ & _ & _ & _ & _ & ->).
  destruct (newick_scan_spec verbose lines None w) as [out' Hspec].
  rewrite Hscan in Hspec. injection Hspec as -> _.
  destruct (mapM _ (tree_strings lines)) as [trees|e]; simpl; [|done].
  rewrite keep_last. replace (match last trees with Some t => Some t | None => None end)
    with (last trees) by (by destruct (last trees)).
  by destruct (Io.newick_finish _ _ _ _ _ _ _).
Qed.

(** C2 (as amended): every line that contains an opening parenthesis is
    parsed, from its first parenthesis to its end, in the order of the
    lines; a tree string that fails to parse fails the load; and the tree
    that goes through the passes and is returned is the one parsed from
    the last such line. *)
Theorem load_newick_keeps_last_tree_string src tip_regex date_fmt
    variable_date absolute_time verbose sort w lines :
  source_lines w src = Some lines ->
  (Io.load_newick src tip_regex date_fmt variable_date absolute_time verbose sort w).1
  = (trees ← mapM (fun s => make_tree s verbose) (tree_strings lines);
     Io.newick_finish tip_regex date_fmt variable_date absolute_time verbose sort
       (last trees)).
Proof. apply load_newick_result. Qed.

Lemma frame_handle_after {St T} (body : St -> string -> M St) (st0 : St)
    (finish : St -> result T) path lines w :
  files w !! path = Some lines ->
  (forall st line, writes_only (body st line)) ->
  match load_frame body st0 finish (Io.Path path) w with
  | (Ok _, w') => fh_is_closed w' (length (handles w)) = true
  | (Raise _, w') => fh_is_open w' (length (handles w)) = true
  end.
Proof.
  intros Hfile Hbody.
  destruct (turns_writes_only body lines st0 Hbody) as (r & out & Hturns).
  destruct (load_frame_run body st0 finish (Io.Path path) w lines r out Hfile Hbody Hturns)
    as (w2 & rest & Hh & _ & _ & _ & _ & ->).
  simpl source_handle in *.
  destruct (r ≫= finish) as [t|e].
  - apply released_path_is_closed. simpl. by rewrite Hh.
  - unfold fh_is_open. simpl. by rewrite Hh.
Qed.

(** C10: a text loader that opened the file itself closes it on the
    successful return path only; when the load raises after the file was
    opened (for one, when no line holds a tree string), the handle is left
    open. *)
Theorem text_loaders_close_only_on_success path lines w tip_regex date_fmt
    tree_string_regex variable_date absolute_time verbose sort :
  files w !! path = Some lines ->
  match Io.load_newick (Io.Path path) tip_regex date_fmt variable_date absolute_time
          verbose sort w with
  | (Ok _, w') => fh_is_closed w' (length (handles w)) = true
  | (Raise _, w') => fh_is_open w' (length (handles w)) = true
  end
  /\ match Io.load_nexus (Io.Path path) tip_regex date_fmt tree_string_regex
             variable_date absolute_time verbose sort w with
     | (Ok _, w') => fh_is_closed w' (length (handles w)) = true
     | (Raise _, w') => fh_is_open w' (length (handles w)) = true
     end
  /\ (tree_strings lines = [] ->
      (Io.load_newick (Io.Path path) tip_regex date_fmt variable_date absolute_time
         verbose sort w).1
      = Raise (AssertionError "Regular expression failed to find tree string")).
Proof.
  intros Hfile. split; [|split].
  - rewrite load_newick_frame. apply (frame_handle_after _ _ _ path lines); [done|].
    intros st line. apply newick_line_writes_only.
  - rewrite load_nexus_frame. apply (frame_handle_after _ _ _ path lines); [done|].
    intros st line. apply nexus_line_writes_only.
  - intros Hnone.
    rewrite (load_newick_result (Io.Path path) _ _ _ _ _ _ w lines Hfile).
    rewrite Hnone. reflexivity.
Qed.

End TextLoaders.

(** ** io.py: calibration of the text loaders *)
Section Calibration.
Context `{PyLib} `{TreeEngine}.
Import IoSpec.
Local Open Scope Q_scope.

Lemma collect_tip_dates_spec tip_regex date_fmt variable_date external tip_dates tip_names :
  Io.collect_tip_dates tip_regex date_fmt variable_date external tip_dates tip_names
  = (ds ← mapM (tip_date tip_regex date_fmt variable_date) external;
     Ok (tip_dates ++ omap id ds, tip_names ++ (Models.name <$> external))).
Proof.
  revert tip_dates tip_names. unfold tip_date.
  induction external as [|k rest IH]; intros tip_dates tip_names.
  - simpl. by rewrite !app_nil_r.
  - simpl Io.collect_tip_dates. simpl mapM.
    destruct (Io.py_re_search tip_regex (Models.name k)) as [[m|]|e]; simpl; [| |done].
    + destruct (Io.group m 1) as [g|e]; simpl; [|done].
      destruct (Dates.decimal_date g date_fmt variable_date) as [d|e]; simpl; [|done].
      rewrite IH. destruct (mapM _ rest) as [ds|e]; simpl; [|done].
      by rewrite <- !app_assoc.
    + rewrite IH. destruct (mapM _ rest) as [ds|e]; simpl; [|done].
      by rewrite <- !app_assoc.
Qed.

Lemma gt_floats v m : Py.gt (VFloat v) (VFloat m) = Ok (negb (Qle_bool v m)).
Proof. reflexivity. Qed.

Lemma max_from_floats m qs :
  exists m', Py.max_from (VFloat m) (VFloat <$> qs) = Ok (VFloat m')
    /\ (m' = m \/ m' ∈ qs) /\ m <= m' /\ forall q, q ∈ qs -> q <= m'.
Proof.
  revert m. induction qs as [|v qs IH]; intros m.
  - exists m. simpl. split; [done|]. split; [by left|]. split; [lra|].
    intros q Hq. by apply elem_of_nil in Hq.
  - simpl. destruct (Qle_bool v m) eqn:Hc; simpl.
    + apply Qle_bool_iff in Hc.
      destruct (IH m) as (m' & E & Hin & Hm & Hall). exists m'.
      split; [done|]. split; [destruct Hin; [by left | right; by right]|].
      split; [done|]. intros q Hq. apply elem_of_cons in Hq as [-> | Hq]; [lra | by apply Hall].
    + assert (Hlt : m < v).
      { apply Qnot_le_lt. intros Hle. apply Qle_bool_iff in Hle. congruence. }
      destruct (IH v) as (m' & E & Hin & Hm & Hall). exists m'.
      split; [done|]. split; [right; destruct Hin as [-> | Hin]; [by left | by right]|].
      split; [lra|]. intros q Hq. apply elem_of_cons in Hq as [-> | Hq]; [lra | by apply Hall].
Qed.

Lemma max_floats qs :
  qs <> [] ->
  exists m, Py.max (VFloat <$> qs) = Ok (VFloat m) /\ m ∈ qs /\ forall q, q ∈ qs -> q <= m.
Proof.
  destruct qs as [|v qs]; [done|]. intros _. simpl.
  destruct (max_from_floats v qs) as (m & E & Hin & Hm & Hall). exists m.
  split; [done|]. split; [destruct Hin as [-> | Hin]; [by left | by right]|].
  intros q Hq. apply elem_of_cons in Hq as [-> | Hq]; [done | by apply Hall].
Qed.

Lemma decimal_date_is_float date fmt variable d :
  fmt <> EmptyString -> Dates.decimal_date date fmt variable = Ok d -> exists q, d = VFloat q.
Proof.
  intros Hne. rewrite decimal_date_unfold by done.
  destruct (Dates.effective_format _ _ _) as [fmt'|]; simpl; [|done].
  destruct (strptime _ _) as [dt|]; simpl; [|done].
  destruct (Dates.year_fraction dt) as [r|]; simpl; [|done].
  intros [= <-]. by exists r.
Qed.

Lemma tip_dates_are_floats tip_regex date_fmt variable_date
    (external : list Models.BaseTreeObject) (ds : list (option PyVal)) :
  date_fmt <> EmptyString ->
  mapM (tip_date tip_regex date_fmt variable_date) external = Ok ds ->
  exists qs : list Q, omap id ds = VFloat <$> qs.
Proof.
  intros Hne. revert ds. induction external as [|k rest IH]; intros ds; simpl.
  - intros [= <-]. by exists [].
  - destruct (tip_date tip_regex date_fmt variable_date k) as [o|] eqn:Ek; simpl; [|done].
    destruct (mapM _ rest) as [ds'|]; simpl; [|done]. intros [= <-].
    destruct (IH ds' eq_refl) as [qs Hqs]. destruct o as [d|]; simpl.
    + assert (Hd : exists q, d = VFloat q).
      { unfold tip_date in Ek.
        destruct (Io.py_re_search _ _) as [[m|]|]; simpl in Ek; [| done | done].
        destruct (Io.group m 1) as [g|]; simpl in Ek; [|done].
        destruct (Dates.decimal_date g date_fmt variable_date) as [d'|] eqn:Ed;
          simpl in Ek; [|done].
        injection Ek as <-. by eapply decimal_date_is_float. }
      destruct Hd as [q ->]. exists (q :: qs). simpl. f_equal. exact Hqs.
    + by exists qs.
Qed.

(** The order of strings: by code points, a proper prefix first. *)
Lemma string_ltb_trans (a b c : string) :
  String.ltb a b = true -> String.ltb b c = true -> String.ltb a c = true.
Proof.
  unfold String.ltb. intros Hab Hbc.
  destruct (String.compare a b) eqn:E1; try discriminate.
  destruct (String.compare b c) eqn:E2; try discriminate.
  apply OrderedTypeEx.String_as_OT.cmp_lt in E1, E2.
  pose proof (OrderedTypeEx.String_as_OT.lt_trans _ _ _ E1 E2) as E3.
  apply OrderedTypeEx.String_as_OT.cmp_lt in E3.
  unfold OrderedTypeEx.String_as_OT.cmp in E3. by rewrite E3.
Qed.

Lemma string_ltb_irrefl (a : string) : String.ltb a a = false.
Proof.
  unfold String.ltb. pose proof (String.compare_antisym a a) as E.
  destruct (String.compare a a); simpl in E; congruence.
Qed.

Lemma gt_strings s m : Py.gt (VStr s) (VStr m) = Ok (String.ltb m s).
Proof. reflexivity. Qed.

Lemma string_le_ltb_trans (a b c : string) :
  String.ltb b a = false -> String.ltb b c = true -> String.ltb a c = true.
Proof.
  intros Hba Hbc. unfold String.ltb in Hba. rewrite (String.compare_antisym b a) in Hba.
  destruct (String.compare a b) eqn:E; simpl in Hba; try discriminate.
  - by apply String.compare_eq_iff in E as ->.
  - apply (string_ltb_trans a b c); [|done]. unfold String.ltb. by rewrite E.
Qed.

Lemma max_from_strings m ss :
  exists m', Py.max_from (VStr m) (VStr <$> ss) = Ok (VStr m')
    /\ (m' = m \/ m' ∈ ss) /\ String.ltb m' m = false
    /\ forall s, s ∈ ss -> String.ltb m' s = false.
Proof.
  revert m. induction ss as [|v ss IH]; intros m.
  - exists m. simpl. split; [done|]. split; [by left|]. split; [apply string_ltb_irrefl|].
    intros s Hs. by apply elem_of_nil in Hs.
  - simpl. destruct (String.ltb m v) eqn:Hc; simpl.
    + destruct (IH v) as (m' & E & Hin & Hm & Hall). exists m'.
      split; [done|]. split; [right; destruct Hin as [-> | Hin]; [by left | by right]|].
      split.
      * destruct (String.ltb m' m) eqn:Hlt; [|done].
        by rewrite (string_ltb_trans _ _ _ Hlt Hc) in Hm.
      * intros s Hs. apply elem_of_cons in Hs as [-> | Hs]; [done | by apply Hall].
    + destruct (IH m) as (m' & E & Hin & Hm & Hall). exists m'.
      split; [done|]. split; [destruct Hin; [by left | right; by right]|].
      split; [done|]. intros s Hs. apply elem_of_cons in Hs as [-> | Hs]; [|by apply Hall].
      destruct (String.ltb m' v) eqn:Hlt; [|done].
      by rewrite (string_le_ltb_trans _ _ _ Hm Hlt) in Hc.
Qed.

Lemma max_strings ss :
  ss <> [] ->
  exists m, Py.max (VStr <$> ss) = Ok (VStr m) /\ m ∈ ss
    /\ forall s, s ∈ ss -> String.ltb m s = false.
Proof.
  destruct ss as [|v ss]; [done|]. intros _. simpl.
  destruct (max_from_strings v ss) as (m & E & Hin & Hm & Hall). exists m.
  split; [done|]. split; [destruct Hin as [-> | Hin]; [by left | by right]|].
  intros s Hs. apply elem_of_cons in Hs as [-> | Hs]; [done | by apply Hall].
Qed.

Lemma tip_dates_are_strings tip_regex variable_date
    (external : list Models.BaseTreeObject) (ds : list (option PyVal)) :
  mapM (tip_date tip_regex EmptyString variable_date) external = Ok ds ->
  exists ss : list string, omap id ds = VStr <$> ss.
Proof.
  revert ds. induction external as [|k rest IH]; intros ds; simpl.
  - intros [= <-]. by exists [].
  - destruct (tip_date tip_regex EmptyString variable_date k) as [o|] eqn:Ek; simpl; [|done].
    destruct (mapM _ rest) as [ds'|]; simpl; [|done]. intros [= <-].
    destruct (IH ds' eq_refl) as [ss Hss]. destruct o as [d|]; simpl.
    + assert (Hd : exists s, d = VStr s).
      { unfold tip_date in Ek.
        destruct (Io.py_re_search _ _) as [[m|]|]; simpl in Ek; [| done | done].
        destruct (Io.group m 1) as [g|]; simpl in Ek; [|done].
        injection Ek as <-. by exists g. }
      destruct Hd as [s ->]. exists (s :: ss). simpl. f_equal. exact Hss.
    + by exists ss.
Qed.


End Calibration.

(** ** io.py: the translate block of load_nexus *)
Section NexusStrings.

Lemma find_char_mem c s : Str.find (Str.of_char c) s = None -> Str.mem c s = false.
Proof.
  induction s as [|a s IH]; [done|]. simpl.
  destruct (Ascii.eqb c a); simpl; [done|].
  destruct (Str.find (Str.of_char c) s); [done|]. intros _. by apply IH.
Qed.

Lemma lower_char_semicolon a :
  Ascii.eqb ";"%char (Str.lower_char a) = Ascii.eqb ";"%char a.
Proof.
  unfold Str.lower_char. destruct (Str.is_upper a) eqn:Hu; [|done].
  destruct a as [[] [] [] [] [] [] [] []]; vm_compute in Hu; try discriminate; reflexivity.
Qed.

Lemma mem_semicolon_lower s : Str.mem ";"%char (Str.lower s) = Str.mem ";"%char s.
Proof.
  induction s as [|a s IH]; [done|]. cbn [Str.mem Str.lower].
  by rewrite IH, lower_char_semicolon.
Qed.

Lemma mem_drop c n s : Str.mem c (Str.drop n s) = true -> Str.mem c s = true.
Proof.
  revert s. induction n as [|n IH]; intros s; [done|]. destruct s as [|a s]; [done|].
  simpl. intros Hm. rewrite (IH _ Hm). by rewrite orb_true_r.
Qed.

Lemma mem_span_rest c p s a b :
  Str.span p s = (a, b) -> Str.mem c b = true -> Str.mem c s = true.
Proof.
  revert a b. induction s as [|x s IH]; intros a b; simpl.
  - intros [= <- <-]. done.
  - destruct (p x).
    + destruct (Str.span p s) as [a' b'] eqn:Es. intros [= <- <-] Hm.
      rewrite (IH _ _ eq_refl Hm). by rewrite orb_true_r.
    + intros [= <- <-]. done.
Qed.

Lemma match_dimensions_semicolon s ds :
  Io.match_dimensions s = Some ds -> Str.mem ";"%char s = true.
Proof.
  unfold Io.match_dimensions. destruct (Str.prefix _ s); [|done].
  destruct (Str.span Str.is_digit (Str.drop 16 s)) as [a b] eqn:Es.
  destruct (negb _ && Str.prefix ";" b)%bool eqn:Hc; [|done]. intros _.
  apply andb_true_iff in Hc as [_ Hp].
  apply (mem_drop _ 16). apply (mem_span_rest _ _ _ _ _ Es).
  destruct b as [|x b]; [done|]. cbn [Str.prefix] in Hp. apply andb_true_iff in Hp as [Hx _].
  apply Ascii.eqb_eq in Hx as <-. reflexivity.
Qed.

Lemma search_from_mem {A} (m : string -> option A) c s r :
  (forall s' r', m s' = Some r' -> Str.mem c s' = true) ->
  Io.search_from m s = Some r -> Str.mem c s = true.
Proof.
  intros Hm. induction s as [|a s IH]; simpl.
  - destruct (m EmptyString) eqn:E; [|done]. intros _. by apply (Hm _ _ E).
  - destruct (m (String a s)) eqn:E.
    + intros _. by apply (Hm _ _ E).
    + intros Hs. rewrite (IH Hs). by rewrite orb_true_r.
Qed.

(** The [dimensions] directive ends in a semicolon: a line without one
    does not match it. *)
Lemma search_dimensions_none l :
  Str.contains ";" l = false -> Io.search_dimensions (Str.lower l) = None.
Proof.
  intros Hc. apply contains_false in Hc. apply (find_char_mem ";"%char) in Hc.
  destruct (Io.search_dimensions (Str.lower l)) as [ds|] eqn:Es; [|done].
  apply (search_from_mem _ ";"%char) in Es; [|apply match_dimensions_semicolon].
  rewrite mem_semicolon_lower in Es. congruence.
Qed.

End NexusStrings.

Section NexusTranslate.
Context `{PyLib} `{TreeEngine}.
Import IoSpec.

(** What one turn of the scan does to the block flag and to the table:
    what the specification says of the line. *)
Lemma nexus_line_table regex verbose st line w st' :
  (Io.nexus_line regex verbose st line w).1 = Ok st' ->
  (Io.tip_flag st', Io.tips st') = table_line (Io.tip_flag st, Io.tips st) line.
Proof.
  unfold Io.nexus_line, table_line. destruct st as [flag table num ll].
  cbn [Io.tip_flag Io.tips Io.tip_num Io.nexus_ll fst snd].
  unfold mbind, M_bind, mret, M_ret, lift, print_if, print.
  set (l := Str.strip Str.newline line).
  destruct (Io.search_dimensions (Str.lower l)) as [ds|];
    destruct (re_search regex (Str.lower l)) as [m|];
    try destruct (Str.index "(" l) as [i|e];
    try destruct (make_tree (Str.drop i l) false) as [t|e'];
    destruct verbose; destruct flag;
    cbn [Io.tip_flag Io.tips Io.tip_num Io.nexus_ll fst snd];
    try destruct (Io.search_tip l) as [[g1 g2]|];
    try destruct (Str.contains ";" l);
    try destruct (Str.contains "translate" (Str.lower l));
    cbn [Io.tip_flag Io.tips Io.tip_num Io.nexus_ll fst snd negb];
    intros [= <-]; reflexivity.
Qed.

Lemma nexus_scan_table regex verbose lines st w st' :
  (Io.nexus_scan regex verbose lines st w).1 = Ok st' ->
  (Io.tip_flag st', Io.tips st') = foldl table_line (Io.tip_flag st, Io.tips st) lines.
Proof.
  revert st w. induction lines as [|line rest IH]; intros st w; simpl.
  - by intros [= <-].
  - unfold mbind, M_bind.
    destruct (Io.nexus_line regex verbose st line w) as [[st1|e] w1] eqn:E; [|done].
    intros Hrest. rewrite (IH _ _ Hrest). f_equal.
    apply (nexus_line_table regex verbose st line w). by rewrite E.
Qed.

(** One turn of the scan on a line inside the translate block that holds
    no pair and no semicolon.  When the tree pattern is found on it, the
    line is taken for a tree definition first, which raises when it has
    no parenthesis or when its tree string does not parse; then the
    report is printed, whatever the verbosity; the block flag and the
    table are left as they were. *)
Lemma nexus_line_malformed regex verbose st line w :
  Io.tip_flag st = true ->
  Io.search_tip (Str.strip Str.newline line) = None ->
  Str.contains ";" (Str.strip Str.newline line) = false ->
  Io.nexus_line regex verbose st line w
  = match re_search regex (Str.lower (Str.strip Str.newline line)) with
    | Some _ =>
        match (i ← Str.index "(" (Str.strip Str.newline line);
               make_tree (Str.drop i (Str.strip Str.newline line)) false) with
        | Ok t =>
            (Ok (Io.mk_nexus true (Io.tips st) (Io.tip_num st) (Some t)),
             add_stdout ((if verbose then ["Identified tree string"] else [])
                         ++ [tip_not_captured (Str.strip Str.newline line)]) w)
        | Raise e => (Raise e, w)
        end
    | None => (Ok st, add_stdout [tip_not_captured (Str.strip Str.newline line)] w)
    end.
Proof.
  intros Hflag Htip Hsemi.
  destruct st as [flag table num ll]. simpl in Hflag. subst flag.
  unfold Io.nexus_line.
  rewrite (search_dimensions_none _ Hsemi).
  unfold mbind at 1, M_bind, mret at 1, M_ret.
  destruct (re_search regex _) as [m|].
  - unfold mbind at 1, M_bind. rewrite lift_bind.
    destruct (Str.index "(" _) as [i|e]; [|reflexivity]. rewrite lift_bind.
    cbn [mbind result_bind].
    destruct (make_tree _ false) as [t|e]; [|reflexivity].
    unfold mbind at 1, M_bind. rewrite print_if_run.
    unfold mbind, M_bind, mret, M_ret. cbn [Io.tip_flag Io.tips Io.tip_num Io.nexus_ll].
    rewrite Htip, Hsemi. cbn [negb print]. rewrite add_stdout_app.
    destruct (Str.contains "translate" _); reflexivity.
  - unfold mbind, M_bind, mret, M_ret. cbn [Io.tip_flag].
    rewrite Htip, Hsemi. cbn [negb print Io.tip_flag Io.tips Io.tip_num Io.nexus_ll].
    destruct (Str.contains "translate" _); reflexivity.
Qed.

Lemma nexus_scan_app regex verbose pre rest st w :
  Io.nexus_scan regex verbose (pre ++ rest) st w
  = (Io.nexus_scan regex verbose pre st ≫= Io.nexus_scan regex verbose rest) w.
Proof.
  revert st w. induction pre as [|line pre IH]; intros st w; [done|].
  simpl. unfold mbind, M_bind.
  destruct (Io.nexus_line regex verbose st line w) as [[st'|e] w']; [|done].
  apply IH.
Qed.

Lemma release_stdout src h w : stdout (Io.release src h w).2 = stdout w.
Proof. by destruct src. Qed.

(** What a load of a Nexus source returns and prints, from the scan of
    its lines. *)
Lemma load_nexus_result src tip_regex date_fmt tree_string_regex variable_date
    absolute_time verbose sort w lines r out :
  source_lines w src = Some lines ->
  (forall w', Io.nexus_scan tree_string_regex verbose lines Io.nexus_start w'
              = (r, add_stdout out w')) ->
  (Io.load_nexus src tip_regex date_fmt tree_string_regex variable_date absolute_time
     verbose sort w).1
  = r ≫= Io.nexus_finish tip_regex date_fmt variable_date absolute_time sort
  /\ stdout (Io.load_nexus src tip_regex date_fmt tree_string_regex variable_date
               absolute_time verbose sort w).2
     = stdout w ++ out.
Proof.
  intros Hsrc Hscan.
  destruct (load_nexus_run src tip_regex date_fmt tree_string_regex variable_date
              absolute_time verbose sort w lines r out Hsrc Hscan)
    as (w2 & rest & _ & Hout & _ & _ & _ & ->).
  destruct (r ≫= _) as [t|e]; simpl.
  - rewrite release_stdout. simpl. by rewrite Hout.
  - by rewrite Hout.
Qed.


End NexusTranslate.

(** ** io.py: the translation mapping of load_json *)

(** C1: a translation mapping that names an absolute time and a branch
    length (and no height) satisfies the conditions of both assertions of
    [load_json], whatever its values: the second condition is false only
    when absolute time, length and height are all three present. *)
Theorem load_json_accepts_absolute_time_with_length (n a l : TransVal) :
  Io.translation_has_required [("name", n); ("absolute_time", a); ("length", l)] = true
  /\ Io.translation_is_exclusive [("name", n); ("absolute_time", a); ("length", l)] = true.
Proof. split; reflexivity. Qed.

(** What the two conditions amount to. *)
Lemma translation_conditions jt :
  (Io.translation_has_required jt && Io.translation_is_exclusive jt)%bool
  = (Io.trans_has "name" jt
     && ((Io.trans_has "absolute_time" jt
          && negb (Io.trans_has "length" jt && Io.trans_has "height" jt))
         || (negb (Io.trans_has "absolute_time" jt)
             && (Io.trans_has "length" jt || Io.trans_has "height" jt))))%bool.
Proof.
  unfold Io.translation_has_required, Io.translation_is_exclusive.
  destruct (Io.trans_has "name" jt), (Io.trans_has "absolute_time" jt),
    (Io.trans_has "length" jt), (Io.trans_has "height" jt); reflexivity.
Qed.

(** ** io.py: the lengths load_json derives *)

(** C5: whenever "height" is translated and the first object of the
    registry has no parent, the derivation reads the attribute off [None]
    and raises [AttributeError]; no length is set. *)
Theorem derive_lengths_raises_at_parentless_root
    (k : Models.BaseTreeObject) (rest : list Models.BaseTreeObject)
    (tv : TransVal) (jt : list (string * TransVal)) :
  Io.derive_lengths (("height", tv) :: jt) (Models.set_parent VNone k :: rest)
  = Raise (AttributeError "NoneType" "height").
Proof. reflexivity. Qed.

(** ** Sample runs of the loaders *)
Section LoaderSamples.
Local Existing Instance PyStd.std.
Local Existing Instance Recorder.engine.
Import Samples.

Lemma load_newick_keeps_last_tree_string_witness :
  IoSpec.source_lines (stream_world two_trees) (Io.Stream 0) = Some two_trees
  /\ (Io.load_newick (Io.Stream 0) PyStd.default_tip_regex "%Y-%m-%d" true false false true
        (stream_world two_trees)).1
     = (trees ← mapM (fun s => make_tree s false) (IoSpec.tree_strings two_trees);
        Io.newick_finish PyStd.default_tip_regex "%Y-%m-%d" true false false true
          (last trees)).
Proof.
  split; [reflexivity|].
  apply (load_newick_keeps_last_tree_string (Io.Stream 0) PyStd.default_tip_regex
           "%Y-%m-%d" true false false true (stream_world two_trees) two_trees).
  reflexivity.
Defined.

(** C2, counterexample: of a source with the tree strings [(A:1,B:2);]
    and [(C:1,D:2);] on two lines, both are parsed and the tree returned
    is built from the second: its tips are C and D. *)
Lemma load_newick_returns_the_second_tree :
  IoSpec.tree_strings two_trees = ["(A:1,B:2);"; "(C:1,D:2);"]
  /\ Recorder.calls <$> (Io.load_newick (Io.Stream 0) PyStd.default_tip_regex "%Y-%m-%d"
                           true false false true (stream_world two_trees)).1
     = Ok [Recorder.MakeTree "(C:1,D:2);" false; Recorder.TraverseTree false;
           Recorder.SortBranches]
  /\ (fun t => Models.name <$> Recorder.registry t)
       <$> (Io.load_newick (Io.Stream 0) PyStd.default_tip_regex "%Y-%m-%d"
              true false false true (stream_world two_trees)).1
     = Ok [VStr "C"; VStr "D"]
  /\ (fun t => Models.name <$> Recorder.registry t) <$> make_tree "(A:1,B:2);" false
     = Ok [VStr "A"; VStr "B"].
Proof. repeat split; vm_compute; reflexivity. Qed.

Lemma text_loaders_close_only_on_success_witness :
  files (file_world "trees.nwk" two_trees) !! "trees.nwk" = Some two_trees
  /\ fh_is_closed
       (Io.load_newick (Io.Path "trees.nwk") PyStd.default_tip_regex "%Y-%m-%d"
          true false false true (file_world "trees.nwk" two_trees)).2 0 = true
  /\ fh_is_open
       (Io.load_newick (Io.Path "trees.nwk") PyStd.default_tip_regex "%Y-%m-%d"
          true true false true (file_world "trees.nwk" two_trees)).2 0 = true.
Proof.
  assert (Hfile : files (file_world "trees.nwk" two_trees) !! "trees.nwk" = Some two_trees)
    by (vm_compute; reflexivity).
  split; [exact Hfile|]. split.
  - pose proof (proj1 (text_loaders_close_only_on_success "trees.nwk" two_trees
                         (file_world "trees.nwk" two_trees) PyStd.default_tip_regex
                         "%Y-%m-%d" PyStd.default_tree_string_regex true false false true
                         Hfile)) as Hc.
    destruct (Io.load_newick _ _ _ _ _ _ _ _) as [[t|e] w'] eqn:E; [exact Hc|].
    vm_compute in E. discriminate E.
  - pose proof (proj1 (text_loaders_close_only_on_success "trees.nwk" two_trees
                         (file_world "trees.nwk" two_trees) PyStd.default_tip_regex
                         "%Y-%m-%d" PyStd.default_tree_string_regex true true false true
                         Hfile)) as Hc.
    destruct (Io.load_newick _ _ _ _ _ _ _ _) as [[t|e] w'] eqn:E; [|exact Hc].
    vm_compute in E. discriminate E.
Defined.


(** The dated sample tree: the undated tip is passed over and the tree is
    calibrated with the later of the two decimal dates. *)
Example calibrate_sample :
  mapM (IoSpec.tip_date PyStd.default_tip_regex "%Y-%m-%d" true) (get_external dated_tree)
  = Ok dated_tree_dates
  /\ Recorder.calls <$> Io.calibrate PyStd.default_tip_regex "%Y-%m-%d" true dated_tree
     = Ok [Recorder.MakeTree dated_tree_string false;
           Recorder.SetAbsoluteTime (VFloat (4442111091858695 # 2199023255552))].
Proof. split; vm_compute; reflexivity. Qed.



(** The malformed line is reported, the pairs around it are captured, and
    the tree is renamed and calibrated. *)
Example load_nexus_sample :
  Recorder.calls <$> (Io.load_nexus (Io.Path "sample.nex") PyStd.default_tip_regex
                        "%Y-%m-%d" PyStd.default_tree_string_regex true true false true
                        (file_world "sample.nex" (nexus_pre ++ nexus_bad :: nexus_post))).1
  = Ok [Recorder.MakeTree "(1:1,2:2);" false; Recorder.TraverseTree false;
        Recorder.SortBranches;
        Recorder.RenameTips [("1", "taxonA|2020-01-15"); ("2", "taxonB|2019-06-01")];
        Recorder.SetTipMap [("1", "taxonA|2020-01-15"); ("2", "taxonB|2019-06-01")];
        Recorder.SetAbsoluteTime (VFloat (4442111091858695 # 2199023255552))]
  /\ stdout (Io.load_nexus (Io.Path "sample.nex") PyStd.default_tip_regex
               "%Y-%m-%d" PyStd.default_tree_string_regex true true false true
               (file_world "sample.nex" (nexus_pre ++ nexus_bad :: nexus_post))).2
     = ["tip not captured by regex: ??? unreadable entry"].
Proof. split; vm_compute; reflexivity. Qed.

(** With the recording engine, whose root has no parent, a load that
    passes both assertions with absolute time and length ends in the
    [AttributeError] of the length derivation, not in an assertion error;
    so does every load that translates a height. *)
Example load_json_sample_both_sources :
  (Io.load_json (Io.JsonObject auspice_doc) both_sources false true true
     (file_world "none" [])).1
  = Raise (AttributeError "NoneType" "absolute_time").
Proof. vm_compute. reflexivity. Qed.

Example load_json_sample_by_height :
  (Io.load_json (Io.JsonObject auspice_doc) by_height false true true
     (file_world "none" [])).1
  = Raise (AttributeError "NoneType" "height").
Proof. vm_compute. reflexivity. Qed.

(** A parent whose height is 0 counts as unavailable: the child of
    height 5 is given length 0.0. *)
Example derive_length_with_parent_at_zero :
  Models.length <$> (Io.derive_length "height" root_and_child 1
                       (Models.set_height (VInt 5)
                          (Models.set_parent (VRef 0) Models.Leaf_init)))
  = Ok (VFloat 0).
Proof. reflexivity. Qed.

End LoaderSamples.

(** * Further properties of the code *)

(** ** dates.py: decimal dates follow the order of instants *)
Section DecimalOrder.
Import Datetime DatetimeFacts DatesFacts F64Facts.

Lemma days_before_year_mono a b :
  (a <= b)%Z -> (days_before_year a <= days_before_year b)%Z.
Proof. unfold days_before_year. intros Hab. Z.div_mod_to_equations. lia. Qed.

Lemma year_start_of (dt : datetime) :
  exists boy, datetime_new (year dt) 1 1 0 0 0 0 = Ok boy /\ is_year_start boy (year dt).
Proof.
  destruct (datetime_bounds dt) as (Hy & _).
  destruct (datetime_new_ok (year dt) 1 1 0 0 0 0) as (boy & Eb & Hb).
  { apply fields_ok_spec. simpl. lia. }
  exists boy. split; [exact Eb | exact Hb].
Qed.

Local Open Scope Q_scope.

Lemma total_seconds_year y :
  total_seconds (days_in_year y * 86400000000)%Z = inject_Z (days_in_year y * 86400).
Proof. unfold days_in_year. destruct (is_leap y); vm_compute; reflexivity. Qed.

Lemma year_seconds_nonzero y : Qeq_bool (inject_Z (days_in_year y * 86400)) 0 = false.
Proof. unfold days_in_year. destruct (is_leap y); reflexivity. Qed.

(** The value [year_fraction] computes for a naive instant of a year
    that has a successor. *)
Lemma year_fraction_value dt boy :
  tzinfo dt = None -> (year dt < 9999)%Z -> is_year_start boy (year dt) ->
  Dates.year_fraction dt
  = Ok (F64.add (inject_Z (year dt))
          (F64.div (total_seconds (delta dt boy))
                   (inject_Z (days_in_year (year dt) * 86400)))).
Proof.
  intros Htz Hy Hb.
  destruct (year_starts dt Hy) as (boy' & eoy & Eb & Ee & Hb' & He & _ & _).
  rewrite (year_fraction_naive dt boy' eoy Htz Eb Ee).
  assert (Esub : delta dt boy' = delta dt boy).
  { unfold delta. by rewrite (to_us_year_start _ _ Hb), (to_us_year_start _ _ Hb'). }
  rewrite (year_length boy' eoy (year dt) Hb' He), Esub.
  rewrite total_seconds_year. unfold Dates.truediv.
  rewrite year_seconds_nonzero. reflexivity.
Qed.

Lemma year_fraction_ok_year dt r : Dates.year_fraction dt = Ok r -> (year dt < 9999)%Z.
Proof.
  intros E. destruct (datetime_bounds dt) as (Hy & _).
  destruct (Z.eq_dec (year dt) 9999%Z) as [H9 | Hn]; [|lia].
  rewrite (year_fraction_last_year dt H9) in E. discriminate.
Qed.

(** Only a naive instant has a fractional year. *)
Lemma year_fraction_ok_naive dt r : Dates.year_fraction dt = Ok r -> tzinfo dt = None.
Proof.
  intros E. pose proof (year_fraction_ok_year _ _ E) as Hy.
  destruct (tzinfo dt) as [off|] eqn:Htz; [|done].
  rewrite (year_fraction_aware dt off Htz Hy) in E. discriminate.
Qed.

(** X1: the fractional year is monotone in the instant: of two instants
    for which it is computed, the later one never gets the smaller
    decimal date, within a year and across years, rounding included. *)
Theorem year_fraction_monotone dt1 dt2 r1 r2 :
  Dates.year_fraction dt1 = Ok r1 -> Dates.year_fraction dt2 = Ok r2 ->
  (to_us dt1 <= to_us dt2)%Z -> r1 <= r2.
Proof.
  intros E1 E2 Hle.
  pose proof (year_fraction_ok_year _ _ E1) as Hy1.
  pose proof (year_fraction_ok_year _ _ E2) as Hy2.
  pose proof (year_fraction_ok_naive _ _ E1) as Hn1.
  pose proof (year_fraction_ok_naive _ _ E2) as Hn2.
  destruct (year_start_of dt1) as (b1 & _ & Hb1).
  destruct (year_start_of dt2) as (b2 & _ & Hb2).
  destruct (elapsed_bounds dt1 b1 Hb1) as (HE1 & _).
  destruct (elapsed_bounds dt2 b2 Hb2) as (HE2 & _).
  destruct (Z.lt_trichotomy (year dt1) (year dt2)) as [Hlt | [Heq | Hgt]].
  - destruct (year_fraction_spec dt1 Hn1 Hy1) as (r1' & E1' & _ & Hu & _).
    destruct (year_fraction_spec dt2 Hn2 Hy2) as (r2' & E2' & Hl & _).
    rewrite E1 in E1'. injection E1' as <-. rewrite E2 in E2'. injection E2' as <-.
    assert (inject_Z (year dt1) + 1 <= inject_Z (year dt2)).
    { change 1 with (inject_Z 1). rewrite <- inject_Z_plus, <- Zle_Qle. lia. }
    lra.
  - rewrite (year_fraction_value dt1 b1 Hn1 Hy1 Hb1) in E1. injection E1 as <-.
    rewrite (year_fraction_value dt2 b2 Hn2 Hy2 Hb2) in E2. injection E2 as <-.
    rewrite Heq.
    assert (Hsub : (0 <= delta dt1 b1 <= delta dt2 b2)%Z).
    { split; [lia|]. unfold delta.
      rewrite (to_us_year_start _ _ Hb1), (to_us_year_start _ _ Hb2), Heq. lia. }
    assert (Ha : 0 <= total_seconds (delta dt1 b1)).
    { change 0 with (total_seconds 0%Z). apply total_seconds_mono. lia. }
    pose proof (total_seconds_mono _ _ Hsub) as Hab.
    assert (HB : 0 < inject_Z (days_in_year (year dt2) * 86400)).
    { unfold days_in_year. destruct (is_leap (year dt2)); reflexivity. }
    assert (Hy0 : 0 <= inject_Z (year dt2)).
    { change 0 with (inject_Z 0). rewrite <- Zle_Qle. destruct (datetime_bounds dt2). lia. }
    unfold F64.add, F64.div.
    assert (Hf0 : 0 <= total_seconds (delta dt1 b1)
                       / inject_Z (days_in_year (year dt2) * 86400)).
    { apply Qle_shift_div_l; lra. }
    assert (Hff : F64.round (total_seconds (delta dt1 b1)
                             / inject_Z (days_in_year (year dt2) * 86400))
                  <= F64.round (total_seconds (delta dt2 b2)
                                / inject_Z (days_in_year (year dt2) * 86400))).
    { apply round_mono; [done|]. apply Qmult_le_compat_r; [done|].
      apply Qlt_le_weak, Qinv_lt_0_compat. done. }
    pose proof (round_nonneg _ Hf0) as Hr0.
    apply round_mono; lra.
  - exfalso.
    pose proof (days_before_year_mono (year dt2 + 1) (year dt1) ltac:(lia)) as Hm.
    rewrite days_before_next_year in Hm.
    unfold delta in HE1, HE2.
    rewrite (to_us_year_start _ _ Hb1) in HE1. rewrite (to_us_year_start _ _ Hb2) in HE2.
    lia.
Qed.

Lemma year_fraction_monotone_witness :
  Dates.year_fraction Samples.july_2nd_2020 = Ok (4041 # 2)
  /\ Dates.year_fraction (mk_datetime 2021 1 1 0 0 0 0 None I) = Ok 2021
  /\ (to_us Samples.july_2nd_2020 <= to_us (mk_datetime 2021 1 1 0 0 0 0 None I))%Z
  /\ 4041 # 2 <= 2021.
Proof.
  assert (E1 : Dates.year_fraction Samples.july_2nd_2020 = Ok (4041 # 2))
    by (vm_compute; reflexivity).
  assert (E2 : Dates.year_fraction (mk_datetime 2021 1 1 0 0 0 0 None I) = Ok 2021)
    by (vm_compute; reflexivity).
  assert (Hle : (to_us Samples.july_2nd_2020
                 <= to_us (mk_datetime 2021 1 1 0 0 0 0 None I))%Z)
    by (vm_compute; discriminate).
  split; [exact E1|]. split; [exact E2|]. split; [exact Hle|].
  exact (year_fraction_monotone _ _ _ _ E1 E2 Hle).
Defined.

End DecimalOrder.

(** ** dates.py: the format a variable date is parsed under *)
Section VariableFormat.

Lemma prefix_app p s : Str.prefix p (p +:+ s) = true.
Proof.
  induction p as [|a p IH]; [done|]. simpl. by rewrite Ascii.eqb_refl, IH.
Qed.

Lemma prefix_refl p : Str.prefix p p = true.
Proof. induction p as [|a p IH]; [done|]. simpl. by rewrite Ascii.eqb_refl, IH. Qed.

Lemma prefix_app_l a p s : Str.prefix (a +:+ p) (a +:+ s) = Str.prefix p s.
Proof. induction a as [|c a IH]; [done|]. simpl. by rewrite Ascii.eqb_refl, IH. Qed.

Lemma join_cons sep w w' ws :
  Str.join sep (w :: w' :: ws) = w +:+ sep +:+ Str.join sep (w' :: ws).
Proof. reflexivity. Qed.

Lemma split_length d s : 1 <= length (Str.split d s).
Proof.
  induction s as [|c s IH]; simpl; [lia|].
  destruct (Ascii.eqb c d); simpl; [lia|].
  destruct (Str.split d s); simpl; lia.
Qed.

(** Joining the fields of a string with the separator gives the string
    back. *)
Lemma join_split d s : Str.join (Str.of_char d) (Str.split d s) = s.
Proof.
  induction s as [|c s IH]; [done|]. simpl Str.split.
  pose proof (split_length d s) as Hlen.
  destruct (Str.split d s) as [|w ws] eqn:E; [simpl in Hlen; lia|].
  destruct (Ascii.eqb c d) eqn:Ec.
  - apply Ascii.eqb_eq in Ec as ->. rewrite join_cons, IH. reflexivity.
  - destruct ws as [|w' ws].
    + simpl in IH |- *. by rewrite IH.
    + rewrite join_cons in IH. rewrite join_cons, <- IH. reflexivity.
Qed.

Lemma join_take_prefix sep n l :
  Str.prefix (Str.join sep (take n l)) (Str.join sep l) = true.
Proof.
  revert n. induction l as [|w ws IH]; intros n.
  - by rewrite take_nil.
  - destruct n as [|n]; [done|]. rewrite firstn_cons.
    destruct ws as [|w' ws].
    + rewrite take_nil. apply prefix_refl.
    + destruct n as [|n].
      * rewrite take_0, join_cons. apply prefix_app.
      * specialize (IH (S n)). rewrite firstn_cons in IH |- *.
        rewrite !join_cons, !prefix_app_l. exact IH.
Qed.

(** X2: whatever the date and the mode, the format handed to [strptime]
    is a prefix of the format the caller gave. *)
Theorem effective_format_is_prefix date fmt variable f :
  Dates.effective_format date fmt variable = Ok f -> Str.prefix f fmt = true.
Proof.
  unfold Dates.effective_format. destruct variable.
  - destruct (Dates.search_delimiter fmt) as [d|]; simpl.
    + assert (Hdrop : forall n,
                Str.prefix (Str.join (Str.of_char d) (Str.drop_last n (Str.split d fmt))) fmt
                = true).
      { intros n. unfold Str.drop_last.
        pose proof (join_take_prefix (Str.of_char d) (length (Str.split d fmt) - n)
                      (Str.split d fmt)) as Hp.
        by rewrite join_split in Hp. }
      destruct (Nat.eqb _ 2); [intros [= <-]; apply Hdrop|].
      destruct (Nat.eqb _ 1); [intros [= <-]; apply Hdrop|].
      intros [= <-]. apply prefix_refl.
    + discriminate.
  - intros [= <-]. apply prefix_refl.
Qed.

Lemma effective_format_is_prefix_witness :
  Dates.effective_format "2020" "%Y-%m-%d" true = Ok "%Y"
  /\ Str.prefix "%Y" "%Y-%m-%d" = true.
Proof.
  assert (E : Dates.effective_format "2020" "%Y-%m-%d" true = Ok "%Y")
    by (vm_compute; reflexivity).
  split; [exact E|].
  exact (effective_format_is_prefix "2020" "%Y-%m-%d" true "%Y" E).
Defined.

Lemma split_clean d w : Str.mem d w = false -> Str.split d w = [w].
Proof.
  induction w as [|c w IH]; [done|]. simpl. intros Hm.
  apply orb_false_elim in Hm as [Hc Hw].
  rewrite Ascii.eqb_sym, Hc, (IH Hw). reflexivity.
Qed.

Lemma split_app_clean d w rest :
  Str.mem d w = false ->
  Str.split d (w +:+ String d rest) = w :: Str.split d rest.
Proof.
  induction w as [|c w IH]; simpl; intros Hm.
  - by rewrite Ascii.eqb_refl.
  - apply orb_false_elim in Hm as [Hc Hw].
    rewrite Ascii.eqb_sym, Hc, (IH Hw). reflexivity.
Qed.

Lemma split_fields_clean d s : Forall (fun w => Str.mem d w = false) (Str.split d s).
Proof.
  induction s as [|c s IH]; simpl.
  - by constructor.
  - destruct (Ascii.eqb c d) eqn:Ec.
    + by constructor.
    + destruct (Str.split d s) as [|w ws]; [by repeat constructor; simpl; rewrite Ascii.eqb_sym, Ec|].
      inversion IH as [|? ? Hw Hws]; subst. constructor; [|done].
      simpl. by rewrite Ascii.eqb_sym, Ec, Hw.
Qed.

(** Splitting what was joined from separator-free fields gives the
    fields back. *)
Lemma split_join d l :
  l <> [] -> Forall (fun w => Str.mem d w = false) l ->
  Str.split d (Str.join (Str.of_char d) l) = l.
Proof.
  induction l as [|w ws IH]; [done|]. intros _ Hall.
  inversion Hall as [|? ? Hw Hws]; subst.
  destruct ws as [|w' ws].
  - simpl. by apply split_clean.
  - rewrite join_cons.
    change (Str.of_char d +:+ Str.join (Str.of_char d) (w' :: ws))
      with (String d (Str.join (Str.of_char d) (w' :: ws))).
    rewrite (split_app_clean d w _ Hw), IH; done.
Qed.

Lemma fields_after_drop d fmt n :
  length (Str.split d (Str.join (Str.of_char d) (Str.drop_last n (Str.split d fmt))))
  = Nat.max 1 (length (Str.split d fmt) - n).
Proof.
  unfold Str.drop_last.
  pose proof (split_length d fmt) as Hlen.
  destruct (decide (length (Str.split d fmt) - n = 0)) as [H0 | Hpos].
  - rewrite H0, take_0. reflexivity.
  - rewrite split_join.
    + rewrite length_take. lia.
    + intros Hnil. apply (f_equal length) in Hnil. rewrite length_take in Hnil.
      simpl in Hnil. lia.
    + apply Forall_take, split_fields_clean.
Qed.

(** X3: in variable mode, under a format with a delimiter, the format
    handed to [strptime] has as many fields as the format the caller gave
    minus one per field the date is short of three, and never less than
    one: a date of one or two fields is parsed under the format's first
    fields only if the format has three. *)
Theorem effective_format_field_count date fmt d f :
  Dates.search_delimiter fmt = Some d ->
  Dates.effective_format date fmt true = Ok f ->
  length (Str.split d f)
  = Nat.max 1 (length (Str.split d fmt) - (3 - length (Str.split d date))).
Proof.
  intros Hd. unfold Dates.effective_format. rewrite Hd. simpl.
  pose proof (split_length d date) as Hk.
  pose proof (split_length d fmt) as Hn.
  destruct (Nat.eqb_spec (length (Str.split d date)) 2) as [E2 | N2].
  - intros [= <-]. rewrite fields_after_drop, E2. reflexivity.
  - destruct (Nat.eqb_spec (length (Str.split d date)) 1) as [E1 | N1].
    + intros [= <-]. rewrite fields_after_drop, E1. reflexivity.
    + intros [= <-]. lia.
Qed.

Lemma effective_format_field_count_witness :
  Dates.search_delimiter "%Y-%m" = Some "-"%char
  /\ Dates.effective_format "2020-07" "%Y-%m" true = Ok "%Y"
  /\ length (Str.split "-" "%Y") = 1.
Proof.
  assert (Hd : Dates.search_delimiter "%Y-%m" = Some "-"%char) by reflexivity.
  assert (E : Dates.effective_format "2020-07" "%Y-%m" true = Ok "%Y")
    by (vm_compute; reflexivity).
  split; [exact Hd|]. split; [exact E|].
  exact (effective_format_field_count "2020-07" "%Y-%m" "-" "%Y" Hd E).
Defined.

End VariableFormat.

(** ** models.py: attributes of tree objects *)
Section ObjectAttributes.

Lemma dict_get_set_same key v d :
  Models.dict_get key (Models.dict_set key v d) = Some v.
Proof.
  induction d as [|[k w] d IH]; simpl.
  - by rewrite bool_decide_eq_true_2.
  - case_bool_decide as Hk; simpl.
    + by rewrite bool_decide_eq_true_2.
    + by rewrite bool_decide_eq_false_2.
Qed.

Lemma dict_get_set_other a b v d :
  a <> b -> Models.dict_get b (Models.dict_set a v d) = Models.dict_get b d.
Proof.
  intros Hab. induction d as [|[k w] d IH]; simpl.
  - by rewrite bool_decide_eq_false_2.
  - case_bool_decide as Hk; simpl.
    + subst k. by rewrite !bool_decide_eq_false_2.
    + by rewrite IH.
Qed.

Lemma get_set_slot (s t : Models.slot) (v : PyVal) (o : Models.BaseTreeObject) :
  Models.get_slot t (Models.set_slot s v o)
  = (if bool_decide (s = t) then v else Models.get_slot t o).
Proof. destruct s, t; reflexivity. Qed.

Lemma set_slot_attrs (s : Models.slot) (v : PyVal) (o : Models.BaseTreeObject) :
  Models.attrs (Models.set_slot s v o) = Models.attrs o
  /\ Models.cls (Models.set_slot s v o) = Models.cls o.
Proof. by destruct s. Qed.

Lemma get_slot_set_attr (t : Models.slot) (a : string) (v : PyVal)
    (o : Models.BaseTreeObject) :
  Models.get_slot t (Models.set_attr a v o) = Models.get_slot t o.
Proof. by destruct t. Qed.

(** What [getattr] reads after a [setattr]: the value written, under the
    name written and under every name of the same property; what it read
    before, under any other name. *)
Lemma getattr_setattr (a b : string) (v : PyVal) (o : Models.BaseTreeObject) :
  Models.getattr (Models.setattr a v o) b
  = (if bool_decide (a = b \/ (is_Some (Models.slot_of a)
                               /\ Models.slot_of a = Models.slot_of b))
     then Ok v else Models.getattr o b).
Proof.
  destruct (decide (a = b \/ (is_Some (Models.slot_of a)
                             /\ Models.slot_of a = Models.slot_of b))) as [Hd | Hd];
    [rewrite (bool_decide_eq_true_2 _ Hd) | rewrite (bool_decide_eq_false_2 _ Hd)];
    unfold Models.setattr, Models.getattr;
    destruct (Models.slot_of a) as [s|] eqn:Ea; destruct (Models.slot_of b) as [t|] eqn:Eb.
  - rewrite get_set_slot, bool_decide_eq_true_2; [done|].
    destruct Hd as [-> | [_ [= ->]]]; [|done]. congruence.
  - destruct Hd as [-> | [_ [=]]]. congruence.
  - destruct Hd as [-> | [[? [=]] _]]. congruence.
  - destruct Hd as [-> | [[? [=]] _]]. simpl. by rewrite dict_get_set_same.
  - rewrite get_set_slot, bool_decide_eq_false_2; [done|].
    intros ->. apply Hd. right. split; [by eexists | done].
  - by destruct (set_slot_attrs s v o) as [-> ->].
  - by rewrite get_slot_set_attr.
  - simpl. rewrite dict_get_set_other; [done|]. intros ->. apply Hd. by left.
Qed.

Lemma setattr_cls (a : string) (v : PyVal) (o : Models.BaseTreeObject) :
  Models.cls (Models.setattr a v o) = Models.cls o.
Proof.
  unfold Models.setattr. destruct (Models.slot_of a) as [s|]; [|done].
  apply set_slot_attrs.
Qed.

(** X4: for names that do not start with two underscores, what [setattr]
    writes is what [getattr] reads back under the same name and under
    every name of the same property (a property and the attribute that
    holds its value, as [length] and [_length], are one); every other
    attribute reads as before, and the class of the object is
    unchanged. *)
Theorem getattr_after_setattr (a b : string) (v : PyVal) (o : Models.BaseTreeObject) :
  Models.dunder a = false -> Models.dunder b = false ->
  Models.getattr (Models.setattr a v o) b
  = (if bool_decide (a = b \/ (is_Some (Models.slot_of a)
                               /\ Models.slot_of a = Models.slot_of b))
     then Ok v else Models.getattr o b)
  /\ Models.cls (Models.setattr a v o) = Models.cls o.
Proof. intros _ _. split; [apply getattr_setattr | apply setattr_cls]. Qed.

Lemma getattr_after_setattr_witness :
  Models.dunder "_length" = false /\ Models.dunder "length" = false
  /\ Models.getattr (Models.setattr "_length" (VFloat 1) Models.Leaf_init) "length"
     = Ok (VFloat 1)
  /\ Models.getattr (Models.setattr "_length" (VFloat 1) Models.Leaf_init) "branchType"
     = Ok (VStr "leaf").
Proof.
  split; [reflexivity|]. split; [reflexivity|]. split.
  - exact (proj1 (getattr_after_setattr "_length" "length" (VFloat 1) Models.Leaf_init
                    eq_refl eq_refl)).
  - exact (proj1 (getattr_after_setattr "_length" "branchType" (VFloat 1) Models.Leaf_init
                    eq_refl eq_refl)).
Defined.

(** X5: each of the four classes answers [True] to exactly one of
    [is_node], [is_leaf] and [is_leaflike]; the [branch_type] of a fresh
    object is ["node"] for a node and ["leaf"] for the two leaf-like
    classes, but [None] for a leaf, whose constructor assigns an attribute
    [branchType] instead, which no other class has. *)
Theorem fresh_object_kind (c : Models.variant) (name : PyVal) :
  let o := Models.construct c name in
  Nat.b2n (Models.is_node o) + Nat.b2n (Models.is_leaf o) + Nat.b2n (Models.is_leaflike o) = 1
  /\ Models.branch_type o
     = (if Models.is_node o then VStr "node"
        else if Models.is_leaflike o then VStr "leaf" else VNone)
  /\ Models.getattr o "branchType"
     = (if Models.is_leaf o then Ok (VStr "leaf")
        else Raise (AttributeError (Models.class_name c) "branchType")).
Proof. destruct c; repeat split; reflexivity. Qed.

(** X6: what the constructors leave in the other properties: no parent,
    empty traits, no absolute time, index or coordinates for any class; a
    name only for the leaf-like classes, which take it as an argument; a
    height only for a reticulation; a width only for a clade (1) and a
    reticulation (0.5). *)
Theorem fresh_object_defaults (c : Models.variant) (name : PyVal) :
  let o := Models.construct c name in
  Models.parent o = VNone /\ Models.traits o = VDict []
  /\ Models.absolute_time o = VNone /\ Models.index o = VNone
  /\ Models.x o = VNone /\ Models.y o = VNone
  /\ Models.name o = (if Models.is_leaflike o then name else VNone)
  /\ Models.height o = match c with Models.Reticulation => VFloat 0 | _ => VNone end
  /\ Models.width o = match c with
                      | Models.Clade => VInt 1
                      | Models.Reticulation => VFloat (1 # 2)
                      | _ => VNone
                      end.
Proof. destruct c; repeat split; reflexivity. Qed.

End ObjectAttributes.

(** ** io.py: a source the caller has opened *)
Section Streams.
Context `{PyLib} `{TreeEngine}.
Import IoSpec.

(** Where [load_newick] leaves a stream it was handed: open, at its end
    when the scan went through every line, at the line after the one at
    which the scan raised otherwise. *)
Lemma stream_after_load_newick h lines w tip_regex date_fmt variable_date absolute_time
    verbose sort :
  source_lines w (Io.Stream h) = Some lines ->
  exists rest,
    handles (Io.load_newick (Io.Stream h) tip_regex date_fmt variable_date absolute_time
               verbose sort w).2 !! h = Some (mk_handle rest false)
    /\ rest `suffix_of` lines
    /\ (is_ok (Io.newick_scan verbose lines None w).1 = true -> rest = [])
    /\ (forall pre line post ll,
          lines = pre ++ line :: post ->
          (Io.newick_scan verbose pre None w).1 = Ok ll ->
          is_ok (Io.newick_line verbose ll line w).1 = false ->
          rest = post).
Proof.
  intros Hsrc.
  destruct (newick_scan_writes_only verbose lines None) as (r & out & Hscan).
  destruct (load_newick_run (Io.Stream h) tip_regex date_fmt variable_date absolute_time
              verbose sort w lines r out Hsrc Hscan)
    as (w2 & rest & Hh & _ & Hs & Hok & Hat & ->).
  exists rest. split; [|split; [exact Hs|split]].
  - simpl in Hh. by destruct (r ≫= _).
  - rewrite Hscan. exact Hok.
  - intros pre line post ll. apply Hat.
Qed.

Lemma stream_after_load_nexus h lines w tip_regex date_fmt tree_string_regex variable_date
    absolute_time verbose sort :
  source_lines w (Io.Stream h) = Some lines ->
  exists rest,
    handles (Io.load_nexus (Io.Stream h) tip_regex date_fmt tree_string_regex variable_date
               absolute_time verbose sort w).2 !! h = Some (mk_handle rest false)
    /\ rest `suffix_of` lines
    /\ (is_ok (Io.nexus_scan tree_string_regex verbose lines Io.nexus_start w).1 = true ->
        rest = [])
    /\ (forall pre line post st,
          lines = pre ++ line :: post ->
          (Io.nexus_scan tree_string_regex verbose pre Io.nexus_start w).1 = Ok st ->
          is_ok (Io.nexus_line tree_string_regex verbose st line w).1 = false ->
          rest = post).
Proof.
  intros Hsrc.
  destruct (nexus_scan_writes_only tree_string_regex verbose lines Io.nexus_start)
    as (r & out & Hscan).
  destruct (load_nexus_run (Io.Stream h) tip_regex date_fmt tree_string_regex variable_date
              absolute_time verbose sort w lines r out Hsrc Hscan)
    as (w2 & rest & Hh & _ & Hs & Hok & Hat & ->).
  exists rest. split; [|split; [exact Hs|split]].
  - simpl in Hh. by destruct (r ≫= _).
  - rewrite Hscan. exact Hok.
  - intros pre line post st. apply Hat.
Qed.

Lemma stream_holds w h rest :
  handles w !! h = Some (mk_handle rest false) -> source_lines w (Io.Stream h) = Some rest.
Proof. intros Hh. simpl. by rewrite Hh. Qed.

(** X7: a text loader that was handed an open stream never closes it.
    The loop takes the lines off the stream one by one: the stream is
    left at its end when the loop went through every line (so whenever
    the load returns, and when it raises after the loop), and at the line
    after the one at which the loop raised otherwise. *)
Theorem text_loaders_leave_stream_open h lines w tip_regex date_fmt tree_string_regex
    variable_date absolute_time verbose sort :
  source_lines w (Io.Stream h) = Some lines ->
  (exists rest,
     handles (Io.load_newick (Io.Stream h) tip_regex date_fmt variable_date absolute_time
                verbose sort w).2 !! h = Some (mk_handle rest false)
     /\ rest `suffix_of` lines
     /\ (is_ok (Io.newick_scan verbose lines None w).1 = true -> rest = [])
     /\ (forall pre line post ll,
           lines = pre ++ line :: post ->
           (Io.newick_scan verbose pre None w).1 = Ok ll ->
           is_ok (Io.newick_line verbose ll line w).1 = false ->
           rest = post))
  /\ (exists rest,
        handles (Io.load_nexus (Io.Stream h) tip_regex date_fmt tree_string_regex
                   variable_date absolute_time verbose sort w).2 !! h
        = Some (mk_handle rest false)
        /\ rest `suffix_of` lines
        /\ (is_ok (Io.nexus_scan tree_string_regex verbose lines Io.nexus_start w).1 = true ->
            rest = [])
        /\ (forall pre line post st,
              lines = pre ++ line :: post ->
              (Io.nexus_scan tree_string_regex verbose pre Io.nexus_start w).1 = Ok st ->
              is_ok (Io.nexus_line tree_string_regex verbose st line w).1 = false ->
              rest = post)).
Proof.
  intros Hsrc. split.
  - by apply stream_after_load_newick.
  - by apply stream_after_load_nexus.
Qed.

(** X8: a second load from a stream reads what the first has left on it.
    After a load whose loop went through every line (so after every load
    that returned) the second load finds no line, hence no tree string,
    and fails its assertion; after a load whose loop raised at some line,
    the second load is a load of the lines after that one. *)
Theorem second_load_from_stream_reads_the_rest h lines w
    tip_regex date_fmt tree_string_regex variable_date absolute_time verbose sort
    tip_regex' date_fmt' tree_string_regex' variable_date' absolute_time' verbose' sort' :
  source_lines w (Io.Stream h) = Some lines ->
  (is_ok (Io.newick_scan verbose lines None w).1 = true ->
   (Io.load_newick (Io.Stream h) tip_regex' date_fmt' variable_date' absolute_time'
      verbose' sort'
      (Io.load_newick (Io.Stream h) tip_regex date_fmt variable_date absolute_time
         verbose sort w).2).1
   = Raise (AssertionError "Regular expression failed to find tree string"))
  /\ (is_ok (Io.nexus_scan tree_string_regex verbose lines Io.nexus_start w).1 = true ->
      (Io.load_nexus (Io.Stream h) tip_regex' date_fmt' tree_string_regex' variable_date'
         absolute_time' verbose' sort'
         (Io.load_nexus (Io.Stream h) tip_regex date_fmt tree_string_regex variable_date
            absolute_time verbose sort w).2).1
      = Raise (AssertionError "Regular expression failed to find tree string"))
  /\ (forall pre line post ll,
        lines = pre ++ line :: post ->
        (Io.newick_scan verbose pre None w).1 = Ok ll ->
        is_ok (Io.newick_line verbose ll line w).1 = false ->
        (Io.load_newick (Io.Stream h) tip_regex' date_fmt' variable_date' absolute_time'
           verbose' sort'
           (Io.load_newick (Io.Stream h) tip_regex date_fmt variable_date absolute_time
              verbose sort w).2).1
        = (trees ← mapM (fun s => make_tree s verbose') (tree_strings post);
           Io.newick_finish tip_regex' date_fmt' variable_date' absolute_time' verbose'
             sort' (last trees)))
  /\ (forall pre line post st,
        lines = pre ++ line :: post ->
        (Io.nexus_scan tree_string_regex verbose pre Io.nexus_start w).1 = Ok st ->
        is_ok (Io.nexus_line tree_string_regex verbose st line w).1 = false ->
        (Io.load_nexus (Io.Stream h) tip_regex' date_fmt' tree_string_regex' variable_date'
           absolute_time' verbose' sort'
           (Io.load_nexus (Io.Stream h) tip_regex date_fmt tree_string_regex variable_date
              absolute_time verbose sort w).2).1
        = (st' ← (Io.nexus_scan tree_string_regex' verbose' post Io.nexus_start w).1;
           Io.nexus_finish tip_regex' date_fmt' variable_date' absolute_time' sort' st')).
Proof.
  intros Hsrc.
  destruct (stream_after_load_newick h lines w tip_regex date_fmt variable_date
              absolute_time verbose sort Hsrc) as (rest & Hh & _ & Hend & Hat).
  destruct (stream_after_load_nexus h lines w tip_regex date_fmt tree_string_regex
              variable_date absolute_time verbose sort Hsrc)
    as (rest' & Hh' & _ & Hend' & Hat').
  apply stream_holds in Hh, Hh'.
  split; [|split; [|split]].
  - intros Hok. rewrite (Hend Hok) in Hh.
    by rewrite (load_newick_result _ _ _ _ _ _ _ _ [] Hh).
  - intros Hok. rewrite (Hend' Hok) in Hh'.
    destruct (load_nexus_result (Io.Stream h) tip_regex' date_fmt' tree_string_regex'
                variable_date' absolute_time' verbose' sort' _ [] (Ok Io.nexus_start) []
                Hh') as [-> _]; [|done].
    intros w0. simpl. by rewrite add_stdout_nil.
  - intros pre line post ll Hl Hpre Hfail. rewrite (Hat pre line post ll Hl Hpre Hfail) in Hh.
    by rewrite (load_newick_result _ _ _ _ _ _ _ _ post Hh).
  - intros pre line post st Hl Hpre Hfail.
    rewrite (Hat' pre line post st Hl Hpre Hfail) in Hh'.
    destruct (nexus_scan_writes_only tree_string_regex' verbose' post Io.nexus_start)
      as (r & out & Hscan).
    destruct (load_nexus_result (Io.Stream h) tip_regex' date_fmt' tree_string_regex'
                variable_date' absolute_time' verbose' sort' _ post r out Hh' Hscan)
      as [-> _].
    by rewrite Hscan.
Qed.

End Streams.

(** ** io.py: tree lines and translate blocks of a Nexus source *)
Section NexusLines.
Context `{PyLib} `{TreeEngine}.
Import IoSpec.

(** A line that the tree pattern matches but that holds no opening
    parenthesis stops the scan: [l.index("(")] raises. *)
Lemma nexus_line_without_parenthesis regex verbose st line w m :
  re_search regex (Str.lower (Str.strip Str.newline line)) = Some m ->
  Str.contains "(" (Str.strip Str.newline line) = false ->
  exists out,
    Io.nexus_line regex verbose st line w
    = (Raise (ValueError "substring not found"), add_stdout out w).
Proof.
  intros Hm Hp. apply contains_false in Hp.
  unfold Io.nexus_line. rewrite Hm. unfold Str.index. rewrite Hp.
  destruct (Io.search_dimensions _) as [ds|].
  - exists (if verbose then ["File should contain " +:+ pretty (Str.digits_value 0 ds) +:+ " taxa"]
            else []).
    unfold mbind, M_bind, mret, M_ret. rewrite print_if_run. reflexivity.
  - exists []. rewrite add_stdout_nil. reflexivity.
Qed.

(** X9: unlike [load_newick], which skips every line without an opening
    parenthesis, [load_nexus] fails on a line that the tree pattern
    matches and that holds none: the load raises the [ValueError] of
    [l.index] as soon as the scan reaches the line. *)
Theorem load_nexus_tree_line_without_parenthesis src tip_regex date_fmt
    tree_string_regex variable_date absolute_time verbose sort w pre line post st m :
  source_lines w src = Some (pre ++ line :: post) ->
  (Io.nexus_scan tree_string_regex verbose pre Io.nexus_start w).1 = Ok st ->
  re_search tree_string_regex (Str.lower (Str.strip Str.newline line)) = Some m ->
  Str.contains "(" (Str.strip Str.newline line) = false ->
  (Io.load_nexus src tip_regex date_fmt tree_string_regex variable_date absolute_time
     verbose sort w).1
  = Raise (ValueError "substring not found").
Proof.
  intros Hsrc Hpre Hm Hp.
  destruct (nexus_scan_writes_only tree_string_regex verbose pre Io.nexus_start)
    as (r1 & out1 & Hs1).
  rewrite Hs1 in Hpre. simpl in Hpre. subst r1.
  destruct (nexus_line_writes_only tree_string_regex verbose st line) as (r2 & out2 & Hl).
  destruct (nexus_line_without_parenthesis tree_string_regex verbose st line w m Hm Hp)
    as (out & Hrun).
  rewrite Hl in Hrun. injection Hrun as -> _.
  destruct (load_nexus_result src tip_regex date_fmt tree_string_regex variable_date
              absolute_time verbose sort w _ (Raise (ValueError "substring not found"))
              (out1 ++ out2) Hsrc) as [-> _]; [|reflexivity].
  intros w0. rewrite nexus_scan_app. unfold mbind at 1, M_bind. rewrite Hs1.
  simpl Io.nexus_scan. unfold mbind at 1, M_bind. rewrite Hl, add_stdout_app. reflexivity.
Qed.

(** One turn of the scan outside the translate block: the table is left
    as it was, and the flag is set by a line that holds [translate] and no
    semicolon. *)
Lemma nexus_line_outside_block regex verbose st line w st' w' :
  Io.tip_flag st = false ->
  Io.nexus_line regex verbose st line w = (Ok st', w') ->
  Io.tips st' = Io.tips st
  /\ Io.tip_flag st'
     = (Str.contains "translate" (Str.lower (Str.strip Str.newline line))
        && negb (Str.contains ";" (Str.strip Str.newline line)))%bool.
Proof.
  destruct st as [flag tips num ll]. simpl. intros ->.
  unfold Io.nexus_line.
  destruct (Io.search_dimensions _) as [ds|];
    destruct (re_search _ _) as [m|];
    unfold mbind, M_bind, mret, M_ret, lift; rewrite ?print_if_run;
    cbn [Io.tip_flag Io.tips Io.tip_num Io.nexus_ll];
    try (destruct (Str.index _ _) as [i|e]; [|discriminate];
         destruct (make_tree _ _) as [t|e]; [|discriminate];
         rewrite ?print_if_run; cbn [Io.tip_flag Io.tips Io.tip_num Io.nexus_ll]);
    destruct (Str.contains "translate" _), (Str.contains ";" _);
    intros [= <- _]; done.
Qed.

(** X10: the translation table is filled inside translate blocks only:
    the scan of lines none of which holds the word [translate] (in any
    case) leaves the table empty, and what follows the scan is then what
    follows it in [load_newick] (with [verbose] off): no tip is renamed. *)
Theorem nexus_scan_without_translate_block regex verbose lines w st' w'
    tip_regex date_fmt variable_date absolute_time sort :
  Forall (fun line => Str.contains "translate" (Str.lower (Str.strip Str.newline line))
                      = false) lines ->
  Io.nexus_scan regex verbose lines Io.nexus_start w = (Ok st', w') ->
  Io.tips st' = ∅
  /\ Io.nexus_finish tip_regex date_fmt variable_date absolute_time sort st'
     = Io.newick_finish tip_regex date_fmt variable_date absolute_time false sort
         (Io.nexus_ll st').
Proof.
  intros Hall Hscan.
  assert (Hgen : forall st w, Io.tip_flag st = false ->
            Io.nexus_scan regex verbose lines st w = (Ok st', w') ->
            Io.tips st' = Io.tips st).
  { clear Hscan. induction Hall as [|line rest Hline _ IH]; intros st w0 Hflag Hscan.
    - simpl in Hscan. by injection Hscan as <- _.
    - simpl in Hscan. unfold mbind at 1, M_bind in Hscan.
      destruct (Io.nexus_line regex verbose st line w0) as [[st1|e] w1] eqn:El; [|done].
      destruct (nexus_line_outside_block _ _ _ _ _ _ _ Hflag El) as [Ht Hf].
      rewrite Hline in Hf. rewrite <- Ht. by apply (IH st1 w1). }
  assert (Ht : Io.tips st' = ∅) by (by apply (Hgen Io.nexus_start w)).
  split; [exact Ht|].
  unfold Io.nexus_finish, Io.newick_finish. rewrite Ht.
  destruct (Io.assert_tree _) as [t|e]; [|done]. simpl.
  destruct (traverse_tree false t) as [t1|e]; [|done]. simpl.
  destruct sort; simpl.
  - destruct (sort_branches t1) as [t2|e]; [|done]. reflexivity.
  - reflexivity.
Qed.

End NexusLines.

Section StreamSamples.
Local Existing Instance PyStd.std.
Local Existing Instance Recorder.engine.
Import Samples.

Lemma text_loaders_leave_stream_open_witness :
  IoSpec.source_lines (stream_world unfinished_then_tree) (Io.Stream 0)
  = Some unfinished_then_tree
  /\ handles (Io.load_newick (Io.Stream 0) PyStd.default_tip_regex "%Y-%m-%d" true false
                false true (stream_world unfinished_then_tree)).2 !! 0
     = Some (mk_handle [line "(C:1,D:2);"] false).
Proof.
  assert (Hsrc : IoSpec.source_lines (stream_world unfinished_then_tree) (Io.Stream 0)
                 = Some unfinished_then_tree) by reflexivity.
  split; [exact Hsrc|].
  destruct (proj1 (@text_loaders_leave_stream_open PyStd.std Recorder.engine 0
                     unfinished_then_tree (stream_world unfinished_then_tree)
                     PyStd.default_tip_regex "%Y-%m-%d" PyStd.default_tree_string_regex
                     true false false true Hsrc)) as (rest & Hh & _ & _ & Hat).
  rewrite Hh. f_equal. f_equal.
  apply (Hat [] (line "(A:1,B:2)") [line "(C:1,D:2);"] None); reflexivity.
Defined.

Lemma second_load_from_stream_reads_the_rest_witness :
  IoSpec.source_lines (stream_world two_trees) (Io.Stream 0) = Some two_trees
  /\ is_ok (Io.newick_scan false two_trees None (stream_world two_trees)).1 = true
  /\ (Io.load_newick (Io.Stream 0) PyStd.default_tip_regex "%Y-%m-%d" true false false true
        (Io.load_newick (Io.Stream 0) PyStd.default_tip_regex "%Y-%m-%d" true false
           false true (stream_world two_trees)).2).1
     = Raise (AssertionError "Regular expression failed to find tree string").
Proof.
  assert (Hsrc : IoSpec.source_lines (stream_world two_trees) (Io.Stream 0) = Some two_trees)
    by reflexivity.
  assert (Hok : is_ok (Io.newick_scan false two_trees None (stream_world two_trees)).1 = true)
    by (vm_compute; reflexivity).
  split; [exact Hsrc|]. split; [exact Hok|].
  exact (proj1 (@second_load_from_stream_reads_the_rest PyStd.std Recorder.engine 0 two_trees
                  (stream_world two_trees) PyStd.default_tip_regex "%Y-%m-%d"
                  PyStd.default_tree_string_regex true false false true
                  PyStd.default_tip_regex "%Y-%m-%d"
                  PyStd.default_tree_string_regex true false false true Hsrc) Hok).
Defined.

(** A first load that raises at the first line leaves the second line on
    the stream: the second load returns the tree of that line. *)
Example second_load_after_failure :
  (Io.load_newick (Io.Stream 0) PyStd.default_tip_regex "%Y-%m-%d" true false false true
     (stream_world unfinished_then_tree)).1
  = Raise (ValueError "tree string has no terminating semicolon")
  /\ (fun t => Models.name <$> Recorder.registry t)
       <$> (Io.load_newick (Io.Stream 0) PyStd.default_tip_regex "%Y-%m-%d" true false
              false true
              (Io.load_newick (Io.Stream 0) PyStd.default_tip_regex "%Y-%m-%d" true false
                 false true (stream_world unfinished_then_tree)).2).1
     = Ok [VStr "C"; VStr "D"].
Proof. split; vm_compute; reflexivity. Qed.

Lemma load_nexus_tree_line_without_parenthesis_witness :
  IoSpec.source_lines
    (file_world "broken.nex" [line "#NEXUS"; line "tree TREE1 = ;"; line "End;"])
    (Io.Path "broken.nex")
  = Some ([line "#NEXUS"] ++ line "tree TREE1 = ;" :: [line "End;"])
  /\ re_search PyStd.default_tree_string_regex
       (Str.lower (Str.strip Str.newline (line "tree TREE1 = ;")))
     = Some ["tree tree1"; "1"]
  /\ (Io.load_nexus (Io.Path "broken.nex") PyStd.default_tip_regex "%Y-%m-%d"
        PyStd.default_tree_string_regex true false false true
        (file_world "broken.nex" [line "#NEXUS"; line "tree TREE1 = ;"; line "End;"])).1
     = Raise (ValueError "substring not found").
Proof.
  assert (Hsrc : IoSpec.source_lines
                   (file_world "broken.nex" [line "#NEXUS"; line "tree TREE1 = ;"; line "End;"])
                   (Io.Path "broken.nex")
                 = Some ([line "#NEXUS"] ++ line "tree TREE1 = ;" :: [line "End;"]))
    by (vm_compute; reflexivity).
  assert (Hm : re_search PyStd.default_tree_string_regex
                 (Str.lower (Str.strip Str.newline (line "tree TREE1 = ;")))
               = Some ["tree tree1"; "1"]) by (vm_compute; reflexivity).
  split; [exact Hsrc|]. split; [exact Hm|].
  apply (@load_nexus_tree_line_without_parenthesis PyStd.std Recorder.engine
           (Io.Path "broken.nex") PyStd.default_tip_regex "%Y-%m-%d"
           PyStd.default_tree_string_regex true false false true _
           [line "#NEXUS"] (line "tree TREE1 = ;") [line "End;"] Io.nexus_start
           ["tree tree1"; "1"] Hsrc).
  - vm_compute. reflexivity.
  - exact Hm.
  - vm_compute. reflexivity.
Defined.

Lemma nexus_scan_without_translate_block_witness :
  Forall (fun l => Str.contains "translate" (Str.lower (Str.strip Str.newline l)) = false)
    [line "#NEXUS"; line "tree TREE1 = (A:1,B:2);"]
  /\ Io.nexus_scan PyStd.default_tree_string_regex false
       [line "#NEXUS"; line "tree TREE1 = (A:1,B:2);"] Io.nexus_start (stream_world [])
     = (Ok (Io.mk_nexus false ∅ 0
              (Some (Recorder.mk_tree [Recorder.MakeTree "(A:1,B:2);" false]
                       (imap Recorder.leaf_named ["A"; "B"])))),
        stream_world [])
  /\ Io.tips (Io.mk_nexus false ∅ 0
                (Some (Recorder.mk_tree [Recorder.MakeTree "(A:1,B:2);" false]
                         (imap Recorder.leaf_named ["A"; "B"])))) = ∅
  /\ Io.nexus_finish PyStd.default_tip_regex "%Y-%m-%d" true false true
       (Io.mk_nexus false ∅ 0
          (Some (Recorder.mk_tree [Recorder.MakeTree "(A:1,B:2);" false]
                   (imap Recorder.leaf_named ["A"; "B"]))))
     = Io.newick_finish PyStd.default_tip_regex "%Y-%m-%d" true false false true
         (Some (Recorder.mk_tree [Recorder.MakeTree "(A:1,B:2);" false]
                  (imap Recorder.leaf_named ["A"; "B"]))).
Proof.
  assert (Hall : Forall (fun l => Str.contains "translate"
                                    (Str.lower (Str.strip Str.newline l)) = false)
                   [line "#NEXUS"; line "tree TREE1 = (A:1,B:2);"])
    by (repeat constructor).
  assert (Hscan : Io.nexus_scan PyStd.default_tree_string_regex false
                    [line "#NEXUS"; line "tree TREE1 = (A:1,B:2);"] Io.nexus_start
                    (stream_world [])
                  = (Ok (Io.mk_nexus false ∅ 0
                           (Some (Recorder.mk_tree [Recorder.MakeTree "(A:1,B:2);" false]
                                    (imap Recorder.leaf_named ["A"; "B"])))),
                     stream_world []))
    by (vm_compute; reflexivity).
  split; [exact Hall|]. split; [exact Hscan|].
  exact (@nexus_scan_without_translate_block PyStd.std Recorder.engine
           PyStd.default_tree_string_regex false
           [line "#NEXUS"; line "tree TREE1 = (A:1,B:2);"]
           (stream_world []) _ (stream_world [])
           PyStd.default_tip_regex "%Y-%m-%d" true false true Hall Hscan).
Defined.

End StreamSamples.

(** ** io.py: what load_json demands of the translation mapping, and
    what it returns beside the tree *)
Section LoadJson.
Context `{PyLib} `{TreeEngine}.
Import JsonSpec.

(** X11: a translation mapping without [name], or without any of
    [absolute_time], [length] and [height], is refused before anything
    else happens: the load raises the [AssertionError] that lists the
    missing entries, and nothing is printed, read or requested, even when
    [verbose] is set. *)
Theorem load_json_refuses_incomplete_translation src jt verbose sort stats w :
  Io.translation_has_required jt = false ->
  Io.load_json src jt verbose sort stats w
  = (Raise (AssertionError (Io.missing_entries_message jt)), w).
Proof. intros Hreq. unfold Io.load_json. rewrite lift_bind, Hreq. reflexivity. Qed.

Lemma json_document_add_stdout out w src :
  json_document (add_stdout out w) src = json_document w src.
Proof. by destruct src. Qed.

Ltac run_lift E :=
  rewrite lift_bind in E;
  match type of E with
  | match ?r with Ok _ => _ | Raise _ => _ end = _ =>
      let Hs := fresh "Hstep" in destruct r eqn:Hs; [|discriminate E]
  end.

Ltac run_print E := unfold mbind at 1, M_bind in E; rewrite print_if_run in E.

(** X12: when [load_json] returns, the translation mapping satisfies the
    conditions of both assertions, and the second component returned is
    the [meta] entry of the document that was loaded: the one given, or
    the one behind the URL or the path. *)
Theorem load_json_returns_meta src jt verbose sort stats w t meta :
  (Io.load_json src jt verbose sort stats w).1 = Ok (t, meta) ->
  Io.translation_has_required jt = true
  /\ Io.translation_is_exclusive jt = true
  /\ exists doc, json_document w src = Some doc /\ Py.getitem doc "meta" = Ok meta.
Proof.
  destruct (Io.load_json src jt verbose sort stats w) as [r w'] eqn:E. simpl.
  intros ->. unfold Io.load_json in E.
  run_lift E. run_print E.
  unfold mbind at 1, M_bind in E.
  match type of E with
  | match ?m ?w1 with _ => _ end = _ =>
      assert (Hdoc : forall doc w2, m w1 = (Ok doc, w2) -> json_document w src = Some doc);
      [|destruct (m w1) as [[doc|e] w2] eqn:Hsrc; [|discriminate E]]
  end.
  { intros doc w2. destruct src as [s|d]; simpl.
    - destruct (Str.contains "nextstrain.org" s);
        unfold mbind, M_bind; rewrite print_if_run;
        unfold Io.fetch_json, Io.read_json; simpl.
      + destruct (web w !! s); [|discriminate]. by intros [= -> _].
      + destruct (json_files w !! s); [|discriminate]. by intros [= -> _].
    - unfold mbind, M_bind. rewrite print_if_run. by intros [= -> _]. }
  specialize (Hdoc doc w2 eq_refl).
  run_lift E. run_lift E. run_lift E. run_lift E. run_print E.
  run_lift E. run_lift E. run_lift E. cbv zeta in E. run_print E.
  run_lift E. run_lift E. run_lift E. run_lift E. run_lift E. run_lift E. run_lift E.
  injection E as _ <- _.
  unfold py_assert in *.
  destruct (Io.translation_has_required jt); [|discriminate].
  destruct (Io.translation_is_exclusive jt); [|discriminate].
  eauto.
Qed.

End LoadJson.

(** ** io.py: the passes of load_json over the registry *)
Section RegistryPasses.

(** A loop over the registry whose body keeps each object within a
    reflexive and transitive relation keeps the whole registry within
    it, object by object. *)
Lemma for_objects_related (R : Models.BaseTreeObject -> Models.BaseTreeObject -> Prop)
    body positions objs objs' :
  (forall k, R k k) -> (forall a b c, R a b -> R b c -> R a c) ->
  (forall os i k k', body os i k = Ok k' -> R k k') ->
  Io.for_objects body positions objs = Ok objs' -> Forall2 R objs objs'.
Proof.
  intros Hrefl Htrans Hbody. revert objs.
  induction positions as [|i rest IH]; intros objs; simpl.
  - intros [= <-]. apply Forall_Forall2_diag, Forall_forall. auto.
  - unfold Py.list_item. destruct (objs !! i) as [k|] eqn:Ek; [|done]. simpl.
    destruct (body objs i k) as [k'|e] eqn:Eb; [|done]. simpl. intros Hrest.
    apply (Forall2_trans R R R objs (<[i:=k']> objs) objs' Htrans); [|by apply IH].
    rewrite <- (list_insert_id objs i k Ek) at 1.
    apply Forall2_insert; [|by eapply Hbody].
    apply Forall_Forall2_diag, Forall_forall. auto.
Qed.

Lemma set_traits_set_traits t t' k :
  Models.set_traits t' (Models.set_traits t k) = Models.set_traits t' k.
Proof. reflexivity. Qed.

Lemma set_traits_id k : Models.set_traits (Models.traits k) k = k.
Proof. by destruct k. Qed.

Lemma dict_set_keeps a b v d :
  is_Some (Models.dict_get a d) -> is_Some (Models.dict_get a (Models.dict_set b v d)).
Proof.
  intros Ha. destruct (decide (b = a)) as [-> | Hne].
  - rewrite dict_get_set_same. by eexists.
  - by rewrite dict_get_set_other.
Qed.

Lemma set_trait_grows key v k k' :
  Io.set_trait key v k = Ok k' ->
  k' = Models.set_traits (Models.traits k') k
  /\ forall a, Py.contains a (Models.traits k) = Ok true ->
               Py.contains a (Models.traits k') = Ok true.
Proof.
  unfold Io.set_trait, Io.setitem.
  destruct (Models.traits k) as [| | | | | | |d| |] eqn:Et; try done. simpl.
  intros [= <-]. split; [reflexivity|].
  intros a. simpl. intros [= Ha]. f_equal. apply bool_decide_eq_true in Ha.
  apply bool_decide_eq_true. by apply dict_set_keeps.
Qed.

Lemma grows_trans k1 k2 k3 :
  (k2 = Models.set_traits (Models.traits k2) k1
   /\ forall a, Py.contains a (Models.traits k1) = Ok true ->
                Py.contains a (Models.traits k2) = Ok true) ->
  (k3 = Models.set_traits (Models.traits k3) k2
   /\ forall a, Py.contains a (Models.traits k2) = Ok true ->
                Py.contains a (Models.traits k3) = Ok true) ->
  k3 = Models.set_traits (Models.traits k3) k1
  /\ forall a, Py.contains a (Models.traits k1) = Ok true ->
               Py.contains a (Models.traits k3) = Ok true.
Proof.
  intros [E12 H12] [E23 H23]. split; [|auto].
  rewrite E23 at 1. rewrite E12 at 1. apply set_traits_set_traits.
Qed.

Lemma flatten_key_grows k key k' :
  Io.flatten_key k key = Ok k' ->
  k' = Models.set_traits (Models.traits k') k
  /\ forall a, Py.contains a (Models.traits k) = Ok true ->
               Py.contains a (Models.traits k') = Ok true.
Proof.
  assert (Hid : k = Models.set_traits (Models.traits k) k
                /\ forall a, Py.contains a (Models.traits k) = Ok true ->
                             Py.contains a (Models.traits k) = Ok true)
    by (split; [by rewrite set_traits_id | auto]).
  unfold Io.flatten_key.
  destruct (Py.getitem (Models.traits k) "node_attrs") as [na|e]; [|done]. simpl.
  destruct (Py.getitem na key) as [v|e]; [|done]. simpl.
  destruct v as [| | | | | | |d| |];
    try (case_bool_decide; [apply set_trait_grows | by intros [= <-]]).
  destruct (Models.dict_get "value" d) as [x|].
  - destruct (Io.set_trait key x k) as [k1|e] eqn:E1; [|done]. simpl.
    apply set_trait_grows in E1.
    destruct (Models.dict_get "confidence" d) as [c|].
    + intros E2. apply set_trait_grows in E2. by apply (grows_trans k k1 k').
    + by intros [= <-].
  - simpl. destruct (Models.dict_get "confidence" d) as [c|].
    + apply set_trait_grows.
    + by intros [= <-].
Qed.

Lemma flatten_keys_grows keys k k' :
  Io.flatten_keys k keys = Ok k' ->
  k' = Models.set_traits (Models.traits k') k
  /\ forall a, Py.contains a (Models.traits k) = Ok true ->
               Py.contains a (Models.traits k') = Ok true.
Proof.
  revert k. induction keys as [|key rest IH]; intros k; simpl.
  - intros [= <-]. split; [by rewrite set_traits_id | auto].
  - destruct (Io.flatten_key k key) as [k1|e] eqn:E1; [|done]. simpl. intros E2.
    apply (grows_trans k k1 k'); [by apply (flatten_key_grows k key) | by apply IH].
Qed.

(** X14: the pass that makes the node attributes easier to access
    returns only for an object whose traits hold [node_attrs]; it changes
    nothing of the object but its traits, and the traits only by adding
    or overwriting entries: every key they held is still there. *)
Theorem flatten_traits_only_adds_traits k k' :
  Io.flatten_traits k = Ok k' ->
  Py.contains "node_attrs" (Models.traits k) = Ok true
  /\ k' = Models.set_traits (Models.traits k') k
  /\ forall key, Py.contains key (Models.traits k) = Ok true ->
                 Py.contains key (Models.traits k') = Ok true.
Proof.
  unfold Io.flatten_traits. intros Hf. split.
  - unfold Py.getitem in Hf. destruct (Models.traits k) as [| | | | | | |d| |]; try done.
    simpl. destruct (Models.dict_get "node_attrs" d) as [na|] eqn:Ed; [|done].
    reflexivity.
  - destruct (Py.getitem (Models.traits k) "node_attrs") as [na|e]; [|done]. simpl in Hf.
    destruct (Io.dict_keys na) as [keys|e]; [|done]. simpl in Hf.
    by apply (flatten_keys_grows keys).
Qed.

Lemma flatten_traits_only_adds_traits_witness :
  Io.flatten_traits
    (Models.set_traits (VDict [("node_attrs", Samples.node_attrs 5 2020)]) Models.Leaf_init)
  = Ok (Models.set_traits
          (VDict [("node_attrs", Samples.node_attrs 5 2020); ("divergence", VInt 5);
                  ("num_date", VFloat 2020)]) Models.Leaf_init)
  /\ Py.contains "node_attrs" (VDict [("node_attrs", Samples.node_attrs 5 2020)]) = Ok true.
Proof.
  assert (E : Io.flatten_traits
                (Models.set_traits (VDict [("node_attrs", Samples.node_attrs 5 2020)])
                   Models.Leaf_init)
              = Ok (Models.set_traits
                      (VDict [("node_attrs", Samples.node_attrs 5 2020);
                              ("divergence", VInt 5); ("num_date", VFloat 2020)])
                      Models.Leaf_init)) by (vm_compute; reflexivity).
  split; [exact E|].
  exact (proj1 (flatten_traits_only_adds_traits _ _ E)).
Defined.



Lemma set_length_id k : Models.set_length (Models.length k) k = k.
Proof. by destruct k. Qed.

Lemma derive_length_only_length unit os i k k' :
  Io.derive_length unit os i k = Ok k' ->
  k' = Models.set_length (Models.length k') k.
Proof.
  unfold Io.derive_length.
  destruct (Models.getattr k unit) as [cur|e]; [|done]. simpl.
  destruct (Io.getattr_of os (Models.parent k) unit) as [par|e]; [|done]. simpl.
  destruct (if (Py.truthy cur && Py.truthy par)%bool then Py.sub cur par else Ok (VFloat 0))
    as [len|e]; [|done]. simpl.
  by intros [= <-].
Qed.



End RegistryPasses.

(** ** io.py: the colour map of load_json *)
Section ColourMap.

Lemma key_eq_trans a b c :
  Py.key_eq a b = true -> Py.key_eq b c = true -> Py.key_eq a c = true.
Proof.
  unfold Py.key_eq.
  destruct (Py.number a) as [x|] eqn:Ea; destruct (Py.number b) as [y|] eqn:Eb;
    try discriminate; destruct (Py.number c) as [z|] eqn:Ec; try discriminate.
  - rewrite !Qeq_bool_iff. intros Hxy Hyz. by rewrite Hxy.
  - destruct a, b; try discriminate; destruct c; try discriminate;
      rewrite ?bool_decide_eq_true; congruence.
Qed.

(** The keys of a dictionary after an assignment, up to the equality of
    keys. *)
Lemma assoc_set_keys {V} (key : PyVal) (v : V) d k :
  (exists k', k' ∈ (Io.assoc_set key v d).*1 /\ Py.key_eq k' k = true)
  <-> Py.key_eq key k = true \/ exists k', k' ∈ d.*1 /\ Py.key_eq k' k = true.
Proof.
  induction d as [|[k0 w] d IH]; simpl.
  - split.
    + intros (k' & Hk' & He). apply list_elem_of_singleton in Hk' as ->. by left.
    + intros [He | (k' & Hk' & _)]; [|by apply elem_of_nil in Hk'].
      exists key. split; [by left | done].
  - destruct (Py.key_eq k0 key) eqn:E0; simpl.
    + split; [by right|]. intros [He | Hk]; [|done].
      exists k0. split; [by left|]. by apply (key_eq_trans k0 key k).
    + split.
      * intros (k' & Hk' & He). apply elem_of_cons in Hk' as [-> | Hk'].
        -- right. exists k0. split; [by left | done].
        -- destruct (proj1 IH) as [Hl | (k1 & Hk1 & He1)]; [by eauto | by left |].
           right. exists k1. split; [by right | done].
      * intros [He | (k' & Hk' & He)].
        -- destruct (proj2 IH) as (k1 & Hk1 & He1); [by left|].
           exists k1. split; [by right | done].
        -- apply elem_of_cons in Hk' as [-> | Hk'].
           ++ exists k0. split; [by left | done].
           ++ destruct (proj2 IH) as (k1 & Hk1 & He1); [right; by eauto|].
              exists k1. split; [by right | done].
Qed.

(** X17: the colour map holds a key exactly for the colourings of the
    document that are categorical and have a scale: colourings of any
    other type, and categorical ones without a scale, leave no entry.
    Keys are hashable values of any type, and count as dictionary keys
    do: [1], [1.0] and [True] are one key. *)
Theorem build_cmap_keys colorings acc cmap k :
  Io.build_cmap colorings acc = Ok cmap ->
  (exists k', k' ∈ cmap.*1 /\ Py.key_eq k' k = true)
  <-> (exists k', k' ∈ acc.*1 /\ Py.key_eq k' k = true)
      \/ exists c kv, c ∈ colorings
           /\ Py.getitem c "type" = Ok (VStr "categorical")
           /\ Py.contains "scale" c = Ok true
           /\ Py.getitem c "key" = Ok kv
           /\ Py.key_eq kv k = true.
Proof.
  revert acc. induction colorings as [|c rest IH]; intros acc; simpl.
  - intros [= <-]. split; [auto|].
    intros [Hk | (c & kv & Hc & _)]; [done|]. by apply elem_of_nil in Hc.
  - destruct (Py.getitem c "type") as [ty|e] eqn:Ety; [|done]. simpl.
    destruct (Io.is_categorical ty) eqn:Hcat.
    + assert (ty = VStr "categorical") as ->.
      { destruct ty; try done. apply bool_decide_eq_true in Hcat. by subst. }
      destruct (Py.contains "scale" c) as [has_scale|e] eqn:Esc; [|done]. simpl.
      destruct has_scale.
      * destruct (Py.getitem c "key") as [kv|e] eqn:Ekey; [|done]. simpl.
        destruct (Io.hash kv) as [[]|e]; [|done]. simpl.
        destruct (Py.getitem c "scale") as [scale|e]; [|done]. simpl.
        destruct (Py.iterate scale) as [entries|e]; [|done]. simpl.
        destruct (Io.scale_entries entries []) as [colours|e]; [|done]. simpl.
        intros Hrest. rewrite (IH _ Hrest), assoc_set_keys. split.
        -- intros [[He | Hk] | (c' & kv' & Hc' & Hp)].
           ++ right. exists c, kv. split; [by left|done].
           ++ by left.
           ++ right. exists c', kv'. split; [by right|done].
        -- intros [Hk | (c' & kv' & Hc' & Hty' & Hsc' & Hkey' & He')]; [by left; right|].
           apply elem_of_cons in Hc' as [-> | Hc'].
           ++ rewrite Ekey in Hkey'. injection Hkey' as ->. by left; left.
           ++ right. exists c', kv'. done.
      * intros Hrest. rewrite (IH _ Hrest). split.
        -- intros [Hk | (c' & kv' & Hc' & Hp)]; [by left|].
           right. exists c', kv'. split; [by right|done].
        -- intros [Hk | (c' & kv' & Hc' & Hty' & Hsc' & Hkey' & He')]; [by left|].
           apply elem_of_cons in Hc' as [-> | Hc'].
           ++ rewrite Esc in Hsc'. discriminate.
           ++ right. exists c', kv'. done.
    + simpl. intros Hrest. rewrite (IH _ Hrest). split.
      * intros [Hk | (c' & kv' & Hc' & Hp)]; [by left|].
        right. exists c', kv'. split; [by right|done].
      * intros [Hk | (c' & kv' & Hc' & Hty' & Hsc' & Hkey' & He')]; [by left|].
        apply elem_of_cons in Hc' as [-> | Hc'].
        -- rewrite Ety in Hty'. injection Hty' as ->. done.
        -- right. exists c', kv'. done.
Qed.

Lemma build_cmap_keys_witness :
  Io.build_cmap Samples.sample_colorings [] = Ok Samples.sample_cmap
  /\ ((exists k', k' ∈ Samples.sample_cmap.*1 /\ Py.key_eq k' (VFloat 1) = true)
      <-> (exists k', k' ∈ ([] : list (PyVal * list (PyVal * PyVal))).*1
                      /\ Py.key_eq k' (VFloat 1) = true)
          \/ exists c kv,
               c ∈ Samples.sample_colorings
               /\ Py.getitem c "type" = Ok (VStr "categorical")
               /\ Py.contains "scale" c = Ok true
               /\ Py.getitem c "key" = Ok kv
               /\ Py.key_eq kv (VFloat 1) = true).
Proof.
  assert (E : Io.build_cmap Samples.sample_colorings [] = Ok Samples.sample_cmap)
    by (vm_compute; reflexivity).
  split; [exact E|].
  exact (build_cmap_keys _ _ _ (VFloat 1) E).
Defined.

End ColourMap.

Section JsonSamples.
Local Existing Instance PyStd.std.
Local Existing Instance Recorder.engine.
Import Samples.

Lemma load_json_refuses_incomplete_translation_witness :
  Io.translation_has_required [("name", TStr "name")] = false
  /\ Io.load_json (Io.JsonObject auspice_doc) [("name", TStr "name")] true true true
       (file_world "none" [])
     = (Raise (AssertionError
                 "JSON translation dictionary missing entries: height, absolute_time, length"),
        file_world "none" []).
Proof.
  assert (Hreq : Io.translation_has_required [("name", TStr "name")] = false) by reflexivity.
  split; [exact Hreq|].
  exact (@load_json_refuses_incomplete_translation Recorder.engine
           (Io.JsonObject auspice_doc) [("name", TStr "name")] true true true
           (file_world "none" []) Hreq).
Defined.

Lemma load_json_returns_meta_witness :
  snd <$> (Io.load_json (Io.JsonObject auspice_doc)
             [("name", TStr "name"); ("length", TStr "div")] false true true
             (file_world "none" [])).1
  = Ok (VDict [("colorings", VList [])])
  /\ Io.translation_has_required [("name", TStr "name"); ("length", TStr "div")] = true
  /\ Io.translation_is_exclusive [("name", TStr "name"); ("length", TStr "div")] = true
  /\ exists doc,
       JsonSpec.json_document (file_world "none" []) (Io.JsonObject auspice_doc) = Some doc
       /\ Py.getitem doc "meta" = Ok (VDict [("colorings", VList [])]).
Proof.
  destruct (Io.load_json (Io.JsonObject auspice_doc)
              [("name", TStr "name"); ("length", TStr "div")] false true true
              (file_world "none" [])).1 as [[t meta]|e] eqn:E.
  - assert (Hm : meta = VDict [("colorings", VList [])]).
    { apply (f_equal (fmap snd)) in E. vm_compute in E. by injection E as <-. }
    subst meta. split; [reflexivity|].
    exact (@load_json_returns_meta Recorder.engine (Io.JsonObject auspice_doc)
             [("name", TStr "name"); ("length", TStr "div")] false true true
             (file_world "none" []) t _ E).
  - vm_compute in E. discriminate E.
Defined.

End JsonSamples.

(** ** io.py: a tip date that cannot be obtained *)
Section CalibrationFailure.
Context `{PyLib} `{TreeEngine}.
Import IoSpec.

Lemma mapM_raise_after {A B} (f : A -> result B) pre x post ds e :
  mapM f pre = Ok ds -> f x = Raise e -> mapM f (pre ++ x :: post) = Raise e.
Proof.
  intros Hpre Hx. revert ds Hpre. induction pre as [|a pre IH]; intros ds Hpre; simpl.
  - by rewrite Hx.
  - simpl in Hpre. destruct (f a) as [y|e']; [|done]. simpl in Hpre |- *.
    destruct (mapM f pre) as [k|e'] eqn:Ek; [|done].
    by rewrite (IH k eq_refl).
Qed.

(** X18: a tip whose name the date pattern matches but whose date
    [decimal_date] cannot convert is not skipped: with every earlier tip
    fine, the calibration of both text loaders fails with the error of the
    conversion, whatever the later tips are. *)
Theorem calibrate_fails_on_unparsable_tip_date tip_regex date_fmt variable_date
    (ll : Tree) pre k post ds s m g e :
  get_external ll = pre ++ k :: post ->
  mapM (tip_date tip_regex date_fmt variable_date) pre = Ok ds ->
  Models.name k = VStr s ->
  re_search tip_regex s = Some m ->
  m !! 1 = Some g ->
  Dates.decimal_date g date_fmt variable_date = Raise e ->
  Io.calibrate tip_regex date_fmt variable_date ll = Raise e.
Proof.
  intros Hext Hpre Hname Hm Hg Hd.
  unfold Io.calibrate. rewrite collect_tip_dates_spec, Hext.
  rewrite (mapM_raise_after _ pre k post ds e Hpre); [reflexivity|].
  unfold tip_date, Io.py_re_search, Io.group. rewrite Hname, Hm. simpl.
  rewrite Hg. simpl. by rewrite Hd.
Qed.

End CalibrationFailure.

Section CalibrationSamples.
Local Existing Instance PyStd.std.
Local Existing Instance Recorder.engine.
Import Samples.

Lemma calibrate_fails_on_unparsable_tip_date_witness :
  get_external (Recorder.mk_tree []
                  (imap Recorder.leaf_named ["A|2020-01-15"; "B|2020-13-45"; "C"]))
  = imap Recorder.leaf_named ["A|2020-01-15"]
    ++ Recorder.leaf_named 1 "B|2020-13-45" :: [Recorder.leaf_named 2 "C"]
  /\ Dates.decimal_date "2020-13-45" "%Y-%m-%d" true
     = Raise (ValueError "time data does not match format")
  /\ Io.calibrate PyStd.default_tip_regex "%Y-%m-%d" true
       (Recorder.mk_tree []
          (imap Recorder.leaf_named ["A|2020-01-15"; "B|2020-13-45"; "C"]))
     = Raise (ValueError "time data does not match format").
Proof.
  assert (Hext : get_external
                   (Recorder.mk_tree []
                      (imap Recorder.leaf_named ["A|2020-01-15"; "B|2020-13-45"; "C"]))
                 = imap Recorder.leaf_named ["A|2020-01-15"]
                   ++ Recorder.leaf_named 1 "B|2020-13-45" :: [Recorder.leaf_named 2 "C"])
    by (vm_compute; reflexivity).
  assert (Hd : Dates.decimal_date "2020-13-45" "%Y-%m-%d" true
               = Raise (ValueError "time data does not match format"))
    by (vm_compute; reflexivity).
  split; [exact Hext|]. split; [exact Hd|].
  apply (@calibrate_fails_on_unparsable_tip_date PyStd.std Recorder.engine
           PyStd.default_tip_regex "%Y-%m-%d" true _ _ _ _
           [Some (VFloat (4442111091858695 # 2199023255552))]
           "B|2020-13-45" ["|2020-13-45"; "2020-13-45"] "2020-13-45" _ Hext).
  - vm_compute. reflexivity.
  - reflexivity.
  - vm_compute. reflexivity.
  - reflexivity.
  - exact Hd.
Defined.

End CalibrationSamples.

